(** * Feynman-diagram sketcher: shape parser, colour classifier, TikZ generator
      and matplotlib renderer of [streamlit_app.py]

    The script receives the drawing as the JSON document of the canvas widget
    (a Python [dict] of [dict]s, lists, strings and numbers), classifies every
    shape by its stroke colour, and derives a TikZ listing and a matplotlib
    figure from the resulting nodes and edges.

    The embedding is shallow.  Python values are a small universe [value];
    every operation that can raise in Python returns a [result]; strings are
    byte strings holding the UTF-8 encoding of the Python text (substring
    search on well-formed UTF-8 agrees with substring search on code points);
    integers are [Z]; floats are IEEE-754 binary64 numbers in the executable
    specification [spec_float] of the standard library.

    The functions are modelled body by body, as they are written.  (As the
    file stands, CPython refuses to compile it: the docstring of
    [generate_tikz] is not a raw string and contains [\usetikzlibrary], an
    incomplete [\u] escape.  The embedding takes the docstring as the inert
    text it is meant to be.) *)

From Stdlib Require Import List String Ascii ZArith Bool Lia DecimalString.
From Stdlib Require Import SpecFloat FinFun.
From Stdlib Require DecimalZ DecimalPos.
Import ListNotations.

Open Scope string_scope.
Open Scope Z_scope.

(* ================================================================== *)
(** ** Exceptions and the error monad *)

Inductive exn : Type :=
| TypeError
| AttributeError
| OverflowError
| ValueError
| IndexError.

Inductive result (A : Type) : Type :=
| Ok (a : A)
| Raise (e : exn).

Arguments Ok {A} a.
Arguments Raise {A} e.

Definition bind {A B : Type} (r : result A) (k : A -> result B) : result B :=
  match r with
  | Ok a => k a
  | Raise e => Raise e
  end.

Notation "x <- c1 ;; c2" := (bind c1 (fun x => c2))
  (at level 61, c1 at next level, right associativity).

Definition is_ok {A : Type} (r : result A) : bool :=
  match r with Ok _ => true | Raise _ => false end.

(* ================================================================== *)
(** ** Python strings *)

Module Str.

(** [c.lower()] on one byte.  Only the ASCII capitals change; the bytes of
    a multi-byte UTF-8 sequence are left alone.  (Python also lowers
    non-ASCII capitals; none of them lowers to a hexadecimal digit or to
    ['#'], the only characters the colour table is made of.) *)
Definition lower_ascii (c : ascii) : ascii :=
  let n := nat_of_ascii c in
  if (65 <=? n)%nat && (n <=? 90)%nat then ascii_of_nat (n + 32) else c.

(** [s.lower()] *)
Fixpoint lower (s : string) : string :=
  match s with
  | EmptyString => EmptyString
  | String c s' => String (lower_ascii c) (lower s')
  end.

(** [c in chars] for a single character *)
Fixpoint mem (c : ascii) (chars : string) : bool :=
  match chars with
  | EmptyString => false
  | String c' r => Ascii.eqb c c' || mem c r
  end.

(** [s.lstrip(chars)]: drop every leading character that occurs in [chars] *)
Fixpoint lstrip (chars s : string) : string :=
  match s with
  | EmptyString => EmptyString
  | String c s' => if mem c chars then lstrip chars s' else s
  end.

(** [s.startswith(p)] *)
Fixpoint startswith (p s : string) : bool :=
  match p, s with
  | EmptyString, _ => true
  | String _ _, EmptyString => false
  | String a p', String b s' => Ascii.eqb a b && startswith p' s'
  end.

(** [sub in s]: substring test *)
Fixpoint contains (sub s : string) : bool :=
  startswith sub s ||
  match s with
  | EmptyString => false
  | String _ s' => contains sub s'
  end.

(** [sep.join(parts)] *)
Fixpoint join (sep : string) (parts : list string) : string :=
  match parts with
  | [] => ""
  | [p] => p
  | p :: rest => p ++ sep ++ join sep rest
  end.

(** The newline character, written ["\n"] in the source. *)
Definition nl : string := String (ascii_of_nat 10) "".

(** [str(z)] for an integer *)
Definition of_int (z : Z) : string := NilZero.string_of_int (Z.to_int z).

End Str.

Infix "in?" := Str.contains (at level 70, no associativity).

(* ================================================================== *)
(** ** Python floats (binary64) *)

Module Float.

Definition prec : Z := 53.
Definition emax : Z := 1024.

Definition add : spec_float -> spec_float -> spec_float := SFadd prec emax.
Definition sub : spec_float -> spec_float -> spec_float := SFsub prec emax.
Definition mul : spec_float -> spec_float -> spec_float := SFmul prec emax.

(** The binary64 number nearest to an integer, ties to even. *)
Definition nearest (z : Z) : spec_float := binary_normalize prec emax z 0 false.

(** [float(z)]: the nearest binary64 number; [OverflowError] when the
    integer is beyond the finite range. *)
Definition of_int (z : Z) : result spec_float :=
  match nearest z with
  | S754_infinity _ => Raise OverflowError
  | f => Ok f
  end.

(** The float a decimal literal [p/q] denotes: the binary64 number nearest
    to the exact quotient (used for the constants [0.7] and [0.001]). *)
Definition of_ratio (p q : Z) : spec_float :=
  SFdiv prec emax (nearest p) (nearest q).

(** Round the exact value [m * 2^e * 10] to an integer, ties to even. *)
Definition tenths (m : positive) (e : Z) : Z :=
  if 0 <=? e then Z.pos m * 2 ^ e * 10
  else
    let num := Z.pos m * 10 in
    let den := 2 ^ (- e) in
    let q := num / den in
    let r := num mod den in
    match 2 * r ?= den with
    | Lt => q
    | Gt => q + 1
    | Eq => if Z.even q then q else q + 1
    end.

Definition sign (s : bool) : string := if s then "-" else "".

(** [format(f, ".1f")]: the exact binary value correctly rounded to one
    digit after the point. *)
Definition format_1f (f : spec_float) : string :=
  match f with
  | S754_nan => "nan"
  | S754_infinity s => sign s ++ "inf"
  | S754_zero s => sign s ++ "0.0"
  | S754_finite s m e =>
      let t := tenths m e in
      sign s ++ Str.of_int (t / 10) ++ "." ++ Str.of_int (t mod 10)
  end.

Definition is_zero (f : spec_float) : bool :=
  match f with S754_zero _ => true | _ => false end.

End Float.

(* ================================================================== *)
(** ** Python values *)

#[warnings="-register-all"]
Inductive value : Type :=
| VNone
| VBool (b : bool)
| VInt (z : Z)
| VFloat (f : spec_float)
| VStr (s : string)
| VList (l : list value)
| VDict (d : list (string * value)).

(** A [dict] with string keys, as [json] builds them. *)
Definition dict : Type := list (string * value).

Module Py.

(** Truth value of an object ([if v:], [v or w]). *)
Definition truthy (v : value) : bool :=
  match v with
  | VNone => false
  | VBool b => b
  | VInt z => negb (z =? 0)
  | VFloat f => negb (Float.is_zero f)
  | VStr s => negb (String.eqb s "")
  | VList l => match l with [] => false | _ => true end
  | VDict d => match d with [] => false | _ => true end
  end.

(** [key in d] and [d.get(key, default)] on a dict *)
Fixpoint lookup (d : dict) (key : string) : option value :=
  match d with
  | [] => None
  | (k, v) :: rest => if String.eqb k key then Some v else lookup rest key
  end.

Definition get (d : dict) (key : string) (default : value) : value :=
  match lookup d key with
  | Some v => v
  | None => default
  end.

(** [v.lower()]: only strings have the method. *)
Definition lower (v : value) : result string :=
  match v with
  | VStr s => Ok (Str.lower s)
  | _ => Raise AttributeError
  end.

(** Numbers: [bool] is a subclass of [int]. *)
Inductive num : Type :=
| Int (z : Z)
| Flt (f : spec_float).

Definition as_num (v : value) : option num :=
  match v with
  | VBool b => Some (Int (if b then 1 else 0))
  | VInt z => Some (Int z)
  | VFloat f => Some (Flt f)
  | _ => None
  end.

Definition to_float (n : num) : result spec_float :=
  match n with
  | Int z => Float.of_int z
  | Flt f => Ok f
  end.

(** Binary arithmetic on numbers: exact on two integers, binary64 as soon
    as one operand is a float. *)
Definition arith (iop : Z -> Z -> Z) (fop : spec_float -> spec_float -> spec_float)
           (a b : num) : result value :=
  match a, b with
  | Int x, Int y => Ok (VInt (iop x y))
  | _, _ =>
      fa <- to_float a ;;
      fb <- to_float b ;;
      Ok (VFloat (fop fa fb))
  end.

(** [a + b]: numbers add, strings and lists concatenate. *)
Definition add (a b : value) : result value :=
  match as_num a, as_num b with
  | Some x, Some y => arith Z.add Float.add x y
  | _, _ =>
      match a, b with
      | VStr s, VStr t => Ok (VStr (s ++ t))
      | VList l, VList m => Ok (VList (l ++ m))
      | _, _ => Raise TypeError
      end
  end.

(** [a - b]: numbers only. *)
Definition sub (a b : value) : result value :=
  match as_num a, as_num b with
  | Some x, Some y => arith Z.sub Float.sub x y
  | _, _ => Raise TypeError
  end.

(** [a * b] on numbers.  (The script multiplies a float constant with a
    difference, so the sequence-repetition overloads cannot occur.) *)
Definition mul (a b : value) : result value :=
  match as_num a, as_num b with
  | Some x, Some y => arith Z.mul Float.mul x y
  | _, _ => Raise TypeError
  end.

(** [f"{v:.1f}"] *)
Definition format_1f (v : value) : result string :=
  match as_num v with
  | Some n => f <- to_float n ;; Ok (Float.format_1f f)
  | None =>
      match v with
      | VStr _ => Raise ValueError
      | _ => Raise TypeError
      end
  end.

End Py.

(* ================================================================== *)
(** ** The colour table and the classifier *)

Definition CANVAS_WIDTH : Z := 800.
Definition CANVAS_HEIGHT : Z := 400.

(** [color_map]: a dict literal, iterated in insertion order. *)
Definition color_map : list (string * string) :=
  [ ("vértice (vertex)", "#000000");
    ("fermion (→/←)", "#1f77b4");
    ("antifermion (←/→)", "#ff7f0e");
    ("fotón (photon)", "#2ca02c");
    ("gluón (gluon)", "#d62728");
    ("línea neutra (línea simple)", "#9467bd") ].

(** [color_map[key]]; the script only indexes with keys of the literal. *)
Definition color_of (key : string) : string :=
  match find (fun kv => String.eqb (fst kv) key) color_map with
  | Some (_, v) => v
  | None => ""
  end.

(** The first key whose colour satisfies [test], as the [for ... return k]
    loops compute it. *)
Definition first_key (test : string -> bool) : option string :=
  match find (fun kv => test (snd kv)) color_map with
  | Some (k, _) => Some k
  | None => None
  end.

(** [color_to_type(hexcolor)]; [None] is Python's [None]. *)
Definition color_to_type (hexcolor : option string) : string :=
  let h := Str.lower (match hexcolor with Some s => s | None => "" end) in
  match first_key (fun v => String.eqb (Str.lower v) h) with
  | Some k => k
  | None =>
      (* si no coincide exactamente, intenta comparar por substring *)
      match first_key (fun v => Str.lstrip "#" (Str.lower v) in? h) with
      | Some k => k
      | None => "desconocido"
      end
  end.

(* ================================================================== *)
(** ** Nodes, edges and the parser *)

Module Node.
Record t : Type := mk {
  id : Z;
  x : value;
  y : value;
  type : string;
  raw : value
}.
End Node.

Module Edge.
Record t : Type := mk {
  x1 : value;
  y1 : value;
  x2 : value;
  y2 : value;
  type : string;
  raw : value
}.
End Edge.

(** [typ == name] for a string literal [name]. *)
Definition eq_str (typ : value) (name : string) : bool :=
  match typ with
  | VStr s => String.eqb s name
  | _ => false
  end.

(** The [stroke = ...] conditional expression of the loop body. *)
Definition stroke_of (obj : dict) : result string :=
  if Py.truthy (Py.get obj "stroke" VNone) then
    Py.lower (Py.get obj "stroke" (VStr ""))
  else if Py.truthy (Py.get obj "strokeStyle" VNone) then
    Py.lower (Py.get obj "strokeStyle" (VStr ""))
  else Ok "".

(** [p.get(key, default)] on an arbitrary object: only dicts have [get]. *)
Definition item_get (p : value) (key : string) (default : value) : result value :=
  match p with
  | VDict d => Ok (Py.get d key default)
  | _ => Raise AttributeError
  end.

(** The circle/ellipse branch. *)
Definition parse_circle (node_id : Z) (obj : dict) (stroke : string)
  : result Node.t :=
  let left := Py.get obj "left" (VInt 0) in
  let top := Py.get obj "top" (VInt 0) in
  let rx := Py.get obj "radiusX" (Py.get obj "rx" (VInt 10)) in
  let ry := Py.get obj "radiusY" (Py.get obj "ry" (VInt 10)) in
  cx <- Py.add left rx ;;
  cy <- Py.add top ry ;;
  Ok (Node.mk node_id cx cy (color_to_type (Some stroke)) (VDict obj)).

(** The line/path branch. *)
Definition parse_line (obj : dict) (stroke : string) : result Edge.t :=
  let x1 := Py.get obj "x1" VNone in
  let y1 := Py.get obj "y1" VNone in
  let x2 := Py.get obj "x2" VNone in
  let y2 := Py.get obj "y2" VNone in
  let emit x1 y1 x2 y2 :=
    Ok (Edge.mk x1 y1 x2 y2 (color_to_type (Some stroke)) (VDict obj)) in
  match x1 with
  | VNone =>
      (* try path -> approximate by bounding box or first/last points *)
      let left := Py.get obj "left" (VInt 0) in
      let top := Py.get obj "top" (VInt 0) in
      let points :=
        let p := Py.get obj "points" VNone in
        if Py.truthy p then p else VList [] in
      match points with
      | VList ((p0 :: _ :: _) as pts) =>
          let pN := last pts p0 in
          p0x <- item_get p0 "x" (VInt 0) ;;
          x1 <- Py.add left p0x ;;
          p0y <- item_get p0 "y" (VInt 0) ;;
          y1 <- Py.add top p0y ;;
          pNx <- item_get pN "x" (VInt 0) ;;
          x2 <- Py.add left pNx ;;
          pNy <- item_get pN "y" (VInt 0) ;;
          y2 <- Py.add top pNy ;;
          emit x1 y1 x2 y2
      | _ =>
          (* fallback: use left/top and width/height *)
          let w := Py.get obj "width" (VInt 0) in
          let h := Py.get obj "height" (VInt 0) in
          x2 <- Py.add left w ;;
          y2 <- Py.add top h ;;
          emit left top x2 y2
      end
  | _ => emit x1 y1 x2 y2
  end.

(** What one iteration of the loop appends. *)
Inductive parsed : Type :=
| PNode (n : Node.t)
| PEdge (e : Edge.t)
| PSkip.

(** The body of [for obj in objects]. *)
Definition parse_object (node_id : Z) (obj : value) : result parsed :=
  match obj with
  | VDict d =>
      let typ := Py.get d "type" VNone in
      stroke <- stroke_of d ;;
      if eq_str typ "circle" || eq_str typ "ellipse" then
        n <- parse_circle node_id d stroke ;; Ok (PNode n)
      else if eq_str typ "line" || eq_str typ "path" then
        e <- parse_line d stroke ;; Ok (PEdge e)
      else
        (* ignoramos rect/freedraw/others en el parseado por ahora *)
        Ok PSkip
  | _ => Raise AttributeError
  end.

(** The loop, threading [node_id], [nodes] and [edges]. *)
Fixpoint parse_loop (objects : list value) (node_id : Z)
         (nodes : list Node.t) (edges : list Edge.t)
  : result (list Node.t * list Edge.t) :=
  match objects with
  | [] => Ok (nodes, edges)
  | obj :: rest =>
      p <- parse_object node_id obj ;;
      match p with
      | PNode n => parse_loop rest (node_id + 1) (nodes ++ [n]) edges
      | PEdge e => parse_loop rest node_id nodes (edges ++ [e])
      | PSkip => parse_loop rest node_id nodes edges
      end
  end.

(** [for obj in objects]: what iterating an object yields. *)
Definition iterate (objects : value) : result (list value) :=
  match objects with
  | VList l => Ok l
  | VStr s => Ok (map (fun c => VStr (String c "")) (list_ascii_of_string s))
  | VDict d => Ok (map (fun kv => VStr (fst kv)) d)
  | _ => Raise TypeError
  end.

(** [parse_canvas_objects(json_data)] *)
Definition parse_canvas_objects (json_data : value)
  : result (list Node.t * list Edge.t) :=
  if negb (Py.truthy json_data) then Ok ([], [])
  else
    match json_data with
    | VDict d =>
        match Py.lookup d "objects" with
        | None => Ok ([], [])
        | Some objects =>
            l <- iterate objects ;;
            parse_loop l 0 [] []
        end
    | VStr s =>
        (* a substring test, then [json_data["objects"]] on a string *)
        if "objects" in? s then Raise TypeError else Ok ([], [])
    | VList l =>
        (* a membership test, then [json_data["objects"]] on a list *)
        if existsb (fun v => eq_str v "objects") l then Raise TypeError
        else Ok ([], [])
    | _ => Raise TypeError
    end.

(** [mapM]: a [for] loop that appends one result per element and stops at the
    first exception. *)
Fixpoint mapM {A B : Type} (f : A -> result B) (l : list A) : result (list B) :=
  match l with
  | [] => Ok []
  | a :: rest =>
      b <- f a ;;
      bs <- mapM f rest ;;
      Ok (b :: bs)
  end.

(* ================================================================== *)
(** ** The TikZ generator *)

(** The [if]/[elif] chain that picks [style] and [extra] for an edge type. *)
Definition tikz_style (typ : string) : string * string :=
  let style := "->" in  (* default arrow *)
  let extra := "" in
  if ("fotón" in? typ) || ("photon" in? typ) then ("", "[photon]")
  else if "gluón" in? typ then ("", "[gluon]")
  else if "fermion" in? typ then ("->", extra)
  else if "antifermion" in? typ then ("<-", extra)
  else if "línea neutra" in? typ then ("", extra)
  else (style, extra).

(** One iteration of [for n in nodes]. *)
Definition node_line (height : Z) (n : Node.t) : result string :=
  let x := Node.x n in
  let y := Node.y n in
  (* invertir Y para coordenadas tikz-friendly *)
  ty <- Py.sub (VInt height) y ;;
  fx <- Py.format_1f x ;;
  fty <- Py.format_1f ty ;;
  Ok ("\node[draw, circle, inner sep=1pt] (n" ++ Str.of_int (Node.id n)
      ++ ") at (" ++ fx ++ "," ++ fty ++ ") {" ++ Str.of_int (Node.id n) ++ "};").

(** One iteration of [for i, e in enumerate(edges)]. *)
Definition edge_line (height : Z) (e : Edge.t) : result string :=
  ty1 <- Py.sub (VInt height) (Edge.y1 e) ;;
  ty2 <- Py.sub (VInt height) (Edge.y2 e) ;;
  let '(style, extra) := tikz_style (Edge.type e) in
  fx1 <- Py.format_1f (Edge.x1 e) ;;
  fty1 <- Py.format_1f ty1 ;;
  fx2 <- Py.format_1f (Edge.x2 e) ;;
  fty2 <- Py.format_1f ty2 ;;
  Ok ("\draw" ++ extra ++ " (" ++ fx1 ++ "," ++ fty1 ++ ") " ++ style
      ++ " -- (" ++ fx2 ++ "," ++ fty2 ++ ");").

Definition tikz_header : string :=
  "% TikZ generado automáticamente" ++ Str.nl ++
  "\begin{tikzpicture}[scale=0.035, >=Stealth]" ++ Str.nl ++
  "\tikzset{photon/.style={decorate, decoration={snake, amplitude=1.2mm}, line width=1pt}}" ++ Str.nl ++
  "\tikzset{gluon/.style={decorate, decoration={coil, aspect=0.6, segment length=2pt}, line width=1pt}}" ++ Str.nl.

Definition tikz_footer : string := "\end{tikzpicture}" ++ Str.nl.

(** [generate_tikz(nodes, edges, width, height)].  [width] is not used by
    the body; neither are [scale_x] and [scale_y]. *)
Definition generate_tikz (nodes : list Node.t) (edges : list Edge.t)
           (width height : Z) : result string :=
  node_lines <- mapM (node_line height) nodes ;;
  edge_lines <- mapM (edge_line height) edges ;;
  Ok (tikz_header ++ Str.join Str.nl node_lines ++ Str.nl
      ++ Str.join Str.nl edge_lines ++ Str.nl ++ tikz_footer).

(* ================================================================== *)
(** ** The matplotlib renderer *)

(** The calls the renderer makes on the axes, in order.  What matplotlib
    rasterises from them, and the PNG encoding, are the library's. *)
Inductive artist : Type :=
| Plot (xs ys : value * value) (linestyle : string) (linewidth : Z)
       (color : string)
| FancyArrowPatch (posA posB : value * value) (arrowstyle : string)
       (mutation_scale : Z) (color : string) (linewidth : Z)
| Circle (center : value * value) (radius : Z) (color : string) (zorder : Z)
| Text (x y : value) (s : string) (fontsize : Z).

Record figure : Type := mkfig {
  xlim : Z * Z;
  ylim : Z * Z;
  axis_off : bool;
  artists : list artist
}.

(** The [if]/[elif] chain that picks [color], [style] and [arrow]. *)
Definition edge_style (typ : string) : string * string * bool :=
  let color := "#222222" in
  let style := "solid" in
  let arrow := false in
  if "fermion" in? typ then (color_of "fermion (→/←)", "solid", true)
  else if "antifermion" in? typ then (color_of "antifermion (←/→)", "solid", true)
  else if ("fotón" in? typ) || ("photon" in? typ) then
    (color_of "fotón (photon)", "dashdot", false)
  else if "gluón" in? typ then (color_of "gluón (gluon)", "dashed", false)
  else if "línea neutra" in? typ then
    (color_of "línea neutra (línea simple)", "solid", false)
  else (color, style, arrow).

(** The float literals [0.7] and [0.001]. *)
Definition f0_7 : spec_float := Eval vm_compute in Float.of_ratio 7 10.
Definition f0_001 : spec_float := Eval vm_compute in Float.of_ratio 1 1000.

(** The arrow head of a directed edge: [FancyArrowPatch((sx, sy), (sx+dx, sy+dy), ...)]. *)
Definition draw_arrow (x1 y1 x2 y2 : value) (color : string) : result artist :=
  (* posición de la flecha: 70% del camino *)
  wx <- Py.sub x2 x1 ;;
  px <- Py.mul (VFloat f0_7) wx ;;
  sx <- Py.add x1 px ;;
  wy <- Py.sub y2 y1 ;;
  py <- Py.mul (VFloat f0_7) wy ;;
  sy <- Py.add y1 py ;;
  wx' <- Py.sub x2 x1 ;;
  dx <- Py.mul wx' (VFloat f0_001) ;;
  wy' <- Py.sub y2 y1 ;;
  dy <- Py.mul wy' (VFloat f0_001) ;;
  hx <- Py.add sx dx ;;
  hy <- Py.add sy dy ;;
  Ok (FancyArrowPatch (sx, sy) (hx, hy) "-|>" 15 color 0).

(** One iteration of [for e in edges]. *)
Definition draw_edge (e : Edge.t) : result (list artist) :=
  let x1 := Edge.x1 e in
  let y1 := Edge.y1 e in
  let x2 := Edge.x2 e in
  let y2 := Edge.y2 e in
  let '(color, style, arrow) := edge_style (Edge.type e) in
  (* Dibujar línea *)
  let line := Plot (x1, x2) (y1, y2) style 2 color in
  (* Si es fermion, añadir flecha *)
  if arrow then
    arr <- draw_arrow x1 y1 x2 y2 color ;;
    Ok [line; arr]
  else Ok [line].

(** ASCII white space, as [str.split()] sees it.  (Python also splits at the
    non-ASCII white space of Unicode; no type name of the script has any.) *)
Definition is_space (c : ascii) : bool :=
  let n := nat_of_ascii c in
  ((9 <=? n) && (n <=? 13) || (28 <=? n) && (n <=? 32))%nat.

Fixpoint take_word (s : string) : string :=
  match s with
  | EmptyString => EmptyString
  | String c s' => if is_space c then EmptyString else String c (take_word s')
  end.

(** [s.split()[0]] *)
Fixpoint first_word (s : string) : result string :=
  match s with
  | EmptyString => Raise IndexError
  | String c s' => if is_space c then first_word s' else Ok (take_word s)
  end.

(** One iteration of [for n in nodes]. *)
Definition draw_node (n : Node.t) : result (list artist) :=
  let cx := Node.x n in
  let cy := Node.y n in
  let dot := Circle (cx, cy) 8 "k" 5 in
  (* etiqueta con tipo abreviado *)
  short <- (if negb (String.eqb (Node.type n) "desconocido")
            then first_word (Node.type n) else Ok "N") ;;
  tx <- Py.add cx (VInt 10) ;;
  ty <- Py.sub cy (VInt 10) ;;
  Ok [dot; Text tx ty short 8].

(** [render_diagram_matplotlib(nodes, edges, width, height, dpi)]: the figure
    handed to [savefig].  ([dpi] only sizes the bitmap.) *)
Definition render_diagram_matplotlib (nodes : list Node.t) (edges : list Edge.t)
           (width height : Z) : result figure :=
  es <- mapM draw_edge edges ;;
  ns <- mapM draw_node nodes ;;
  Ok (mkfig (0, width) (height, 0) true (List.concat es ++ List.concat ns)).

(* ================================================================== *)
(** ** The export buttons *)

(** What a button handler puts on the page. *)
Inductive widget : Type :=
| StError (msg : string)
| StImage (im : figure) (caption : string)
| StCode (body : string) (language : string)
| StDownloadPng (label : string) (data : figure) (file_name mime : string)
| StDownloadText (label : string) (data : string) (file_name mime : string).

(** The body of [if st.button("Exportar PNG"):] *)
Definition export_png (nodes : list Node.t) (edges : list Edge.t)
  : result (list widget) :=
  if (Z.of_nat (List.length nodes) + Z.of_nat (List.length edges) =? 0) then
    Ok [StError "No hay objetos en el lienzo para exportar."]
  else
    im <- render_diagram_matplotlib nodes edges CANVAS_WIDTH CANVAS_HEIGHT ;;
    Ok [StImage im "Diagrama exportado (previsualización)";
        StDownloadPng "Descargar PNG" im "diagrama_feynman.png" "image/png"].

(** The body of [if st.button("Generar código TikZ"):] *)
Definition export_tikz (nodes : list Node.t) (edges : list Edge.t)
  : result (list widget) :=
  if (Z.of_nat (List.length nodes) + Z.of_nat (List.length edges) =? 0) then
    Ok [StError "No hay objetos para convertir a TikZ."]
  else
    tikz <- generate_tikz nodes edges CANVAS_WIDTH CANVAS_HEIGHT ;;
    Ok [StCode tikz "tex";
        StDownloadText "Descargar código .tex" tikz "diagrama_feynman.tex"
                       "text/x-tex"].

(* ================================================================== *)
(** * Vocabulary of the properties *)

(** The string [color_to_type] works on: [(hexcolor or "").lower()]. *)
Definition lowered (hexcolor : option string) : string :=
  Str.lower (match hexcolor with Some s => s | None => "" end).

(** The kind of a shape, as the loop body tests it. *)
Definition is_node_shape (obj : value) : bool :=
  match obj with
  | VDict d =>
      eq_str (Py.get d "type" VNone) "circle"
      || eq_str (Py.get d "type" VNone) "ellipse"
  | _ => false
  end.

Definition is_edge_shape (obj : value) : bool :=
  match obj with
  | VDict d =>
      eq_str (Py.get d "type" VNone) "line"
      || eq_str (Py.get d "type" VNone) "path"
  | _ => false
  end.

(** The ids [start, start+1, ...] handed out to [n] nodes. *)
Definition ids_from (start : Z) (n : nat) : list Z :=
  map (fun k => start + Z.of_nat k) (seq 0 n).

(** A number the arithmetic accepts: a float, a bool, or an integer within
    the range of binary64. *)
Definition is_number (v : value) : bool :=
  match Py.as_num v with
  | Some n => is_ok (Py.to_float n)
  | None => false
  end.

(** An optional numeric field: absent, or a number. *)
Definition field_ok (d : dict) (key : string) : bool :=
  match Py.lookup d key with
  | Some v => is_number v
  | None => true
  end.

(** An optional text field: absent, a string, or a false value. *)
Definition text_or_empty (v : value) : bool :=
  match v with
  | VStr _ => true
  | _ => negb (Py.truthy v)
  end.

Definition stroke_ok (d : dict) : bool :=
  text_or_empty (Py.get d "stroke" VNone)
  && text_or_empty (Py.get d "strokeStyle" VNone).

Definition point_ok (p : value) : bool :=
  match p with
  | VDict d => field_ok d "x" && field_ok d "y"
  | _ => false
  end.

Definition points_ok (d : dict) : bool :=
  match Py.get d "points" VNone with
  | VList l => forallb point_ok l
  | _ => true
  end.

Definition geometry_keys : list string :=
  ["left"; "top"; "radiusX"; "rx"; "radiusY"; "ry"; "width"; "height"].

(** A shape record as the canvas widget documents it: a mapping whose stroke
    fields are text and whose geometry fields are numbers, each optional. *)
Definition shape_ok (obj : value) : bool :=
  match obj with
  | VDict d => stroke_ok d && forallb (field_ok d) geometry_keys && points_ok d
  | _ => false
  end.

(** A number whose value is finite: any integer, any float but the
    infinities and NaN. *)
Definition is_finite (f : spec_float) : bool :=
  match f with
  | S754_zero _ | S754_finite _ _ _ => true
  | _ => false
  end.

Definition finite_number (v : value) : bool :=
  match Py.as_num v with
  | Some (Py.Int _) => true
  | Some (Py.Flt f) => is_finite f
  | None => false
  end.

Definition is_digit (c : ascii) : bool :=
  let n := nat_of_ascii c in ((48 <=? n) && (n <=? 57))%nat.

Fixpoint all_digits (s : string) : bool :=
  match s with
  | EmptyString => true
  | String c s' => is_digit c && all_digits s'
  end.

(** An optional minus sign, at least one digit, a point, exactly one digit. *)
Definition one_decimal (s : string) : Prop :=
  exists sg whole d,
    s = sg ++ whole ++ "." ++ String d ""
    /\ (sg = "" \/ sg = "-")
    /\ whole <> "" /\ all_digits whole = true /\ is_digit d = true.

(** The arrow head on integer endpoints [a], [b], in binary64:
    [a + 0.7 * (b - a)] and [(b - a) * 0.001]. *)
Definition arrow_tail (a b : Z) : spec_float :=
  Float.add (Float.nearest a) (Float.mul f0_7 (Float.nearest (b - a))).

Definition arrow_step (a b : Z) : spec_float :=
  Float.mul (Float.nearest (b - a)) f0_001.

(* ================================================================== *)
(** * Sample drawings *)

(** A circle drawn in the Fermion colour (written in mixed case). *)
Definition fermion_circle : dict :=
  [("type", VStr "circle"); ("left", VInt 10); ("top", VInt 20);
   ("radiusX", VInt 5); ("radiusY", VInt 5); ("stroke", VStr "#1F77B4")].

(** An ellipse with no geometry and no stroke at all. *)
Definition bare_ellipse : dict := [("type", VStr "ellipse")].

(** A path with no geometry at all. *)
Definition bare_path : dict := [("type", VStr "path")].

(** A photon line from the origin to (100, 0). *)
Definition photon_line : dict :=
  [("type", VStr "line"); ("x1", VInt 0); ("y1", VInt 0); ("x2", VInt 100);
   ("y2", VInt 0); ("stroke", VStr "#2ca02c")].

(** A rectangle. *)
Definition rect : dict :=
  [("type", VStr "rect"); ("left", VInt 1); ("top", VInt 2);
   ("width", VInt 30); ("height", VInt 40); ("stroke", VStr "#000000")].

(** A circle whose [left] is JSON [null]. *)
Definition null_left_circle : dict := [("type", VStr "circle"); ("left", VNone)].

(** A line that has [x1] but none of [y1], [x2], [y2]. *)
Definition half_line : dict := [("type", VStr "line"); ("x1", VInt 0)].

(** The document the canvas hands over for a list of shapes. *)
Definition canvas (objects : list dict) : value :=
  VDict [("version", VStr "4.4.0"); ("objects", VList (map VDict objects))].

(** Three kinds interleaved: a line, a circle, a rectangle, a path, an ellipse. *)
Definition mixed_drawing : list dict :=
  [photon_line; fermion_circle; rect; bare_path; bare_ellipse].

(** A vertex at canvas position (120, 50). *)
Definition sample_node : Node.t :=
  Node.mk 0 (VInt 120) (VInt 50) "vértice (vertex)" VNone.

(** Sample edges from the origin to (100, 0), one per type name. *)
Definition sample_edge (typ : string) : Edge.t :=
  Edge.mk (VInt 0) (VInt 0) (VInt 100) (VInt 0) typ VNone.

(* ================================================================== *)
(** * The rest of the script *)

(** ** The sidebar: particle selector and stroke colour *)

(** The options of the particle [selectbox]. *)
Definition particle_options : list string :=
  [ "vértice (vertex)";
    "fermion (→/←)";
    "antifermion (←/→)";
    "fotón (photon)";
    "gluón (gluon)";
    "línea neutra (línea simple)" ].

(** [color_map[key]]; [None] stands for [KeyError]. *)
Definition color_map_item (key : string) : option string :=
  match find (fun kv => String.eqb (fst kv) key) color_map with
  | Some (_, v) => Some v
  | None => None
  end.

(** [stroke_color = color_map[particle]], the colour handed to the canvas. *)
Definition stroke_color (particle : string) : option string :=
  color_map_item particle.

(** ** The quick view of the detected diagram *)

(** [int(f)] on a float: truncation towards zero. *)
Definition float_trunc (f : spec_float) : result Z :=
  match f with
  | S754_nan => Raise ValueError
  | S754_infinity _ => Raise OverflowError
  | S754_zero _ => Ok 0
  | S754_finite s m e =>
      let a := if 0 <=? e then Z.pos m * 2 ^ e else Z.pos m / 2 ^ (- e) in
      Ok (if s then - a else a)
  end.

(** What the script puts on the page. *)
Inductive shown : Type :=
| StMarkdown (text : string)
| StWrite (text : string)
| StColumns (n : nat)
| ColumnWrite (col : nat) (text : string)
| StButton (label : string)
| StSuccess (text : string)
| Shown (w : widget).

(** A run of page code: what was put on the page, and the exception that
    stopped it, if any. *)
Definition run : Type := (list shown * option exn)%type.

(** [first; second]: the second part runs only if the first did not raise. *)
Definition and_then (first second : run) : run :=
  match snd first with
  | Some e => first
  | None => (fst first ++ fst second, snd second)%list
  end.

Section QuickView.

(** [int(s)] on a string is Python's own parser of integer literals (signs,
    underscores, Unicode digits and spaces): the model takes it as given. *)
Variable int_of_str : string -> result Z.

(** [int(v)] *)
Definition py_int (v : value) : result Z :=
  match v with
  | VBool b => Ok (if b then 1 else 0)
  | VInt z => Ok z
  | VFloat f => float_trunc f
  | VStr s => int_of_str s
  | VNone | VList _ | VDict _ => Raise TypeError
  end.

(** The text of a node row. *)
Definition node_text (i : nat) (n : Node.t) : result string :=
  x <- py_int (Node.x n) ;;
  y <- py_int (Node.y n) ;;
  Ok ("Node " ++ Str.of_int (Node.id n) ++ ": (" ++ Str.of_int x ++ ", "
      ++ Str.of_int y ++ ") — " ++ Node.type n).

(** The text of an edge row. *)
Definition edge_text (i : nat) (e : Edge.t) : result string :=
  x1 <- py_int (Edge.x1 e) ;;
  y1 <- py_int (Edge.y1 e) ;;
  x2 <- py_int (Edge.x2 e) ;;
  y2 <- py_int (Edge.y2 e) ;;
  Ok ("Edge " ++ Str.of_int (Z.of_nat i) ++ ": (" ++ Str.of_int x1 ++ ","
      ++ Str.of_int y1 ++ ") → (" ++ Str.of_int x2 ++ "," ++ Str.of_int y2
      ++ ") — " ++ Edge.type e).

(** [for i, a in enumerate(l): cols[i % len(cols)].write(row)], from index
    [i] on.  ([ncols] is [len(cols)]; the callers make it positive.) *)
Fixpoint write_rows {A : Type} (row : nat -> A -> result string)
         (ncols i : nat) (l : list A) : run :=
  match l with
  | [] => ([], None)
  | a :: rest =>
      match row i a with
      | Raise e => ([], Some e)
      | Ok text =>
          and_then ([ColumnWrite (i mod ncols) text], None)
                   (write_rows row ncols (S i) rest)
      end
  end.

(** [if len(l) > 0: cols = st.columns(min(4, len(l))); for ...] *)
Definition write_columns {A : Type} (row : nat -> A -> result string)
           (l : list A) : run :=
  match l with
  | [] => ([], None)
  | _ :: _ =>
      let ncols := Nat.min 4 (List.length l) in
      and_then ([StColumns ncols], None) (write_rows row ncols 0 l)
  end.

(** The block "Vista rápida del diagrama detectado". *)
Definition quick_view (nodes : list Node.t) (edges : list Edge.t) : run :=
  and_then
    ([StMarkdown "### Vista rápida del diagrama detectado";
      StWrite ("Vértices detectados: "
               ++ Str.of_int (Z.of_nat (List.length nodes))
               ++ " — propagadores detectados: "
               ++ Str.of_int (Z.of_nat (List.length edges)))], None)
    (and_then (write_columns node_text nodes) (write_columns edge_text edges)).

(** ** The script from the parser on *)

(** The button pressed in this run, if any: a button reads true only in the
    run its click starts. *)
Inductive click : Type :=
| NoClick
| ClickReconstruir
| ClickExportarPNG
| ClickGenerarTikZ.

Definition click_eqb (a b : click) : bool :=
  match a, b with
  | NoClick, NoClick
  | ClickReconstruir, ClickReconstruir
  | ClickExportarPNG, ClickExportarPNG
  | ClickGenerarTikZ, ClickGenerarTikZ => true
  | _, _ => false
  end.

(** A button handler as a run. *)
Definition handler (r : result (list widget)) : run :=
  match r with
  | Ok ws => (map Shown ws, None)
  | Raise e => ([], Some e)
  end.

(** [if st.button(label): body] *)
Definition on_button (label : string) (pressed : bool) (body : run) : run :=
  and_then ([StButton label], None) (if pressed then body else ([], None)).

(** The three button blocks, in the order of the script.  (The column each
    call lands in is left out.) *)
Definition buttons (button : click) (nodes : list Node.t) (edges : list Edge.t)
  : run :=
  and_then ([StColumns 3], None)
    (and_then
       (on_button "🔁 Reconstruir diagrama (actualizar vista)"
          (click_eqb button ClickReconstruir)
          ([StSuccess "Diagrama reconstruido a partir del lienzo. Revisa las listas arriba para confirmar nodos/aristas."],
           None))
       (and_then
          (on_button "📤 Exportar PNG" (click_eqb button ClickExportarPNG)
             (handler (export_png nodes edges)))
          (on_button "🧾 Generar código TikZ" (click_eqb button ClickGenerarTikZ)
             (handler (export_tikz nodes edges))))).

(** The closing notes of the page. *)
Definition suggestions : list shown :=
  [StMarkdown "---";
   StMarkdown "💡 **Sugerencias de uso / mejoras**:";
   StMarkdown
     (Str.nl ++
      "- Si quieres que el lienzo genere flechas automáticas en la misma acción, dibuja las líneas siempre con el color del tipo correspondiente."
      ++ Str.nl ++
      "- Puedes ampliar el generador de TikZ para que use `tikz-feynman` o `feynmp` y añadir etiquetas de partículas, números de momento, etc."
      ++ Str.nl ++
      "- La detección de nodos/aristas se basa en los objetos devueltos por `streamlit-drawable-canvas`. Si necesitas arrastrar nodos luego de crear, considera integrar un frontend JS más avanzado (por ejemplo, una app con Konva.js o Fabric.js personalizada)."
      ++ Str.nl)].

(** The script from [nodes, edges = parse_canvas_objects(...)] to its end. *)
Definition page (json_data : value) (button : click) : run :=
  match parse_canvas_objects json_data with
  | Raise e => ([], Some e)
  | Ok (nodes, edges) =>
      and_then (quick_view nodes edges)
        (and_then (buttons button nodes edges) (suggestions, None))
  end.

End QuickView.

(* ================================================================== *)
(** * Further vocabulary *)

(** The names a node or an edge can carry. *)
Definition type_names : list string := (map fst color_map ++ ["desconocido"])%list.

(** The substring pass of the classifier, on its own. *)
Definition by_digits (hexcolor : option string) : string :=
  match first_key (fun v => Str.lstrip "#" (Str.lower v) in? lowered hexcolor) with
  | Some k => k
  | None => "desconocido"
  end.

(** A number on which arithmetic cannot raise: a float, or an integer (or
    bool) below [bound] in magnitude. *)
Definition safe_num (bound : Z) (v : value) : bool :=
  match Py.as_num v with
  | Some (Py.Int z) => Z.abs z <? bound
  | Some (Py.Flt _) => true
  | None => false
  end.





(** Coordinates on which neither the generator nor the renderer can raise:
    floats, and integers below 2^51 in magnitude. *)
Definition node_in_range (n : Node.t) : bool :=
  safe_num (2 ^ 51) (Node.x n) && safe_num (2 ^ 51) (Node.y n).

Definition edge_in_range (e : Edge.t) : bool :=
  safe_num (2 ^ 51) (Edge.x1 e) && safe_num (2 ^ 51) (Edge.y1 e)
  && safe_num (2 ^ 51) (Edge.x2 e) && safe_num (2 ^ 51) (Edge.y2 e).

(** Coordinates [int] accepts without a look at their text: finite numbers. *)
Definition node_finite (n : Node.t) : bool :=
  finite_number (Node.x n) && finite_number (Node.y n).

Definition edge_finite (e : Edge.t) : bool :=
  finite_number (Edge.x1 e) && finite_number (Edge.y1 e)
  && finite_number (Edge.x2 e) && finite_number (Edge.y2 e).

(** The buttons among what a run put on the page. *)
Definition buttons_shown (r : run) : list string :=
  List.concat (map (fun s => match s with StButton l => [l] | _ => [] end) (fst r)).

(** The labels the renderer can print next to a node: the first word of
    each key of the colour table, and "N". *)
Definition node_labels : list string :=
  ["vértice"; "fermion"; "antifermion"; "fotón"; "gluón"; "línea"; "N"].

(** The text of a type name mentions a wavy or a curly line. *)
Definition photon_or_gluon (typ : string) : bool :=
  ("fotón" in? typ) || ("photon" in? typ) || ("gluón" in? typ).

(** [int(v)] of a finite number. *)
Definition int_part (v : value) : Z :=
  match py_int (fun _ => Raise ValueError) v with
  | Ok z => z
  | Raise _ => 0
  end.

(** The rows of the quick view on finite numbers. *)
Definition node_row (n : Node.t) : string :=
  "Node " ++ Str.of_int (Node.id n) ++ ": (" ++ Str.of_int (int_part (Node.x n))
  ++ ", " ++ Str.of_int (int_part (Node.y n)) ++ ") — " ++ Node.type n.

Definition edge_row (i : nat) (e : Edge.t) : string :=
  "Edge " ++ Str.of_int (Z.of_nat i) ++ ": (" ++ Str.of_int (int_part (Edge.x1 e))
  ++ "," ++ Str.of_int (int_part (Edge.y1 e)) ++ ") → ("
  ++ Str.of_int (int_part (Edge.x2 e)) ++ ","
  ++ Str.of_int (int_part (Edge.y2 e)) ++ ") — " ++ Edge.type e.

(** Rows dealt in turn to [min 4 (len l)] columns; nothing for no rows. *)
Definition dealt {A : Type} (text : nat -> A -> string) (l : list A)
  : list shown :=
  match l with
  | [] => []
  | _ :: _ =>
      let ncols := Nat.min 4 (List.length l) in
      StColumns ncols
        :: map (fun ia => ColumnWrite (fst ia mod ncols) (text (fst ia) (snd ia)))
               (combine (seq 0 (List.length l)) l)
  end.

(** The two lines that open the quick view. *)
Definition quick_view_head (nodes : list Node.t) (edges : list Edge.t)
  : list shown :=
  [StMarkdown "### Vista rápida del diagrama detectado";
   StWrite ("Vértices detectados: "
            ++ Str.of_int (Z.of_nat (List.length nodes))
            ++ " — propagadores detectados: "
            ++ Str.of_int (Z.of_nat (List.length edges)))].

(** A value [int] rejects whatever its text: [None], a list, a mapping. *)
Definition no_int (v : value) : bool :=
  match v with
  | VNone | VList _ | VDict _ => true
  | _ => false
  end.


(** Objects a [for] loop cannot run over: [None] and the numbers. *)
Definition not_iterable (v : value) : bool :=
  match v with
  | VNone | VBool _ | VInt _ | VFloat _ => true
  | _ => false
  end.

(** The type an iteration of the loop gave its shape, if it kept it. *)
Definition parsed_type (p : parsed) : option string :=
  match p with
  | PNode n => Some (Node.type n)
  | PEdge e => Some (Edge.type e)
  | PSkip => None
  end.

(** Number of newline characters of a text. *)
Fixpoint count_nl (s : string) : nat :=
  match s with
  | EmptyString => 0%nat
  | String c s' => ((if Ascii.eqb c (ascii_of_nat 10) then 1 else 0) + count_nl s')%nat
  end.

(** The name under which the generator declares a node. *)
Definition tikz_name (n : Node.t) : string := "n" ++ Str.of_int (Node.id n).

(** A line drawn with explicit endpoints, left and top that it ignores. *)
Definition fermion_line : dict :=
  [("type", VStr "line"); ("x1", VInt 3); ("y1", VInt 4); ("x2", VInt 103);
   ("y2", VInt 54); ("left", VInt 1000); ("top", VInt 2000);
   ("stroke", VStr "#1f77b4")].


(** A rectangle whose stroke is a gradient object. *)
Definition gradient_rect : dict :=
  [("type", VStr "rect"); ("stroke", VDict [("type", VStr "linear")])].

(** An [int] of strings that accepts nothing, to run the quick view on
    numbers. *)
Definition no_text : string -> result Z := fun _ => Raise ValueError.

(* ================================================================== *)
(** * Properties *)

(** ** Strings *)

Section StringFacts.

Lemma app_assoc_s (a b c : string) : (a ++ b) ++ c = a ++ b ++ c.
Proof. induction a as [|x a IH]; simpl; [reflexivity | now rewrite IH]. Qed.

Lemma startswith_iff (p s : string) :
  Str.startswith p s = true <-> exists r, s = p ++ r.
Proof.
  revert s; induction p as [|a p IH]; intros s; simpl.
  - split; [intros _; now exists s | reflexivity].
  - destruct s as [|b s].
    + split; [discriminate | intros [r Hr]; discriminate].
    + rewrite andb_true_iff, Ascii.eqb_eq, IH. split.
      * intros [-> [r ->]]. now exists r.
      * intros [r Hr]. injection Hr as -> ->. split; [reflexivity | now exists r].
Qed.

Lemma contains_iff (p s : string) :
  (p in? s) = true <-> exists a b, s = a ++ p ++ b.
Proof.
  induction s as [|c s IH].
  - simpl. rewrite orb_false_r, startswith_iff. split.
    + intros [r Hr]. now exists "", r.
    + intros [a [b Hab]]. destruct a; [now exists b | discriminate].
  - cbn [Str.contains]. rewrite orb_true_iff, startswith_iff, IH. split.
    + intros [[r Hr] | [a [b Hab]]].
      * now exists "", r.
      * exists (String c a), b. simpl. now rewrite Hab.
    + intros [a [b Hab]]. destruct a as [|x a].
      * left. now exists b.
      * right. simpl in Hab. injection Hab as _ Hs. now exists a, b.
Qed.

(** A substring of a substring is a substring. *)
Lemma contains_trans (a b c : string) :
  (a in? b) = true -> (b in? c) = true -> (a in? c) = true.
Proof.
  rewrite !contains_iff. intros [x [y ->]] [u [v ->]].
  exists (u ++ x), (y ++ v). now rewrite !app_assoc_s.
Qed.

(** Every type name that mentions "antifermion" mentions "fermion". *)
Lemma antifermion_is_fermion (typ : string) :
  ("antifermion" in? typ) = true -> ("fermion" in? typ) = true.
Proof. apply contains_trans. reflexivity. Qed.

End StringFacts.

(** ** The dispatch on the type name *)

(** The first branch of the renderer's chain covers every name that would
    reach the second one. *)
Lemma edge_style_fermion (typ : string) :
  ("fermion" in? typ) = true ->
  edge_style typ = (color_of "fermion (→/←)", "solid", true).
Proof. intros H. unfold edge_style. now rewrite H. Qed.

(** The generator's chain, read off branch by branch. *)
Lemma tikz_style_cases (typ : string) :
  tikz_style typ = ("", "[photon]") \/
  tikz_style typ = ("", "[gluon]") \/
  tikz_style typ = ("->", "") \/
  tikz_style typ = ("", "").
Proof.
  unfold tikz_style.
  destruct (("fotón" in? typ) || ("photon" in? typ)); [now left |].
  destruct ("gluón" in? typ); [now right; left |].
  destruct ("fermion" in? typ) eqn:Hf; [now right; right; left |].
  destruct ("antifermion" in? typ) eqn:Ha.
  - apply antifermion_is_fermion in Ha. congruence.
  - destruct ("línea neutra" in? typ); [now right; right; right | now right; right; left].
Qed.

(** What [edge_line] prints once the arithmetic and the formatting of the
    four coordinates have gone through. *)
Lemma edge_line_eq (height : Z) (e : Edge.t) (ty1 ty2 : value)
      (fx1 fty1 fx2 fty2 : string) :
  Py.sub (VInt height) (Edge.y1 e) = Ok ty1 ->
  Py.sub (VInt height) (Edge.y2 e) = Ok ty2 ->
  Py.format_1f (Edge.x1 e) = Ok fx1 ->
  Py.format_1f ty1 = Ok fty1 ->
  Py.format_1f (Edge.x2 e) = Ok fx2 ->
  Py.format_1f ty2 = Ok fty2 ->
  edge_line height e =
  Ok ("\draw" ++ snd (tikz_style (Edge.type e)) ++ " (" ++ fx1 ++ "," ++ fty1
      ++ ") " ++ fst (tikz_style (Edge.type e)) ++ " -- (" ++ fx2 ++ ","
      ++ fty2 ++ ");").
Proof.
  intros H1 H2 H3 H4 H5 H6. unfold edge_line.
  rewrite H1, H2. cbn [bind].
  destruct (tikz_style (Edge.type e)) as [style extra].
  rewrite H3. cbn [bind]. rewrite H4. cbn [bind].
  rewrite H5. cbn [bind]. rewrite H6. reflexivity.
Qed.

(** C1 (not met by the code).  The specification gives every Antifermion
    edge a backward arrow.  The generator does not emit one: the name
    "antifermion (←/→)" contains "fermion", so the [elif "fermion" in typ]
    branch is taken and the edge is printed with the forward arrow of a
    Fermion edge; no type name at all reaches the ["<-"] branch. *)
Theorem tikz_antifermion_forward_arrow :
  tikz_style "antifermion (←/→)" = ("->", "")
  /\ tikz_style "antifermion (←/→)" = tikz_style "fermion (→/←)"
  /\ (forall typ, fst (tikz_style typ) <> "<-")
  /\ edge_line 400 (sample_edge "antifermion (←/→)")
     = Ok "\draw (0.0,400.0) -> -- (100.0,400.0);"
  /\ edge_line 400 (sample_edge "fermion (→/←)")
     = Ok "\draw (0.0,400.0) -> -- (100.0,400.0);".
Proof.
  repeat split; try reflexivity.
  intros typ.
  destruct (tikz_style_cases typ) as [H | [H | [H | H]]]; rewrite H; discriminate.
Qed.

(** C2 does not hold for the Unknown type: no branch of the chain matches
    "desconocido", so the default [style = "->"] stays and the edge is printed
    with a forward arrow. *)
Lemma tikz_unknown_has_arrow :
  tikz_style "desconocido" = ("->", "")
  /\ edge_line 400 (sample_edge "desconocido")
     = Ok "\draw (0.0,400.0) -> -- (100.0,400.0);".
Proof. split; reflexivity. Qed.

(** C2 (amended).  A NeutralLine edge is printed as a plain undirected
    segment: no arrow directive, no photon or gluon style.  An Unknown edge
    carries neither style, but it keeps the default forward arrow. *)
Theorem tikz_neutral_plain_unknown_default
        (height : Z) (e : Edge.t) (ty1 ty2 : value) (fx1 fty1 fx2 fty2 : string) :
  Py.sub (VInt height) (Edge.y1 e) = Ok ty1 ->
  Py.sub (VInt height) (Edge.y2 e) = Ok ty2 ->
  Py.format_1f (Edge.x1 e) = Ok fx1 ->
  Py.format_1f ty1 = Ok fty1 ->
  Py.format_1f (Edge.x2 e) = Ok fx2 ->
  Py.format_1f ty2 = Ok fty2 ->
  (Edge.type e = "línea neutra (línea simple)" ->
   edge_line height e =
   Ok ("\draw (" ++ fx1 ++ "," ++ fty1 ++ ")  -- (" ++ fx2 ++ "," ++ fty2 ++ ");"))
  /\
  (Edge.type e = "desconocido" ->
   edge_line height e =
   Ok ("\draw (" ++ fx1 ++ "," ++ fty1 ++ ") -> -- (" ++ fx2 ++ "," ++ fty2 ++ ");")).
Proof.
  intros H1 H2 H3 H4 H5 H6.
  rewrite (edge_line_eq height e ty1 ty2 fx1 fty1 fx2 fty2 H1 H2 H3 H4 H5 H6).
  split; intros ->; reflexivity.
Qed.

Lemma tikz_neutral_plain_unknown_default_witness :
  edge_line 400 (sample_edge "línea neutra (línea simple)")
  = Ok "\draw (0.0,400.0)  -- (100.0,400.0);"
  /\ edge_line 400 (sample_edge "desconocido")
  = Ok "\draw (0.0,400.0) -> -- (100.0,400.0);".
Proof.
  split.
  - apply (proj1 (tikz_neutral_plain_unknown_default
                    400 (sample_edge "línea neutra (línea simple)")
                    (VInt 400) (VInt 400) "0.0" "400.0" "100.0" "400.0"
                    eq_refl eq_refl eq_refl eq_refl eq_refl eq_refl)).
    reflexivity.
  - apply (proj2 (tikz_neutral_plain_unknown_default
                    400 (sample_edge "desconocido")
                    (VInt 400) (VInt 400) "0.0" "400.0" "100.0" "400.0"
                    eq_refl eq_refl eq_refl eq_refl eq_refl eq_refl)).
    reflexivity.
Defined.

(** ** The classifier *)

(** C3. Each of the six colours of the table, written in any letter case, is
    classified as the type it belongs to; an input that equals no table
    colour and contains the hexadecimal digits of none (case-insensitively)
    is classified "desconocido", as are ["#000001"], the empty string and
    [None]. *)
Theorem color_to_type_table :
  (forall k v s,
      In (k, v) color_map -> Str.lower s = Str.lower v ->
      color_to_type (Some s) = k)
  /\ (forall hexcolor,
         (forall k v, In (k, v) color_map ->
                      Str.lower v <> lowered hexcolor
                      /\ (Str.lstrip "#" (Str.lower v) in? lowered hexcolor) = false) ->
         color_to_type hexcolor = "desconocido")
  /\ map (fun s => color_to_type (Some s))
         ["#000000"; "#1F77B4"; "#FF7F0E"; "#2CA02C"; "#D62728"; "#9467BD"]
     = ["vértice (vertex)"; "fermion (→/←)"; "antifermion (←/→)";
        "fotón (photon)"; "gluón (gluon)"; "línea neutra (línea simple)"]
  /\ color_to_type (Some "#000001") = "desconocido"
  /\ color_to_type (Some "") = "desconocido"
  /\ color_to_type None = "desconocido".
Proof.
  split; [| split; [| repeat split; reflexivity]].
  - intros k v s Hin Hs. unfold color_to_type. rewrite Hs.
    simpl in Hin.
    repeat (destruct Hin as [Hin | Hin];
            [injection Hin as <- <-; reflexivity |]).
    contradiction.
  - intros hexcolor H. unfold color_to_type. fold (lowered hexcolor).
    assert (Hno : forall test,
               (forall k v, In (k, v) color_map -> test v = false) ->
               first_key test = None).
    { intros test Ht. unfold first_key.
      destruct (find (fun kv => test (snd kv)) color_map) as [[k v]|] eqn:Hf;
        [| reflexivity].
      apply find_some in Hf. destruct Hf as [Hin Htest]. simpl in Htest.
      rewrite (Ht k v Hin) in Htest. discriminate. }
    rewrite Hno.
    + rewrite Hno; [reflexivity |].
      intros k v Hin. apply (H k v Hin).
    + intros k v Hin. apply String.eqb_neq. apply (H k v Hin).
Qed.

Lemma color_to_type_table_witness :
  color_to_type (Some "#D62728") = "gluón (gluon)"
  /\ color_to_type (Some "#123456") = "desconocido".
Proof.
  split.
  - apply (proj1 color_to_type_table "gluón (gluon)" "#d62728" "#D62728").
    + simpl. do 4 right. left. reflexivity.
    + reflexivity.
  - apply (proj1 (proj2 color_to_type_table) (Some "#123456")).
    intros k v Hin. simpl in Hin.
    repeat (destruct Hin as [Hin | Hin];
            [injection Hin as <- <-; split; [discriminate | reflexivity] |]).
    contradiction.
Defined.

(** ** The parser *)

Lemma node_shape_not_edge (obj : value) :
  is_node_shape obj = true -> is_edge_shape obj = false.
Proof.
  destruct obj as [| | | | |l|d]; try discriminate. simpl.
  destruct (Py.get d "type" VNone) as [| | | |s| |]; try discriminate. simpl.
  rewrite orb_true_iff, !String.eqb_eq. now intros [-> | ->].
Qed.

(** Inversion of a [bind] that returned. *)
Lemma bind_ok {A B : Type} (c : result A) (k : A -> result B) (b : B) :
  bind c k = Ok b -> exists a, c = Ok a /\ k a = Ok b.
Proof. destruct c as [a|e]; simpl; [now exists a | discriminate]. Qed.

Ltac bind_inv H :=
  let a := fresh "a" in
  let Ha := fresh "Ha" in
  apply bind_ok in H; destruct H as [a [Ha H]].

Lemma parse_circle_ok (node_id : Z) (obj : dict) (stroke : string) (n : Node.t) :
  parse_circle node_id obj stroke = Ok n ->
  Node.id n = node_id /\ Node.raw n = VDict obj
  /\ Node.type n = color_to_type (Some stroke)
  /\ Py.add (Py.get obj "left" (VInt 0))
            (Py.get obj "radiusX" (Py.get obj "rx" (VInt 10))) = Ok (Node.x n)
  /\ Py.add (Py.get obj "top" (VInt 0))
            (Py.get obj "radiusY" (Py.get obj "ry" (VInt 10))) = Ok (Node.y n).
Proof.
  unfold parse_circle. intros H.
  bind_inv H. bind_inv H. injection H as <-. simpl. auto.
Qed.

Lemma parse_line_ok (obj : dict) (stroke : string) (e : Edge.t) :
  parse_line obj stroke = Ok e ->
  Edge.raw e = VDict obj /\ Edge.type e = color_to_type (Some stroke).
Proof.
  unfold parse_line. intros H.
  repeat match type of H with
         | bind _ _ = Ok _ => bind_inv H
         | Ok _ = Ok _ => injection H as <-; simpl; auto
         | match ?x with _ => _ end = Ok _ => destruct x
         end.
Qed.

(** What one iteration appends, by the kind of the shape. *)
Lemma parse_object_kind (node_id : Z) (obj : value) (p : parsed) :
  parse_object node_id obj = Ok p ->
  match p with
  | PNode n =>
      is_node_shape obj = true /\ Node.id n = node_id /\ Node.raw n = obj
  | PEdge e =>
      is_node_shape obj = false /\ is_edge_shape obj = true /\ Edge.raw e = obj
  | PSkip => is_node_shape obj = false /\ is_edge_shape obj = false
  end.
Proof.
  destruct obj as [| | | | |l|d]; try discriminate.
  unfold parse_object, is_node_shape, is_edge_shape. intros H.
  bind_inv H.
  destruct (eq_str (Py.get d "type" VNone) "circle"
            || eq_str (Py.get d "type" VNone) "ellipse").
  - bind_inv H. injection H as <-.
    apply parse_circle_ok in Ha0. intuition.
  - destruct (eq_str (Py.get d "type" VNone) "line"
              || eq_str (Py.get d "type" VNone) "path").
    + bind_inv H. injection H as <-.
      apply parse_line_ok in Ha0. intuition.
    + injection H as <-. auto.
Qed.

Lemma ids_from_S (start : Z) (n : nat) :
  ids_from start (S n) = start :: ids_from (start + 1) n.
Proof.
  unfold ids_from. simpl. rewrite Z.add_0_r. f_equal.
  rewrite <- seq_shift, map_map. apply map_ext. intros k. lia.
Qed.

(** Invariant of the loop: what is appended to the two lists is the input
    split by kind, in input order, with consecutive ids. *)
Lemma parse_loop_inv (objects : list value) :
  forall node_id nodes edges nodes' edges',
    parse_loop objects node_id nodes edges = Ok (nodes', edges') ->
    exists ns es,
      nodes' = (nodes ++ ns)%list /\ edges' = (edges ++ es)%list
      /\ map Node.raw ns = filter is_node_shape objects
      /\ map Node.id ns = ids_from node_id (List.length ns)
      /\ map Edge.raw es = filter is_edge_shape objects.
Proof.
  induction objects as [|obj rest IH]; intros node_id nodes edges nodes' edges' H.
  - injection H as <- <-. exists [], []. now rewrite !app_nil_r.
  - cbn [parse_loop] in H. bind_inv H.
    apply parse_object_kind in Ha. destruct a as [n | e |].
    + destruct Ha as [Hk [Hid Hraw]].
      apply IH in H. destruct H as [ns [es [-> [-> [Hn [Hi He]]]]]].
      exists (n :: ns), es. rewrite <- app_assoc. simpl.
      rewrite Hk, (node_shape_not_edge _ Hk), ids_from_S, Hid, Hraw, Hn, Hi.
      auto.
    + destruct Ha as [Hk [Hk' Hraw]].
      apply IH in H. destruct H as [ns [es [-> [-> [Hn [Hi He]]]]]].
      exists ns, (e :: es). rewrite <- app_assoc. simpl.
      rewrite Hk, Hk', Hraw, He. auto.
    + destruct Ha as [Hk Hk'].
      apply IH in H. destruct H as [ns [es [-> [-> [Hn [Hi He]]]]]].
      exists ns, es. simpl. rewrite Hk, Hk'. auto.
Qed.

(** *** Well-typed shape records *)

Lemma add_numbers (a b : value) :
  is_number a = true -> is_number b = true -> exists v, Py.add a b = Ok v.
Proof.
  unfold is_number, Py.add.
  destruct (Py.as_num a) as [x|]; [| discriminate].
  destruct (Py.as_num b) as [y|]; [| discriminate].
  unfold Py.arith. intros Hx Hy.
  destruct x as [x|x], y as [y|y]; simpl in *;
    try (destruct (Float.of_int x); [| discriminate]);
    try (destruct (Float.of_int y); [| discriminate]);
    simpl; eauto.
Qed.

Lemma get_number (d : dict) (key : string) (default : value) :
  field_ok d key = true -> is_number default = true ->
  is_number (Py.get d key default) = true.
Proof. unfold field_ok, Py.get. now destruct (Py.lookup d key). Qed.

Lemma stroke_of_total (d : dict) :
  stroke_ok d = true -> exists s, stroke_of d = Ok s.
Proof.
  unfold stroke_ok, stroke_of, text_or_empty, Py.get. intros H.
  apply andb_true_iff in H. destruct H as [H1 H2].
  destruct (Py.lookup d "stroke") as [v|].
  - destruct (Py.truthy v) eqn:Hv.
    + destruct v; try discriminate. simpl. eauto.
    + destruct (Py.lookup d "strokeStyle") as [w|]; [| simpl; eauto].
      destruct (Py.truthy w) eqn:Hw; [| eauto].
      destruct w; try discriminate. simpl. eauto.
  - simpl. destruct (Py.lookup d "strokeStyle") as [w|]; [| simpl; eauto].
    destruct (Py.truthy w) eqn:Hw; [| eauto].
    destruct w; try discriminate. simpl. eauto.
Qed.

Lemma point_get (p : value) (key : string) :
  point_ok p = true -> (key = "x" \/ key = "y") ->
  exists v, item_get p key (VInt 0) = Ok v /\ is_number v = true.
Proof.
  destruct p as [| | | | |l|d]; try discriminate. simpl. intros H Hk.
  apply andb_true_iff in H. destruct H as [Hx Hy].
  eexists. split; [reflexivity |].
  destruct Hk as [-> | ->]; now apply get_number.
Qed.

Lemma last_forallb {A : Type} (f : A -> bool) (l : list A) (a : A) :
  f a = true -> forallb f l = true -> f (last l a) = true.
Proof.
  intros Ha. induction l as [|x [|y l] IH]; simpl; auto.
  - now rewrite andb_true_r.
  - intros H. apply andb_true_iff in H. destruct H as [_ H]. now apply IH.
Qed.

Lemma shape_ok_fields (d : dict) :
  shape_ok (VDict d) = true ->
  stroke_ok d = true /\ points_ok d = true
  /\ forall key, In key geometry_keys -> field_ok d key = true.
Proof.
  unfold shape_ok. rewrite !andb_true_iff, forallb_forall. tauto.
Qed.

Lemma parse_circle_total (node_id : Z) (d : dict) (stroke : string) :
  shape_ok (VDict d) = true -> exists n, parse_circle node_id d stroke = Ok n.
Proof.
  intros H. apply shape_ok_fields in H. destruct H as [_ [_ Hf]].
  unfold parse_circle.
  destruct (add_numbers (Py.get d "left" (VInt 0))
                        (Py.get d "radiusX" (Py.get d "rx" (VInt 10))))
    as [cx Hcx].
  { apply get_number; [apply Hf; simpl; tauto | reflexivity]. }
  { apply get_number; [apply Hf; simpl; tauto |].
    apply get_number; [apply Hf; simpl; tauto | reflexivity]. }
  destruct (add_numbers (Py.get d "top" (VInt 0))
                        (Py.get d "radiusY" (Py.get d "ry" (VInt 10))))
    as [cy Hcy].
  { apply get_number; [apply Hf; simpl; tauto | reflexivity]. }
  { apply get_number; [apply Hf; simpl; tauto |].
    apply get_number; [apply Hf; simpl; tauto | reflexivity]. }
  rewrite Hcx, Hcy. simpl. eauto.
Qed.

Lemma parse_line_total (d : dict) (stroke : string) :
  shape_ok (VDict d) = true -> exists e, parse_line d stroke = Ok e.
Proof.
  intros H. apply shape_ok_fields in H. destruct H as [_ [Hp Hf]].
  assert (Hleft : is_number (Py.get d "left" (VInt 0)) = true)
    by (apply get_number; [apply Hf; simpl; tauto | reflexivity]).
  assert (Htop : is_number (Py.get d "top" (VInt 0)) = true)
    by (apply get_number; [apply Hf; simpl; tauto | reflexivity]).
  assert (Hbox : exists e,
             (x2 <- Py.add (Py.get d "left" (VInt 0)) (Py.get d "width" (VInt 0)) ;;
              y2 <- Py.add (Py.get d "top" (VInt 0)) (Py.get d "height" (VInt 0)) ;;
              Ok (Edge.mk (Py.get d "left" (VInt 0)) (Py.get d "top" (VInt 0))
                          x2 y2 (color_to_type (Some stroke)) (VDict d)))
             = Ok e).
  { destruct (add_numbers (Py.get d "left" (VInt 0)) (Py.get d "width" (VInt 0)))
      as [x2 Hx2]; [assumption | |].
    { apply get_number; [apply Hf; simpl; tauto | reflexivity]. }
    destruct (add_numbers (Py.get d "top" (VInt 0)) (Py.get d "height" (VInt 0)))
      as [y2 Hy2]; [assumption | |].
    { apply get_number; [apply Hf; simpl; tauto | reflexivity]. }
    rewrite Hx2, Hy2. simpl. eauto. }
  unfold parse_line.
  destruct (Py.get d "x1" VNone); eauto.
  unfold points_ok in Hp.
  destruct (Py.get d "points" VNone) as [| | | | |l|]; simpl;
    try (match goal with |- context [if ?c then _ else _] => destruct c end);
    try exact Hbox.
  destruct l as [|p0 [|p1 l]]; try exact Hbox.
  cbn [Py.truthy].
  assert (H0 : point_ok p0 = true)
    by (simpl in Hp; now apply andb_true_iff in Hp).
  assert (HN : point_ok (last (p0 :: p1 :: l) p0) = true)
    by (now apply last_forallb).
  destruct (point_get p0 "x" H0) as [p0x [E1 N1]]; [now left |].
  destruct (point_get p0 "y" H0) as [p0y [E2 N2]]; [now right |].
  destruct (point_get _ "x" HN) as [pNx [E3 N3]]; [now left |].
  destruct (point_get _ "y" HN) as [pNy [E4 N4]]; [now right |].
  destruct (add_numbers _ _ Hleft N1) as [x1 A1].
  destruct (add_numbers _ _ Htop N2) as [y1 A2].
  destruct (add_numbers _ _ Hleft N3) as [x2 A3].
  destruct (add_numbers _ _ Htop N4) as [y2 A4].
  rewrite E1. cbn [bind]. rewrite A1. cbn [bind].
  rewrite E2. cbn [bind]. rewrite A2. cbn [bind].
  rewrite E3. cbn [bind]. rewrite A3. cbn [bind].
  rewrite E4. cbn [bind]. rewrite A4. cbn [bind]. eauto.
Qed.

Lemma parse_object_total (node_id : Z) (obj : value) :
  shape_ok obj = true -> exists p, parse_object node_id obj = Ok p.
Proof.
  intros H. destruct obj as [| | | | |l|d]; try discriminate.
  unfold parse_object.
  destruct (stroke_of_total d) as [s Hs];
    [now apply shape_ok_fields in H |].
  rewrite Hs. cbn [bind].
  destruct (eq_str (Py.get d "type" VNone) "circle"
            || eq_str (Py.get d "type" VNone) "ellipse").
  - destruct (parse_circle_total node_id d s H) as [n ->]. simpl. eauto.
  - destruct (eq_str (Py.get d "type" VNone) "line"
              || eq_str (Py.get d "type" VNone) "path"); [| eauto].
    destruct (parse_line_total d s H) as [e ->]. simpl. eauto.
Qed.

(** The loop runs to completion on well-typed shape records. *)
Lemma parse_loop_total (objects : list value) :
  forallb shape_ok objects = true ->
  forall node_id nodes edges,
  exists r, parse_loop objects node_id nodes edges = Ok r.
Proof.
  induction objects as [|obj rest IH]; intros H node_id nodes edges.
  - simpl. eauto.
  - simpl in H. apply andb_true_iff in H. destruct H as [Ho Hr].
    cbn [parse_loop].
    destruct (parse_object_total node_id obj Ho) as [p ->]. cbn [bind].
    destruct p; now apply IH.
Qed.

(** C4. Every circle or ellipse makes the loop append exactly one node and
    no edge; the node sits at (left + radiusX, top + radiusY), where [left]
    and [top] default to 0 and the radii (read from [radiusX]/[radiusY],
    else from [rx]/[ry]) default to 10.  One circle with left=10, top=20,
    radii 5 in the Fermion colour yields the single node id=0, x=15, y=25 of
    type Fermion. *)
Theorem circle_yields_one_node :
  (forall obj node_id stroke cx cy rest nodes edges,
      is_node_shape (VDict obj) = true ->
      stroke_of obj = Ok stroke ->
      Py.add (Py.get obj "left" (VInt 0))
             (Py.get obj "radiusX" (Py.get obj "rx" (VInt 10))) = Ok cx ->
      Py.add (Py.get obj "top" (VInt 0))
             (Py.get obj "radiusY" (Py.get obj "ry" (VInt 10))) = Ok cy ->
      parse_loop (VDict obj :: rest) node_id nodes edges
      = parse_loop rest (node_id + 1)
          (nodes ++ [Node.mk node_id cx cy (color_to_type (Some stroke))
                             (VDict obj)])
          edges)
  /\ parse_canvas_objects (canvas [fermion_circle])
     = Ok ([Node.mk 0 (VInt 15) (VInt 25) "fermion (→/←)" (VDict fermion_circle)],
           [])
  /\ parse_canvas_objects (canvas [bare_ellipse])
     = Ok ([Node.mk 0 (VInt 10) (VInt 10) "desconocido" (VDict bare_ellipse)],
           []).
Proof.
  split; [| split; reflexivity].
  intros obj node_id stroke cx cy rest nodes edges Hk Hs Hx Hy.
  cbn [parse_loop]. unfold parse_object. rewrite Hs. cbn [bind].
  simpl in Hk. rewrite Hk. unfold parse_circle. rewrite Hx, Hy. reflexivity.
Qed.

Lemma circle_yields_one_node_witness :
  parse_loop [VDict fermion_circle] 0 [] []
  = Ok ([Node.mk 0 (VInt 15) (VInt 25) "fermion (→/←)" (VDict fermion_circle)],
        []).
Proof.
  apply (proj1 circle_yields_one_node fermion_circle 0 "#1f77b4"
               (VInt 15) (VInt 25) [] [] []); reflexivity.
Defined.

(** Below the guard, the parser is the loop started at id 0. *)
Lemma parse_canvas_objects_loop (d : dict) (objs : list value) :
  Py.lookup d "objects" = Some (VList objs) ->
  parse_canvas_objects (VDict d) = parse_loop objs 0 [] [].
Proof.
  intros Hd. unfold parse_canvas_objects. destruct d as [|kv d]; [discriminate |].
  cbn [Py.truthy negb]. now rewrite Hd.
Qed.

(** C5. The parser splits the shape list by kind and keeps the input order:
    the nodes' originating shapes are exactly the circles and ellipses of the
    input, in input order, with ids 0, 1, ..., N-1 in that order (hence
    unique); the edges' originating shapes are exactly the lines and paths of
    the input, in input order.  On well-typed shape records the parser does
    return. *)
Theorem parse_partitions_by_kind (d : dict) (objs : list value) :
  Py.lookup d "objects" = Some (VList objs) ->
  (forall nodes edges,
      parse_canvas_objects (VDict d) = Ok (nodes, edges) ->
      map Node.raw nodes = filter is_node_shape objs
      /\ map Edge.raw edges = filter is_edge_shape objs
      /\ map Node.id nodes
         = map Z.of_nat (seq 0 (List.length (filter is_node_shape objs)))
      /\ NoDup (map Node.id nodes))
  /\ (forallb shape_ok objs = true ->
      exists nodes edges, parse_canvas_objects (VDict d) = Ok (nodes, edges)).
Proof.
  intros Hd. rewrite (parse_canvas_objects_loop d objs Hd). split.
  - intros nodes edges Hr. apply parse_loop_inv in Hr.
    destruct Hr as [ns [es [-> [-> [Hn [Hi He]]]]]]. simpl.
    assert (Hids : map Node.id ns
                   = map Z.of_nat
                         (seq 0 (List.length (filter is_node_shape objs)))).
    { rewrite Hi, <- Hn, length_map. reflexivity. }
    repeat split; try assumption.
    rewrite Hids. apply Injective_map_NoDup; [| apply seq_NoDup].
    intros a b. apply Nat2Z.inj.
  - intros Hok.
    destruct (parse_loop_total objs Hok 0 [] []) as [[nodes edges] Hr].
    now exists nodes, edges.
Qed.

Lemma parse_partitions_by_kind_witness :
  exists nodes edges,
    parse_canvas_objects (canvas mixed_drawing) = Ok (nodes, edges)
    /\ map Node.raw nodes = [VDict fermion_circle; VDict bare_ellipse]
    /\ map Edge.raw edges = [VDict photon_line; VDict bare_path]
    /\ map Node.id nodes = [0; 1]
    /\ NoDup (map Node.id nodes).
Proof.
  destruct (parse_partitions_by_kind
              [("version", VStr "4.4.0");
               ("objects", VList (map VDict mixed_drawing))]
              (map VDict mixed_drawing) eq_refl) as [Hpart Htotal].
  destruct (Htotal eq_refl) as [nodes [edges Hr]].
  exists nodes, edges. split; [exact Hr | exact (Hpart nodes edges Hr)].
Defined.

(** C6 does not hold as it is worded, on two counts.  A field that is present
    but not a number (here [left] is [null]) raises [TypeError] and aborts
    the whole pass.  And a line that has [x1] but lacks [y1], [x2], [y2] is
    emitted with [None] in those fields, not with 0; the generator then
    raises on it. *)
Lemma parse_rejects_null_and_keeps_gaps :
  parse_canvas_objects (canvas [fermion_circle; null_left_circle])
  = Raise TypeError
  /\ parse_canvas_objects (canvas [half_line])
     = Ok ([], [Edge.mk (VInt 0) VNone VNone VNone "desconocido"
                        (VDict half_line)])
  /\ generate_tikz [] [Edge.mk (VInt 0) VNone VNone VNone "desconocido"
                               (VDict half_line)]
                   CANVAS_WIDTH CANVAS_HEIGHT
     = Raise TypeError.
Proof. repeat split; reflexivity. Qed.

(** A shape of a kind the loop does not handle leaves the state untouched,
    whatever its geometry fields hold. *)
Lemma parse_loop_skip (d : dict) (rest : list value) (node_id : Z)
      (nodes : list Node.t) (edges : list Edge.t) :
  stroke_ok d = true ->
  is_node_shape (VDict d) = false -> is_edge_shape (VDict d) = false ->
  parse_loop (VDict d :: rest) node_id nodes edges
  = parse_loop rest node_id nodes edges.
Proof.
  intros Hok Hn He. cbn [parse_loop]. unfold parse_object.
  destruct (stroke_of_total d Hok) as [s ->]. cbn [bind].
  simpl in Hn, He. now rewrite Hn, He.
Qed.

(** The bounding-box fallback of the line/path branch. *)
Lemma parse_line_box (d : dict) (stroke : string) (x2 y2 : value) :
  Py.get d "x1" VNone = VNone ->
  Py.lookup d "points" = None ->
  Py.add (Py.get d "left" (VInt 0)) (Py.get d "width" (VInt 0)) = Ok x2 ->
  Py.add (Py.get d "top" (VInt 0)) (Py.get d "height" (VInt 0)) = Ok y2 ->
  parse_line d stroke
  = Ok (Edge.mk (Py.get d "left" (VInt 0)) (Py.get d "top" (VInt 0)) x2 y2
                (color_to_type (Some stroke)) (VDict d)).
Proof.
  intros H1 Hp Hx Hy.
  assert (Hg : Py.get d "points" VNone = VNone)
    by (unfold Py.get; now rewrite Hp).
  unfold parse_line. rewrite H1, Hg. cbn [Py.truthy]. cbv iota zeta.
  rewrite Hx, Hy. reflexivity.
Qed.

(** C6 (amended).  The parser never rejects a list of well-typed shape
    records (mappings whose stroke fields are text and whose geometry fields
    are numbers, any of them absent): it returns one node per circle or
    ellipse and one edge per line or path.  An absent document, a document
    without shape list and an empty shape list give ([], []).  A shape of any
    other kind contributes nothing.  A circle or ellipse is placed with
    [left], [top] defaulting to 0 and the radii to 10; a line or path without
    [x1] and without point list runs from (left, top) to
    (left + width, top + height), each defaulting to 0. *)
Theorem parse_total_on_shape_records :
  parse_canvas_objects VNone = Ok ([], [])
  /\ parse_canvas_objects (VDict []) = Ok ([], [])
  /\ (forall d, Py.lookup d "objects" = None ->
                parse_canvas_objects (VDict d) = Ok ([], []))
  /\ (forall d, Py.lookup d "objects" = Some (VList []) ->
                parse_canvas_objects (VDict d) = Ok ([], []))
  /\ (forall d objs,
         Py.lookup d "objects" = Some (VList objs) ->
         forallb shape_ok objs = true ->
         exists nodes edges,
           parse_canvas_objects (VDict d) = Ok (nodes, edges)
           /\ List.length nodes = List.length (filter is_node_shape objs)
           /\ List.length edges = List.length (filter is_edge_shape objs))
  /\ (forall d rest node_id nodes edges,
         stroke_ok d = true ->
         is_node_shape (VDict d) = false -> is_edge_shape (VDict d) = false ->
         parse_loop (VDict d :: rest) node_id nodes edges
         = parse_loop rest node_id nodes edges)
  /\ (forall d node_id,
         shape_ok (VDict d) = true -> is_node_shape (VDict d) = true ->
         exists n,
           parse_object node_id (VDict d) = Ok (PNode n)
           /\ Py.add (Py.get d "left" (VInt 0))
                     (Py.get d "radiusX" (Py.get d "rx" (VInt 10)))
              = Ok (Node.x n)
           /\ Py.add (Py.get d "top" (VInt 0))
                     (Py.get d "radiusY" (Py.get d "ry" (VInt 10)))
              = Ok (Node.y n))
  /\ (forall d node_id,
         shape_ok (VDict d) = true -> is_edge_shape (VDict d) = true ->
         Py.get d "x1" VNone = VNone -> Py.lookup d "points" = None ->
         exists e,
           parse_object node_id (VDict d) = Ok (PEdge e)
           /\ Edge.x1 e = Py.get d "left" (VInt 0)
           /\ Edge.y1 e = Py.get d "top" (VInt 0)
           /\ Py.add (Py.get d "left" (VInt 0)) (Py.get d "width" (VInt 0))
              = Ok (Edge.x2 e)
           /\ Py.add (Py.get d "top" (VInt 0)) (Py.get d "height" (VInt 0))
              = Ok (Edge.y2 e)).
Proof.
  split; [reflexivity |]. split; [reflexivity |].
  split.
  { intros d Hd. unfold parse_canvas_objects.
    destruct (negb (Py.truthy (VDict d))); [reflexivity | now rewrite Hd]. }
  split.
  { intros d Hd. now rewrite (parse_canvas_objects_loop d [] Hd). }
  split.
  { intros d objs Hd Hok. rewrite (parse_canvas_objects_loop d objs Hd).
    destruct (parse_loop_total objs Hok 0 [] []) as [[nodes edges] Hr].
    exists nodes, edges. split; [assumption |].
    apply parse_loop_inv in Hr.
    destruct Hr as [ns [es [-> [-> [Hn [_ He]]]]]]. simpl.
    now rewrite <- Hn, <- He, !length_map. }
  split; [exact parse_loop_skip |].
  split.
  - intros d node_id Hok Hk.
    destruct (parse_object_total node_id (VDict d) Hok) as [p Hp].
    pose proof (parse_object_kind _ _ _ Hp) as Hkind.
    destruct p as [n | e |];
      [| destruct Hkind as [Hkind _]; congruence
       | destruct Hkind as [Hkind _]; congruence].
    exists n. split; [assumption |].
    unfold parse_object in Hp. bind_inv Hp.
    simpl in Hk. rewrite Hk in Hp. bind_inv Hp. injection Hp as ->.
    now apply parse_circle_ok in Ha0.
  - intros d node_id Hok Hk Hx1 Hpts.
    destruct (stroke_of_total d) as [s Hs];
      [now apply shape_ok_fields in Hok |].
    pose proof (node_shape_not_edge (VDict d)) as Hnot.
    destruct (is_node_shape (VDict d)) eqn:Hn; [now rewrite Hnot in Hk |].
    apply shape_ok_fields in Hok. destruct Hok as [_ [_ Hf]].
    destruct (add_numbers (Py.get d "left" (VInt 0)) (Py.get d "width" (VInt 0)))
      as [x2 Hx2];
      try (apply get_number; [apply Hf; simpl; tauto | reflexivity]).
    destruct (add_numbers (Py.get d "top" (VInt 0)) (Py.get d "height" (VInt 0)))
      as [y2 Hy2];
      try (apply get_number; [apply Hf; simpl; tauto | reflexivity]).
    eexists. unfold parse_object. rewrite Hs. cbn [bind].
    simpl in Hn, Hk. rewrite Hn, Hk.
    rewrite (parse_line_box d s x2 y2 Hx1 Hpts Hx2 Hy2). cbn [bind].
    split; [reflexivity |]. simpl. auto.
Qed.

Lemma parse_total_on_shape_records_witness :
  parse_canvas_objects (VDict [("version", VStr "4.4.0")]) = Ok ([], [])
  /\ (exists nodes edges,
         parse_canvas_objects (canvas mixed_drawing) = Ok (nodes, edges)
         /\ List.length nodes = 2%nat /\ List.length edges = 2%nat)
  /\ parse_loop (map VDict [rect; fermion_circle]) 0 [] []
     = parse_loop [VDict fermion_circle] 0 [] []
  /\ (exists n,
         parse_object 0 (VDict bare_ellipse) = Ok (PNode n)
         /\ Node.x n = VInt 10 /\ Node.y n = VInt 10)
  /\ (exists e,
         parse_object 0 (VDict bare_path) = Ok (PEdge e)
         /\ Edge.x1 e = VInt 0 /\ Edge.y1 e = VInt 0
         /\ Edge.x2 e = VInt 0 /\ Edge.y2 e = VInt 0).
Proof.
  destruct parse_total_on_shape_records
    as [_ [_ [Habsent [_ [Htotal [Hskip [Hcircle Hpath]]]]]]].
  split; [apply Habsent; reflexivity |].
  split; [apply (Htotal _ (map VDict mixed_drawing)); reflexivity |].
  split; [apply (Hskip rect); reflexivity |].
  split.
  - destruct (Hcircle bare_ellipse 0 eq_refl eq_refl) as [n [Hn [Hx Hy]]].
    exists n. split; [exact Hn |].
    change (Ok (VInt 10) = Ok (Node.x n)) in Hx.
    change (Ok (VInt 10) = Ok (Node.y n)) in Hy.
    injection Hx as <-. injection Hy as <-. split; reflexivity.
  - destruct (Hpath bare_path 0 eq_refl eq_refl eq_refl eq_refl)
      as [e [He [H1 [H2 [H3 H4]]]]].
    exists e. split; [exact He |].
    change (Ok (VInt 0) = Ok (Edge.x2 e)) in H3.
    change (Ok (VInt 0) = Ok (Edge.y2 e)) in H4.
    injection H3 as <-. injection H4 as <-. auto.
Defined.

(** ** Formatting with one decimal *)

Section Formatting.

Lemma uint_digits (u : Decimal.uint) :
  all_digits (NilEmpty.string_of_uint u) = true.
Proof. induction u; simpl; auto. Qed.

Lemma of_int_digits (z : Z) :
  0 <= z -> Str.of_int z <> "" /\ all_digits (Str.of_int z) = true.
Proof.
  intros Hz. unfold Str.of_int.
  destruct z as [|p|p]; [split; [discriminate | reflexivity] | | lia].
  simpl. destruct (Pos.to_uint p) eqn:E; simpl;
    (split; [discriminate | try reflexivity]);
    apply (uint_digits u).
Qed.

Lemma of_int_one_digit (z : Z) :
  0 <= z < 10 -> exists d, Str.of_int z = String d "" /\ is_digit d = true.
Proof.
  intros Hz.
  assert (H : z = 0 \/ z = 1 \/ z = 2 \/ z = 3 \/ z = 4 \/ z = 5 \/ z = 6
              \/ z = 7 \/ z = 8 \/ z = 9) by lia.
  repeat (destruct H as [-> | H]; [eexists; split; reflexivity |]).
  subst. eexists; split; reflexivity.
Qed.

Lemma tenths_nonneg (m : positive) (e : Z) : 0 <= Float.tenths m e.
Proof.
  unfold Float.tenths. destruct (0 <=? e) eqn:He.
  - apply Z.leb_le in He.
    assert (0 <= 2 ^ e) by (apply Z.pow_nonneg; lia). nia.
  - apply Z.leb_gt in He.
    assert (Hd : 0 < 2 ^ (- e)) by (apply Z.pow_pos_nonneg; lia).
    assert (Hq : 0 <= Z.pos m * 10 / 2 ^ (- e)) by (apply Z.div_pos; lia).
    cbv zeta.
    destruct (2 * ((Z.pos m * 10) mod 2 ^ (- e)) ?= 2 ^ (- e)); try lia.
    destruct (Z.even (Z.pos m * 10 / 2 ^ (- e))); lia.
Qed.

Lemma sign_cases (s : bool) : Float.sign s = "" \/ Float.sign s = "-".
Proof. destruct s; auto. Qed.

Lemma float_format_one_decimal (f : spec_float) :
  is_finite f = true -> one_decimal (Float.format_1f f).
Proof.
  destruct f as [s | s | | s m e]; try discriminate; intros _.
  - exists (Float.sign s), "0", "0"%char. simpl.
    repeat split; try reflexivity; try discriminate. apply sign_cases.
  - pose proof (tenths_nonneg m e) as Ht.
    destruct (of_int_digits (Float.tenths m e / 10)) as [Hne Hd];
      [apply Z.div_pos; lia |].
    destruct (of_int_one_digit (Float.tenths m e mod 10)) as [d [Hd1 Hd2]];
      [apply Z.mod_pos_bound; lia |].
    exists (Float.sign s), (Str.of_int (Float.tenths m e / 10)), d.
    cbn [Float.format_1f]. rewrite Hd1.
    repeat split; auto. apply sign_cases.
Qed.

(** Shifting a non-negative mantissa right keeps it non-negative. *)
Lemma shr_1_nonneg (mrs : shr_record) : 0 <= shr_m mrs -> 0 <= shr_m (shr_1 mrs).
Proof.
  destruct mrs as [m r s]. simpl.
  destruct m as [|p|p]; [simpl; lia | | lia].
  destruct p; simpl; lia.
Qed.

Lemma iter_shr_1_nonneg (p : positive) :
  forall mrs, 0 <= shr_m mrs -> 0 <= shr_m (iter_pos shr_1 p mrs).
Proof.
  induction p as [p IH | p IH |]; intros mrs H; simpl;
    auto using shr_1_nonneg.
Qed.

Lemma shr_fexp_nonneg (m e : Z) (l : location) :
  0 <= m -> 0 <= shr_m (fst (shr_fexp Float.prec Float.emax m e l)).
Proof.
  intros Hm. unfold shr_fexp, shr.
  assert (H0 : 0 <= shr_m (shr_record_of_loc m l))
    by (destruct l as [|[| |]]; simpl; lia).
  match goal with |- context [match ?n with _ => _ end] => destruct n end;
    simpl; auto using iter_shr_1_nonneg.
Qed.

Lemma round_nearest_even_nonneg (m : Z) (l : location) :
  0 <= m -> 0 <= round_nearest_even m l.
Proof.
  intros Hm. destruct l as [|[| |]]; simpl; try lia.
  destruct (Z.even m); lia.
Qed.

Lemma binary_round_aux_not_nan (sx : bool) (mx ex : Z) (lx : location) :
  0 <= mx -> binary_round_aux Float.prec Float.emax sx mx ex lx <> S754_nan.
Proof.
  intros Hm. unfold binary_round_aux.
  pose proof (shr_fexp_nonneg mx ex lx Hm) as H1.
  destruct (shr_fexp Float.prec Float.emax mx ex lx) as [mrs' e'].
  simpl in H1.
  pose proof (shr_fexp_nonneg
                (round_nearest_even (shr_m mrs') (loc_of_shr_record mrs'))
                e' loc_Exact (round_nearest_even_nonneg _ _ H1)) as H2.
  destruct (shr_fexp Float.prec Float.emax
                     (round_nearest_even (shr_m mrs') (loc_of_shr_record mrs'))
                     e' loc_Exact) as [mrs'' e''].
  simpl in H2.
  destruct (shr_m mrs'') as [|p|p]; [discriminate | | lia].
  destruct (e'' <=? Float.emax - Float.prec); discriminate.
Qed.

(** [float(z)] is a finite float whenever it does not raise. *)
Lemma of_int_finite (z : Z) (f : spec_float) :
  Float.of_int z = Ok f -> is_finite f = true.
Proof.
  unfold Float.of_int.
  assert (Hn : Float.nearest z <> S754_nan).
  { unfold Float.nearest, binary_normalize.
    destruct z as [|p|p]; [discriminate | |];
      unfold binary_round;
      destruct (shl_align _ _ _) as [mz ez];
      apply binary_round_aux_not_nan; lia. }
  destruct (Float.nearest z);
    try discriminate; try congruence; intros H; injection H as <-; reflexivity.
Qed.

(** *** Integers below 2^53 convert exactly *)

Lemma digits2_lower (p : positive) : 2 ^ (Z.pos (digits2_pos p) - 1) <= Z.pos p.
Proof.
  induction p as [p IH | p IH |]; cbn [digits2_pos].
  - rewrite Pos2Z.inj_succ.
    replace (Z.succ (Z.pos (digits2_pos p)) - 1)
      with (Z.succ (Z.pos (digits2_pos p) - 1)) by lia.
    rewrite Z.pow_succ_r by lia. lia.
  - rewrite Pos2Z.inj_succ.
    replace (Z.succ (Z.pos (digits2_pos p)) - 1)
      with (Z.succ (Z.pos (digits2_pos p) - 1)) by lia.
    rewrite Z.pow_succ_r by lia. lia.
  - simpl. lia.
Qed.

Lemma digits2_small (p : positive) :
  Z.pos p < 2 ^ 53 -> Z.pos (digits2_pos p) <= 53.
Proof.
  intros H. pose proof (digits2_lower p) as Hl.
  destruct (Z_le_gt_dec (Z.pos (digits2_pos p)) 53) as [|Hgt]; [assumption |].
  exfalso.
  assert (2 ^ 53 <= 2 ^ (Z.pos (digits2_pos p) - 1))
    by (apply Z.pow_le_mono_r; lia).
  lia.
Qed.

Lemma iter_xO_digits (p k : positive) :
  digits2_pos (Pos.iter xO p k) = (digits2_pos p + k)%positive.
Proof.
  induction k as [|k IH] using Pos.peano_ind.
  - simpl. lia.
  - rewrite Pos.iter_succ. cbn [digits2_pos]. rewrite IH. lia.
Qed.

Lemma iter_xO_value (p k : positive) :
  Z.pos (Pos.iter xO p k) = Z.pos p * 2 ^ Z.pos k.
Proof.
  induction k as [|k IH] using Pos.peano_ind.
  - simpl. lia.
  - rewrite Pos.iter_succ, Pos2Z.inj_xO, IH, Pos2Z.inj_succ, Z.pow_succ_r by lia.
    lia.
Qed.

(** A 53-bit mantissa with an exponent in range is already rounded. *)
Lemma binary_round_aux_canonical (sx : bool) (mz : positive) (ez : Z) :
  Z.pos (digits2_pos mz) = 53 -> -1074 <= ez <= 971 ->
  binary_round_aux Float.prec Float.emax sx (Z.pos mz) ez loc_Exact
  = S754_finite sx mz ez.
Proof.
  intros Hd He.
  assert (Hs : shr_fexp Float.prec Float.emax (Z.pos mz) ez loc_Exact
               = (Build_shr_record (Z.pos mz) false false, ez)).
  { unfold shr_fexp, fexp, emin, Zdigits2, Float.prec, Float.emax. rewrite Hd.
    replace (Z.max (53 + ez - 53) (3 - 1024 - 53) - ez) with 0 by lia.
    reflexivity. }
  unfold binary_round_aux. rewrite Hs.
  cbn [shr_m loc_of_shr_record round_nearest_even].
  rewrite Hs. cbn [shr_m].
  replace (ez <=? Float.emax - Float.prec) with true; [reflexivity |].
  symmetry. apply Z.leb_le. unfold Float.emax, Float.prec. lia.
Qed.

Lemma binary_round_small (sx : bool) (p : positive) :
  Z.pos p < 2 ^ 53 ->
  exists m e,
    binary_round Float.prec Float.emax sx p 0 = S754_finite sx m e
    /\ -52 <= e <= 0 /\ Z.pos m = Z.pos p * 2 ^ (- e).
Proof.
  intros Hp. pose proof (digits2_small p Hp) as Hd.
  unfold binary_round.
  assert (Hf : fexp Float.prec Float.emax (Z.pos (digits2_pos p) + 0)
               = Z.pos (digits2_pos p) - 53).
  { unfold fexp, emin, Float.prec, Float.emax. lia. }
  rewrite Hf. unfold shl_align.
  destruct (Z.pos (digits2_pos p) - 53 - 0) as [|k|k] eqn:Hk; try lia.
  - exists p, 0. split; [| split; [lia | simpl; lia]].
    apply binary_round_aux_canonical; lia.
  - exists (Pos.iter xO p k), (Z.pos (digits2_pos p) - 53).
    split; [| split; [lia |]].
    + apply binary_round_aux_canonical; [| lia].
      rewrite iter_xO_digits. lia.
    + rewrite iter_xO_value. f_equal. f_equal. lia.
Qed.

(** [float(z)] is exact, and does not raise, below 2^53. *)
Lemma of_int_small (z : Z) :
  Z.abs z < 2 ^ 53 -> z <> 0 ->
  exists m e,
    Float.of_int z = Ok (S754_finite (z <? 0) m e)
    /\ -52 <= e <= 0 /\ Z.pos m = Z.abs z * 2 ^ (- e).
Proof.
  intros Hz Hnz. unfold Float.of_int, Float.nearest, binary_normalize.
  destruct z as [|p|p]; [congruence | |].
  - change (Z.pos p < 2 ^ 53) in Hz.
    destruct (binary_round_small false p Hz) as [m [e [Hr H]]].
    rewrite Hr. exists m, e. split; [reflexivity | exact H].
  - change (Z.pos p < 2 ^ 53) in Hz.
    destruct (binary_round_small true p Hz) as [m [e [Hr H]]].
    rewrite Hr. exists m, e. split; [reflexivity | exact H].
Qed.

Lemma of_int_nearest (z : Z) :
  Z.abs z < 2 ^ 53 -> Float.of_int z = Ok (Float.nearest z).
Proof.
  intros Hz. destruct (Z.eq_dec z 0) as [-> | Hnz]; [reflexivity |].
  destruct (of_int_small z Hz Hnz) as [m [e [Hf _]]].
  rewrite Hf. f_equal. unfold Float.of_int in Hf.
  destruct (Float.nearest z); try discriminate; congruence.
Qed.

Lemma tenths_exact (m : positive) (e a : Z) :
  e <= 0 -> Z.pos m = a * 2 ^ (- e) -> Float.tenths m e = 10 * a.
Proof.
  intros He Hm. unfold Float.tenths.
  destruct (0 <=? e) eqn:H0.
  - apply Z.leb_le in H0. assert (e = 0) as -> by lia.
    change (2 ^ (- 0)) with 1 in Hm. change (2 ^ 0) with 1. lia.
  - assert (Hd : 0 < 2 ^ (- e)) by (apply Z.pow_pos_nonneg; lia).
    cbv zeta. rewrite Hm.
    replace (a * 2 ^ (- e) * 10) with (10 * a * 2 ^ (- e)) by lia.
    rewrite Z.mod_mul, Z.div_mul by lia.
    change (2 * 0) with 0. unfold Z.lt in Hd. now rewrite Hd.
Qed.

(** An integer below 2^53 in magnitude is printed as itself followed by
    ".0". *)
Lemma format_1f_int (z : Z) :
  Z.abs z < 2 ^ 53 -> Py.format_1f (VInt z) = Ok (Str.of_int z ++ ".0").
Proof.
  intros Hz. destruct (Z.eq_dec z 0) as [-> | Hnz]; [reflexivity |].
  destruct (of_int_small z Hz Hnz) as [m [e [Hf [He Hm]]]].
  unfold Py.format_1f. cbn [Py.as_num Py.to_float]. rewrite Hf. cbn [bind].
  f_equal. cbn [Float.format_1f].
  rewrite (tenths_exact m e (Z.abs z) (proj2 He) Hm).
  replace (10 * Z.abs z / 10) with (Z.abs z)
    by (rewrite Z.mul_comm, Z.div_mul; lia).
  replace ((10 * Z.abs z) mod 10) with 0
    by (rewrite Z.mul_comm, Z.mod_mul; lia).
  destruct z as [|p|p]; [congruence | reflexivity | reflexivity].
Qed.

(** [f"{v:.1f}"] prints every finite number with exactly one decimal. *)
Lemma format_1f_one_decimal (v : value) (s : string) :
  finite_number v = true -> Py.format_1f v = Ok s -> one_decimal s.
Proof.
  unfold finite_number, Py.format_1f.
  destruct (Py.as_num v) as [[z|f]|]; try discriminate; intros Hf H.
  - bind_inv H. injection H as <-.
    apply float_format_one_decimal. now apply of_int_finite with z.
  - injection H as <-. now apply float_format_one_decimal.
Qed.

(** Mixed arithmetic on a small integer and a float. *)
Lemma arith_int_float (iop : Z -> Z -> Z)
      (fop : spec_float -> spec_float -> spec_float) (z : Z) (f : spec_float) :
  Z.abs z < 2 ^ 53 ->
  Py.arith iop fop (Py.Int z) (Py.Flt f) = Ok (VFloat (fop (Float.nearest z) f))
  /\ Py.arith iop fop (Py.Flt f) (Py.Int z) = Ok (VFloat (fop f (Float.nearest z))).
Proof.
  intros Hz. unfold Py.arith, Py.to_float.
  rewrite (of_int_nearest z Hz). split; reflexivity.
Qed.

End Formatting.

(** ** Loops that collect one result per element *)

Lemma mapM_Forall2 {A B : Type} (f : A -> result B) (l : list A) (bs : list B) :
  mapM f l = Ok bs -> Forall2 (fun a b => f a = Ok b) l bs.
Proof.
  revert bs. induction l as [|a l IH]; intros bs H; simpl in H.
  - injection H as <-. constructor.
  - bind_inv H. bind_inv H. injection H as <-. constructor; auto.
Qed.

(** ** The TikZ generator: coordinates *)

(** What [node_line] prints once the subtraction and the formatting of the
    two coordinates have gone through. *)
Lemma node_line_eq (height : Z) (n : Node.t) (ty : value) (fx fty : string) :
  Py.sub (VInt height) (Node.y n) = Ok ty ->
  Py.format_1f (Node.x n) = Ok fx ->
  Py.format_1f ty = Ok fty ->
  node_line height n =
  Ok ("\node[draw, circle, inner sep=1pt] (n" ++ Str.of_int (Node.id n)
      ++ ") at (" ++ fx ++ "," ++ fty ++ ") {" ++ Str.of_int (Node.id n) ++ "};").
Proof.
  intros H1 H2 H3. unfold node_line.
  rewrite H1. cbn [bind]. rewrite H2. cbn [bind]. rewrite H3. reflexivity.
Qed.

(** C7. The generator prints every node at (x, height - y) and every edge
    from (x1, height - y1) to (x2, height - y2): the y coordinate is flipped,
    the x coordinate is printed as it is, and every finite coordinate is
    printed with exactly one digit after the point; an integer coordinate
    below 2^53 is printed as the integer followed by ".0".  A node at y = 50
    on a canvas of height 400 is printed at y = 350.0. *)
Theorem tikz_flips_y_with_one_decimal :
  (forall height n ty fx fty,
      Py.sub (VInt height) (Node.y n) = Ok ty ->
      Py.format_1f (Node.x n) = Ok fx ->
      Py.format_1f ty = Ok fty ->
      node_line height n =
      Ok ("\node[draw, circle, inner sep=1pt] (n" ++ Str.of_int (Node.id n)
          ++ ") at (" ++ fx ++ "," ++ fty ++ ") {" ++ Str.of_int (Node.id n)
          ++ "};"))
  /\ (forall height e ty1 ty2 fx1 fty1 fx2 fty2,
         Py.sub (VInt height) (Edge.y1 e) = Ok ty1 ->
         Py.sub (VInt height) (Edge.y2 e) = Ok ty2 ->
         Py.format_1f (Edge.x1 e) = Ok fx1 ->
         Py.format_1f ty1 = Ok fty1 ->
         Py.format_1f (Edge.x2 e) = Ok fx2 ->
         Py.format_1f ty2 = Ok fty2 ->
         edge_line height e =
         Ok ("\draw" ++ snd (tikz_style (Edge.type e)) ++ " (" ++ fx1 ++ ","
             ++ fty1 ++ ") " ++ fst (tikz_style (Edge.type e)) ++ " -- ("
             ++ fx2 ++ "," ++ fty2 ++ ");"))
  /\ (forall nodes edges width height out,
         generate_tikz nodes edges width height = Ok out ->
         exists node_lines edge_lines,
           Forall2 (fun n l => node_line height n = Ok l) nodes node_lines
           /\ Forall2 (fun e l => edge_line height e = Ok l) edges edge_lines
           /\ out = tikz_header ++ Str.join Str.nl node_lines ++ Str.nl
                    ++ Str.join Str.nl edge_lines ++ Str.nl ++ tikz_footer)
  /\ (forall height n x y,
         Node.x n = VInt x -> Node.y n = VInt y ->
         Z.abs x < 2 ^ 53 -> Z.abs (height - y) < 2 ^ 53 ->
         node_line height n =
         Ok ("\node[draw, circle, inner sep=1pt] (n" ++ Str.of_int (Node.id n)
             ++ ") at (" ++ (Str.of_int x ++ ".0") ++ ","
             ++ (Str.of_int (height - y) ++ ".0") ++ ") {"
             ++ Str.of_int (Node.id n) ++ "};"))
  /\ (forall height e x1 y1 x2 y2,
         Edge.x1 e = VInt x1 -> Edge.y1 e = VInt y1 ->
         Edge.x2 e = VInt x2 -> Edge.y2 e = VInt y2 ->
         Z.abs x1 < 2 ^ 53 -> Z.abs (height - y1) < 2 ^ 53 ->
         Z.abs x2 < 2 ^ 53 -> Z.abs (height - y2) < 2 ^ 53 ->
         edge_line height e =
         Ok ("\draw" ++ snd (tikz_style (Edge.type e)) ++ " ("
             ++ (Str.of_int x1 ++ ".0") ++ ","
             ++ (Str.of_int (height - y1) ++ ".0") ++ ") "
             ++ fst (tikz_style (Edge.type e)) ++ " -- ("
             ++ (Str.of_int x2 ++ ".0") ++ ","
             ++ (Str.of_int (height - y2) ++ ".0") ++ ");"))
  /\ (forall v s,
         finite_number v = true -> Py.format_1f v = Ok s -> one_decimal s)
  /\ node_line CANVAS_HEIGHT sample_node
     = Ok "\node[draw, circle, inner sep=1pt] (n0) at (120.0,350.0) {0};"
  /\ generate_tikz [sample_node] [sample_edge "fotón (photon)"]
                   CANVAS_WIDTH CANVAS_HEIGHT
     = Ok (tikz_header
           ++ "\node[draw, circle, inner sep=1pt] (n0) at (120.0,350.0) {0};"
           ++ Str.nl
           ++ "\draw[photon] (0.0,400.0)  -- (100.0,400.0);"
           ++ Str.nl ++ tikz_footer).
Proof.
  split; [exact node_line_eq |].
  split; [exact edge_line_eq |].
  split.
  { intros nodes edges width height out H. unfold generate_tikz in H.
    bind_inv H. bind_inv H. injection H as <-.
    exists a, a0. auto using mapM_Forall2. }
  split.
  { intros height n x y Hx Hy Bx By.
    apply node_line_eq with (VInt (height - y));
      rewrite ?Hx, ?Hy; [reflexivity | |]; now apply format_1f_int. }
  split.
  { intros height e x1 y1 x2 y2 Hx1 Hy1 Hx2 Hy2 B1 B2 B3 B4.
    apply edge_line_eq with (VInt (height - y1)) (VInt (height - y2));
      rewrite ?Hx1, ?Hy1, ?Hx2, ?Hy2; try reflexivity;
      now apply format_1f_int. }
  split; [exact format_1f_one_decimal |].
  split; reflexivity.
Qed.

Lemma tikz_flips_y_with_one_decimal_witness :
  node_line 400 sample_node
  = Ok "\node[draw, circle, inner sep=1pt] (n0) at (120.0,350.0) {0};"
  /\ one_decimal "350.0".
Proof.
  destruct tikz_flips_y_with_one_decimal as [Hnode [_ [_ [_ [_ [Hfmt _]]]]]].
  split.
  - apply (Hnode 400 sample_node (VInt 350) "120.0" "350.0"); reflexivity.
  - apply (Hfmt (VInt 350) "350.0"); reflexivity.
Defined.

(** ** The renderer *)

(** The renderer's chain, read off branch by branch: the second branch is
    never taken. *)
Lemma edge_style_cases (typ : string) :
  edge_style typ = ("#1f77b4", "solid", true) \/
  edge_style typ = ("#2ca02c", "dashdot", false) \/
  edge_style typ = ("#d62728", "dashed", false) \/
  edge_style typ = ("#9467bd", "solid", false) \/
  edge_style typ = ("#222222", "solid", false).
Proof.
  unfold edge_style.
  destruct ("fermion" in? typ) eqn:Hf; [now left |].
  destruct ("antifermion" in? typ) eqn:Ha.
  - apply antifermion_is_fermion in Ha. congruence.
  - destruct (("fotón" in? typ) || ("photon" in? typ)); [now right; left |].
    destruct ("gluón" in? typ); [now right; right; left |].
    destruct ("línea neutra" in? typ); [now right; right; right; left |].
    now right; right; right; right.
Qed.

(** The arrow head, once the arithmetic has gone through. *)
Lemma draw_arrow_eq (x1 y1 x2 y2 wx wy px py sx sy dx dy hx hy : value)
      (color : string) :
  Py.sub x2 x1 = Ok wx -> Py.mul (VFloat f0_7) wx = Ok px ->
  Py.add x1 px = Ok sx ->
  Py.sub y2 y1 = Ok wy -> Py.mul (VFloat f0_7) wy = Ok py ->
  Py.add y1 py = Ok sy ->
  Py.mul wx (VFloat f0_001) = Ok dx -> Py.mul wy (VFloat f0_001) = Ok dy ->
  Py.add sx dx = Ok hx -> Py.add sy dy = Ok hy ->
  draw_arrow x1 y1 x2 y2 color
  = Ok (FancyArrowPatch (sx, sy) (hx, hy) "-|>" 15 color 0).
Proof.
  intros H1 H2 H3 H4 H5 H6 H7 H8 H9 H10. unfold draw_arrow.
  rewrite H1. cbn [bind]. rewrite H2. cbn [bind]. rewrite H3. cbn [bind].
  rewrite H4. cbn [bind]. rewrite H5. cbn [bind]. rewrite H6. cbn [bind].
  rewrite H7. cbn [bind]. rewrite H8. cbn [bind]. rewrite H9. cbn [bind].
  rewrite H10. reflexivity.
Qed.

(** The arrow head on integer endpoints below 2^52 in magnitude. *)
Lemma draw_arrow_int (x1 y1 x2 y2 : Z) (color : string) :
  Z.abs x1 < 2 ^ 52 -> Z.abs y1 < 2 ^ 52 ->
  Z.abs x2 < 2 ^ 52 -> Z.abs y2 < 2 ^ 52 ->
  draw_arrow (VInt x1) (VInt y1) (VInt x2) (VInt y2) color
  = Ok (FancyArrowPatch
          (VFloat (arrow_tail x1 x2), VFloat (arrow_tail y1 y2))
          (VFloat (Float.add (arrow_tail x1 x2) (arrow_step x1 x2)),
           VFloat (Float.add (arrow_tail y1 y2) (arrow_step y1 y2)))
          "-|>" 15 color 0).
Proof.
  intros B1 B2 B3 B4.
  assert (Hx1 : Z.abs x1 < 2 ^ 53) by lia.
  assert (Hy1 : Z.abs y1 < 2 ^ 53) by lia.
  assert (Hwx : Z.abs (x2 - x1) < 2 ^ 53) by lia.
  assert (Hwy : Z.abs (y2 - y1) < 2 ^ 53) by lia.
  apply draw_arrow_eq with
    (wx := VInt (x2 - x1)) (wy := VInt (y2 - y1))
    (px := VFloat (Float.mul f0_7 (Float.nearest (x2 - x1))))
    (py := VFloat (Float.mul f0_7 (Float.nearest (y2 - y1))))
    (dx := VFloat (arrow_step x1 x2)) (dy := VFloat (arrow_step y1 y2));
    try reflexivity.
  - apply (arith_int_float Z.mul Float.mul (x2 - x1) f0_7 Hwx).
  - apply (arith_int_float Z.add Float.add x1 _ Hx1).
  - apply (arith_int_float Z.mul Float.mul (y2 - y1) f0_7 Hwy).
  - apply (arith_int_float Z.add Float.add y1 _ Hy1).
  - apply (arith_int_float Z.mul Float.mul (x2 - x1) f0_001 Hwx).
  - apply (arith_int_float Z.mul Float.mul (y2 - y1) f0_001 Hwy).
Qed.

(** C8. The renderer draws a Fermion edge and an Antifermion edge alike: a
    solid line of width 2 and an arrow head whose tail sits at
    (x1 + 0.7 (x2 - x1), y1 + 0.7 (y2 - y1)) and whose tip lies 0.001 of the
    segment further towards endpoint 2.  A Photon edge is a dash-dot line, a
    Gluon edge a dashed line, an Unknown edge a solid line in the dark grey
    #222222, each of width 2 and without arrow head.  On integer endpoints
    below 2^52 the arithmetic never raises and the arrow head is the one
    binary64 computes; on the edge from (0, 0) to (100, 0) it goes from
    (70.0, 0.0) to (70.1, 0.0). *)
Theorem render_edge_styles :
  (forall e wx wy px py sx sy dx dy hx hy,
      Edge.type e = "fermion (→/←)" \/ Edge.type e = "antifermion (←/→)" ->
      Py.sub (Edge.x2 e) (Edge.x1 e) = Ok wx ->
      Py.mul (VFloat f0_7) wx = Ok px ->
      Py.add (Edge.x1 e) px = Ok sx ->
      Py.sub (Edge.y2 e) (Edge.y1 e) = Ok wy ->
      Py.mul (VFloat f0_7) wy = Ok py ->
      Py.add (Edge.y1 e) py = Ok sy ->
      Py.mul wx (VFloat f0_001) = Ok dx ->
      Py.mul wy (VFloat f0_001) = Ok dy ->
      Py.add sx dx = Ok hx ->
      Py.add sy dy = Ok hy ->
      draw_edge e
      = Ok [Plot (Edge.x1 e, Edge.x2 e) (Edge.y1 e, Edge.y2 e) "solid" 2
                 "#1f77b4";
            FancyArrowPatch (sx, sy) (hx, hy) "-|>" 15 "#1f77b4" 0])
  /\ (forall e x1 y1 x2 y2,
         Edge.type e = "fermion (→/←)" \/ Edge.type e = "antifermion (←/→)" ->
         Edge.x1 e = VInt x1 -> Edge.y1 e = VInt y1 ->
         Edge.x2 e = VInt x2 -> Edge.y2 e = VInt y2 ->
         Z.abs x1 < 2 ^ 52 -> Z.abs y1 < 2 ^ 52 ->
         Z.abs x2 < 2 ^ 52 -> Z.abs y2 < 2 ^ 52 ->
         draw_edge e
         = Ok [Plot (VInt x1, VInt x2) (VInt y1, VInt y2) "solid" 2 "#1f77b4";
               FancyArrowPatch
                 (VFloat (arrow_tail x1 x2), VFloat (arrow_tail y1 y2))
                 (VFloat (Float.add (arrow_tail x1 x2) (arrow_step x1 x2)),
                  VFloat (Float.add (arrow_tail y1 y2) (arrow_step y1 y2)))
                 "-|>" 15 "#1f77b4" 0])
  /\ (forall e, Edge.type e = "fotón (photon)" ->
                draw_edge e
                = Ok [Plot (Edge.x1 e, Edge.x2 e) (Edge.y1 e, Edge.y2 e)
                           "dashdot" 2 "#2ca02c"])
  /\ (forall e, Edge.type e = "gluón (gluon)" ->
                draw_edge e
                = Ok [Plot (Edge.x1 e, Edge.x2 e) (Edge.y1 e, Edge.y2 e)
                           "dashed" 2 "#d62728"])
  /\ (forall e, Edge.type e = "desconocido" ->
                draw_edge e
                = Ok [Plot (Edge.x1 e, Edge.x2 e) (Edge.y1 e, Edge.y2 e)
                           "solid" 2 "#222222"])
  /\ (forall nodes edges width height fig,
         render_diagram_matplotlib nodes edges width height = Ok fig ->
         exists es ns,
           Forall2 (fun e arts => draw_edge e = Ok arts) edges es
           /\ Forall2 (fun n arts => draw_node n = Ok arts) nodes ns
           /\ artists fig = (List.concat es ++ List.concat ns)%list)
  /\ f0_7 = Float.of_ratio 7 10
  /\ (forall typ,
         typ = "fermion (→/←)" \/ typ = "antifermion (←/→)" ->
         render_diagram_matplotlib [] [sample_edge typ] CANVAS_WIDTH CANVAS_HEIGHT
         = Ok (mkfig (0, 800) (400, 0) true
                 [Plot (VInt 0, VInt 100) (VInt 0, VInt 0) "solid" 2 "#1f77b4";
                  FancyArrowPatch
                    (VFloat (Float.of_ratio 70 1), VFloat (Float.of_ratio 0 1))
                    (VFloat (Float.of_ratio 701 10), VFloat (Float.of_ratio 0 1))
                    "-|>" 15 "#1f77b4" 0])).
Proof.
  split.
  { intros e wx wy px py sx sy dx dy hx hy Ht H1 H2 H3 H4 H5 H6 H7 H8 H9 H10.
    unfold draw_edge.
    assert (Hs : edge_style (Edge.type e) = ("#1f77b4", "solid", true))
      by (destruct Ht as [-> | ->]; reflexivity).
    rewrite Hs.
    rewrite (draw_arrow_eq _ _ _ _ wx wy px py sx sy dx dy hx hy "#1f77b4");
      auto. }
  split.
  { intros e x1 y1 x2 y2 Ht Hx1 Hy1 Hx2 Hy2 B1 B2 B3 B4.
    unfold draw_edge.
    assert (Hs : edge_style (Edge.type e) = ("#1f77b4", "solid", true))
      by (destruct Ht as [-> | ->]; reflexivity).
    rewrite Hs, Hx1, Hy1, Hx2, Hy2.
    rewrite (draw_arrow_int x1 y1 x2 y2 "#1f77b4" B1 B2 B3 B4). reflexivity. }
  split; [intros e Ht; unfold draw_edge; rewrite Ht; reflexivity |].
  split; [intros e Ht; unfold draw_edge; rewrite Ht; reflexivity |].
  split; [intros e Ht; unfold draw_edge; rewrite Ht; reflexivity |].
  split.
  { intros nodes edges width height fig H.
    unfold render_diagram_matplotlib in H.
    bind_inv H. bind_inv H. injection H as <-.
    exists a, a0. simpl. auto using mapM_Forall2. }
  split; [reflexivity |].
  intros typ [-> | ->]; vm_compute; reflexivity.
Qed.

Lemma render_edge_styles_witness :
  draw_edge (sample_edge "antifermion (←/→)")
  = Ok [Plot (VInt 0, VInt 100) (VInt 0, VInt 0) "solid" 2 "#1f77b4";
        FancyArrowPatch
          (VFloat (Float.of_ratio 70 1), VFloat (Float.of_ratio 0 1))
          (VFloat (Float.of_ratio 701 10), VFloat (Float.of_ratio 0 1))
          "-|>" 15 "#1f77b4" 0]
  /\ draw_edge (sample_edge "fotón (photon)")
     = Ok [Plot (VInt 0, VInt 100) (VInt 0, VInt 0) "dashdot" 2 "#2ca02c"].
Proof.
  destruct render_edge_styles as [Harrow [_ [Hphoton _]]].
  split.
  - apply (Harrow (sample_edge "antifermion (←/→)")
                  (VInt 100) (VInt 0)
                  (VFloat (Float.of_ratio 70 1)) (VFloat (Float.of_ratio 0 1))
                  (VFloat (Float.of_ratio 70 1)) (VFloat (Float.of_ratio 0 1))
                  (VFloat (Float.of_ratio 1 10)) (VFloat (Float.of_ratio 0 1)));
      [right; reflexivity | vm_compute; reflexivity ..].
  - apply (Hphoton (sample_edge "fotón (photon)")). reflexivity.
Defined.

(** C10. The renderer draws every Antifermion edge in the Fermion colour
    #1f77b4, not in the Antifermion colour #ff7f0e: a type name that contains
    "antifermion" contains "fermion", so the first branch of the chain is
    taken, and no type name whatsoever is drawn in #ff7f0e. *)
Theorem render_antifermion_in_fermion_color :
  color_of "fermion (→/←)" = "#1f77b4"
  /\ color_of "antifermion (←/→)" = "#ff7f0e"
  /\ (forall typ, ("antifermion" in? typ) = true -> ("fermion" in? typ) = true)
  /\ (forall typ, ("antifermion" in? typ) = true ->
                  edge_style typ = ("#1f77b4", "solid", true))
  /\ (forall typ, fst (fst (edge_style typ)) <> "#ff7f0e")
  /\ (forall e arts,
         Edge.type e = "antifermion (←/→)" -> draw_edge e = Ok arts ->
         exists posA posB,
           arts = [Plot (Edge.x1 e, Edge.x2 e) (Edge.y1 e, Edge.y2 e) "solid" 2
                        "#1f77b4";
                   FancyArrowPatch posA posB "-|>" 15 "#1f77b4" 0])
  /\ (exists posA posB,
         draw_edge (sample_edge "antifermion (←/→)")
         = Ok [Plot (VInt 0, VInt 100) (VInt 0, VInt 0) "solid" 2 "#1f77b4";
               FancyArrowPatch posA posB "-|>" 15 "#1f77b4" 0]).
Proof.
  split; [reflexivity |]. split; [reflexivity |].
  split; [exact antifermion_is_fermion |].
  split.
  { intros typ H. apply antifermion_is_fermion in H.
    now rewrite (edge_style_fermion typ H). }
  split.
  { intros typ.
    destruct (edge_style_cases typ) as [H | [H | [H | [H | H]]]];
      rewrite H; discriminate. }
  split.
  { intros e arts Ht H. unfold draw_edge in H. rewrite Ht in H.
    change (edge_style "antifermion (←/→)") with ("#1f77b4", "solid", true) in H.
    cbv iota beta in H. bind_inv H. injection H as <-.
    unfold draw_arrow in Ha.
    repeat bind_inv Ha. injection Ha as <-. eauto. }
  eexists; eexists. vm_compute. reflexivity.
Qed.

Lemma render_antifermion_in_fermion_color_witness :
  edge_style "el antifermion" = ("#1f77b4", "solid", true).
Proof.
  destruct render_antifermion_in_fermion_color as [_ [_ [_ [H _]]]].
  apply H. reflexivity.
Defined.

(** ** The export buttons *)

(** C9. Both export handlers report the empty condition, and produce no
    artifact, exactly when there is neither a node nor an edge; otherwise
    they run the renderer, respectively the generator, and offer its
    result. *)
Theorem export_refuses_exactly_when_empty (nodes : list Node.t) (edges : list Edge.t) :
  (nodes = [] /\ edges = [] ->
   export_png nodes edges
   = Ok [StError "No hay objetos en el lienzo para exportar."]
   /\ export_tikz nodes edges = Ok [StError "No hay objetos para convertir a TikZ."])
  /\ (~ (nodes = [] /\ edges = []) ->
      export_png nodes edges
      = (im <- render_diagram_matplotlib nodes edges CANVAS_WIDTH CANVAS_HEIGHT ;;
         Ok [StImage im "Diagrama exportado (previsualización)";
             StDownloadPng "Descargar PNG" im "diagrama_feynman.png" "image/png"])
      /\ export_tikz nodes edges
         = (tikz <- generate_tikz nodes edges CANVAS_WIDTH CANVAS_HEIGHT ;;
            Ok [StCode tikz "tex";
                StDownloadText "Descargar código .tex" tikz
                               "diagrama_feynman.tex" "text/x-tex"]))
  /\ (forall ws msg,
         export_png nodes edges = Ok ws \/ export_tikz nodes edges = Ok ws ->
         In (StError msg) ws -> nodes = [] /\ edges = []).
Proof.
  assert (Hzero : (Z.of_nat (List.length nodes) + Z.of_nat (List.length edges) =? 0)
                  = true <-> nodes = [] /\ edges = []).
  { rewrite Z.eqb_eq. split.
    - intros H. split; [destruct nodes | destruct edges];
        try reflexivity; cbn [List.length] in H; lia.
    - now intros [-> ->]. }
  unfold export_png, export_tikz.
  destruct (Z.of_nat (List.length nodes) + Z.of_nat (List.length edges) =? 0).
  - split; [auto |]. split; [| intros; now apply Hzero].
    intros H. exfalso. apply H. now apply Hzero.
  - split; [intros H; apply Hzero in H; discriminate |].
    split; [auto |].
    intros ws msg [H | H] Hin; bind_inv H; injection H as <-;
      simpl in Hin; destruct Hin as [Hin | [Hin | []]]; discriminate.
Qed.

Lemma export_refuses_exactly_when_empty_witness :
  export_png [] [] = Ok [StError "No hay objetos en el lienzo para exportar."]
  /\ export_tikz [] [] = Ok [StError "No hay objetos para convertir a TikZ."].
Proof.
  apply (proj1 (export_refuses_exactly_when_empty [] [])). split; reflexivity.
Defined.

(* ================================================================== *)
(** * Further properties *)

(** ** The classifier, in full *)

Lemma lower_ascii_idem (c : ascii) :
  Str.lower_ascii (Str.lower_ascii c) = Str.lower_ascii c.
Proof.
  destruct c as [b0 b1 b2 b3 b4 b5 b6 b7].
  destruct b0, b1, b2, b3, b4, b5, b6, b7; reflexivity.
Qed.

Lemma lower_idem (s : string) : Str.lower (Str.lower s) = Str.lower s.
Proof.
  induction s as [|c s IH]; simpl; [reflexivity |].
  now rewrite lower_ascii_idem, IH.
Qed.

(** A key found by one of the two loops is a key of the table. *)
Lemma first_key_some (test : string -> bool) (k : string) :
  first_key test = Some k ->
  exists v, In (k, v) color_map /\ test v = true.
Proof.
  unfold first_key.
  destruct (find (fun kv => test (snd kv)) color_map) as [[k' v]|] eqn:Hf;
    [| discriminate].
  intros H. injection H as <-. apply find_some in Hf. now exists v.
Qed.

Lemma first_key_none (test : string -> bool) :
  first_key test = None <->
  forall k v, In (k, v) color_map -> test v = false.
Proof.
  unfold first_key. split.
  - destruct (find (fun kv => test (snd kv)) color_map) as [[k' v']|] eqn:Hf;
      [discriminate |].
    intros _ k v Hin. apply (find_none _ _ Hf (k, v) Hin).
  - intros H.
    destruct (find (fun kv => test (snd kv)) color_map) as [[k' v']|] eqn:Hf;
      [| reflexivity].
    apply find_some in Hf. destruct Hf as [Hin Ht]. simpl in Ht.
    rewrite (H k' v' Hin) in Ht. discriminate.
Qed.

(** The exact-match loop never finds anything the substring loop would not
    find first. *)
Lemma color_to_type_by_digits (hexcolor : option string) :
  color_to_type hexcolor = by_digits hexcolor.
Proof.
  unfold color_to_type, by_digits. fold (lowered hexcolor).
  remember (lowered hexcolor) as h eqn:Hh. clear Hh.
  destruct (first_key (fun v => String.eqb (Str.lower v) h)) as [k|] eqn:He;
    [| reflexivity].
  apply first_key_some in He. destruct He as [v [Hin Ht]].
  apply String.eqb_eq in Ht. subst h. simpl in Hin.
  repeat (destruct Hin as [Hin | Hin];
          [injection Hin as <- <-; reflexivity |]).
  contradiction.
Qed.

(** The classifier hands out type names only. *)
Lemma color_to_type_name (hexcolor : option string) :
  In (color_to_type hexcolor) type_names.
Proof.
  rewrite color_to_type_by_digits. unfold by_digits, type_names.
  destruct (first_key _) as [k|] eqn:Hk.
  - apply first_key_some in Hk. destruct Hk as [v [Hin _]].
    apply in_or_app. left. apply in_map_iff. now exists (k, v).
  - apply in_or_app. right. now left.
Qed.

(** X1. The classifier returns the first entry of the colour table, in table
    order, whose six hexadecimal digits occur in the lower-cased input; the
    exact-match loop never changes that result.  It returns "desconocido"
    exactly when the digits of no table colour occur in the input, its result
    is always one of the seven type names, and it ignores the letter case of
    the whole input. *)
Theorem classifier_is_first_digits_match :
  (forall hexcolor, color_to_type hexcolor = by_digits hexcolor)
  /\ (forall hexcolor,
         color_to_type hexcolor = "desconocido" <->
         forall k v, In (k, v) color_map ->
                     (Str.lstrip "#" (Str.lower v) in? lowered hexcolor) = false)
  /\ (forall hexcolor, In (color_to_type hexcolor) type_names)
  /\ (forall s t, Str.lower s = Str.lower t ->
                  color_to_type (Some s) = color_to_type (Some t))
  /\ (forall s, color_to_type (Some (Str.lower s)) = color_to_type (Some s)).
Proof.
  split; [exact color_to_type_by_digits |].
  split.
  { intros hexcolor. rewrite color_to_type_by_digits. unfold by_digits.
    rewrite <- first_key_none.
    destruct (first_key _) as [k|] eqn:Hk; [| tauto].
    split; [| discriminate].
    intros ->. apply first_key_some in Hk. destruct Hk as [v [Hin _]].
    simpl in Hin.
    repeat (destruct Hin as [Hin | Hin]; [discriminate |]). contradiction. }
  split; [exact color_to_type_name |].
  split.
  { intros s t H. unfold color_to_type. now rewrite H. }
  intros s. unfold color_to_type. now rewrite lower_idem.
Qed.

Lemma classifier_is_first_digits_match_witness :
  color_to_type (Some "stroke: #D62728 over #000000") = "vértice (vertex)"
  /\ color_to_type (Some "#D6_2728") = "desconocido".
Proof.
  destruct classifier_is_first_digits_match as [Heq [Hunk _]].
  split.
  - rewrite (Heq (Some "stroke: #D62728 over #000000")). reflexivity.
  - apply (proj2 (Hunk (Some "#D6_2728"))).
    intros k v Hin. simpl in Hin.
    repeat (destruct Hin as [Hin | Hin];
            [injection Hin as <- <-; reflexivity |]).
    contradiction.
Defined.

(** ** The parser: what reaches the two lists *)

(** What the parser returns comes out of the loop started at id 0. *)
Lemma parse_canvas_objects_ok (json_data : value)
      (r : list Node.t * list Edge.t) :
  parse_canvas_objects json_data = Ok r ->
  r = ([], []) \/ exists objs, parse_loop objs 0 [] [] = Ok r.
Proof.
  unfold parse_canvas_objects.
  destruct (negb (Py.truthy json_data)); [intros H; injection H as <-; now left |].
  destruct json_data as [| | | |s|l|d]; try discriminate.
  - destruct ("objects" in? s); [discriminate | intros H; injection H as <-; now left].
  - destruct (existsb _ l); [discriminate | intros H; injection H as <-; now left].
  - destruct (Py.lookup d "objects") as [objects|];
      [| intros H; injection H as <-; now left].
    intros H. bind_inv H. right. now exists a.
Qed.

Lemma parse_object_node (node_id : Z) (obj : value) (n : Node.t) :
  parse_object node_id obj = Ok (PNode n) ->
  exists d stroke,
    obj = VDict d /\ stroke_of d = Ok stroke
    /\ parse_circle node_id d stroke = Ok n.
Proof.
  destruct obj as [| | | | |l|d]; try discriminate.
  unfold parse_object. intros H. bind_inv H.
  destruct (eq_str _ "circle" || eq_str _ "ellipse").
  - bind_inv H. injection H as <-. now exists d, a.
  - destruct (eq_str _ "line" || eq_str _ "path"); [| discriminate].
    bind_inv H. discriminate.
Qed.

Lemma parse_object_edge (node_id : Z) (obj : value) (e : Edge.t) :
  parse_object node_id obj = Ok (PEdge e) ->
  exists d stroke,
    obj = VDict d /\ stroke_of d = Ok stroke /\ parse_line d stroke = Ok e.
Proof.
  destruct obj as [| | | | |l|d]; try discriminate.
  unfold parse_object. intros H. bind_inv H.
  destruct (eq_str _ "circle" || eq_str _ "ellipse").
  - bind_inv H. discriminate.
  - destruct (eq_str _ "line" || eq_str _ "path"); [| discriminate].
    bind_inv H. injection H as <-. now exists d, a.
Qed.

(** A property of every node and edge one iteration can append holds of
    everything the loop returns. *)
Lemma parse_loop_forall (PN : Node.t -> Prop) (PE : Edge.t -> Prop)
      (objects : list value) :
  (forall node_id obj n,
      In obj objects -> parse_object node_id obj = Ok (PNode n) -> PN n) ->
  (forall node_id obj e,
      In obj objects -> parse_object node_id obj = Ok (PEdge e) -> PE e) ->
  forall node_id nodes edges nodes' edges',
    Forall PN nodes -> Forall PE edges ->
    parse_loop objects node_id nodes edges = Ok (nodes', edges') ->
    Forall PN nodes' /\ Forall PE edges'.
Proof.
  induction objects as [|obj rest IH];
    intros HN HE node_id nodes edges nodes' edges' Hn He H.
  - injection H as <- <-. auto.
  - cbn [parse_loop] in H. bind_inv H.
    assert (HN' : forall i o n, In o rest -> parse_object i o = Ok (PNode n) -> PN n)
      by (intros i o n Hin; apply HN; now right).
    assert (HE' : forall i o e, In o rest -> parse_object i o = Ok (PEdge e) -> PE e)
      by (intros i o e Hin; apply HE; now right).
    destruct a as [n | e |].
    + apply (IH HN' HE' _ _ _ _ _) in H; auto.
      apply Forall_app. split; [assumption |].
      constructor; [| constructor]. apply (HN node_id obj n); [now left | assumption].
    + apply (IH HN' HE' _ _ _ _ _) in H; auto.
      apply Forall_app. split; [assumption |].
      constructor; [| constructor]. apply (HE node_id obj e); [now left | assumption].
    + apply (IH HN' HE' _ _ _ _ _) in H; auto.
Qed.

(** The loop hands out type names only. *)
Lemma parse_loop_types (objs : list value) (node_id : Z)
      (nodes : list Node.t) (edges : list Edge.t) :
  parse_loop objs node_id [] [] = Ok (nodes, edges) ->
  Forall (fun n => In (Node.type n) type_names) nodes
  /\ Forall (fun e => In (Edge.type e) type_names) edges.
Proof.
  intros H.
  apply (parse_loop_forall
           (fun n => In (Node.type n) type_names)
           (fun e => In (Edge.type e) type_names) objs) with (5 := H); auto.
  - intros i obj n _ Hp. apply parse_object_node in Hp.
    destruct Hp as [d [s [_ [_ Hc]]]]. apply parse_circle_ok in Hc.
    destruct Hc as [_ [_ [-> _]]]. apply color_to_type_name.
  - intros i obj e _ Hp. apply parse_object_edge in Hp.
    destruct Hp as [d [s [_ [_ Hl]]]]. apply parse_line_ok in Hl.
    destruct Hl as [_ ->]. apply color_to_type_name.
Qed.

(** X2. Whatever document the parser accepts, every node and every edge it
    returns carries one of the seven type names: a key of the colour table or
    "desconocido". *)
Theorem parsed_types_are_type_names (json_data : value)
        (nodes : list Node.t) (edges : list Edge.t) :
  parse_canvas_objects json_data = Ok (nodes, edges) ->
  Forall (fun n => In (Node.type n) type_names) nodes
  /\ Forall (fun e => In (Edge.type e) type_names) edges.
Proof.
  intros H. apply parse_canvas_objects_ok in H.
  destruct H as [H | [objs H]]; [injection H as -> ->; auto |].
  now apply parse_loop_types in H.
Qed.

Lemma parsed_types_are_type_names_witness :
  exists nodes edges,
    parse_canvas_objects (canvas mixed_drawing) = Ok (nodes, edges)
    /\ Forall (fun n => In (Node.type n) type_names) nodes
    /\ Forall (fun e => In (Edge.type e) type_names) edges.
Proof.
  eexists. eexists. split; [vm_compute; reflexivity |].
  apply (parsed_types_are_type_names (canvas mixed_drawing)).
  vm_compute. reflexivity.
Defined.

(** ** The stroke fields *)

(** X3. The type of a shape is read from its stroke fields alone.  A stroke
    that is a non-empty string decides, lower-cased, whatever [strokeStyle]
    holds; [strokeStyle] is consulted only when [stroke] is absent or false
    (empty, [null], 0); when both are, the text is empty and the type is
    "desconocido"; a true stroke that is not a string raises
    [AttributeError].  Hence two shapes with the same stroke fields get the
    same type, whatever their kind and geometry. *)
Theorem type_is_read_from_stroke_fields :
  (forall d s,
      Py.get d "stroke" VNone = VStr s -> s <> "" ->
      stroke_of d = Ok (Str.lower s))
  /\ (forall d s,
         Py.truthy (Py.get d "stroke" VNone) = false ->
         Py.get d "strokeStyle" VNone = VStr s -> s <> "" ->
         stroke_of d = Ok (Str.lower s))
  /\ (forall d,
         Py.truthy (Py.get d "stroke" VNone) = false ->
         Py.truthy (Py.get d "strokeStyle" VNone) = false ->
         stroke_of d = Ok "" /\ color_to_type (Some "") = "desconocido")
  /\ (forall d,
         Py.truthy (Py.get d "stroke" VNone) = true ->
         (forall s, Py.get d "stroke" VNone <> VStr s) ->
         stroke_of d = Raise AttributeError)
  /\ (forall d d' node_id node_id' n e,
         Py.get d "stroke" VNone = Py.get d' "stroke" VNone ->
         Py.get d "strokeStyle" VNone = Py.get d' "strokeStyle" VNone ->
         parse_object node_id (VDict d) = Ok (PNode n) ->
         parse_object node_id' (VDict d') = Ok (PEdge e) ->
         Node.type n = Edge.type e).
Proof.
  assert (Hget : forall d key dflt v,
             Py.get d key VNone = v -> Py.truthy v = true ->
             Py.get d key dflt = v).
  { intros d key dflt v. unfold Py.get.
    destruct (Py.lookup d key); [auto | intros <-; discriminate]. }
  assert (Hne : forall s, s <> "" -> Py.truthy (VStr s) = true).
  { intros s Hs. simpl. destruct (String.eqb_spec s ""); [contradiction | reflexivity]. }
  split.
  { intros d s H Hs. unfold stroke_of. rewrite H, (Hne s Hs).
    rewrite (Hget d "stroke" (VStr "") (VStr s) H (Hne s Hs)). reflexivity. }
  split.
  { intros d s Hf H Hs. unfold stroke_of. rewrite Hf, H, (Hne s Hs).
    rewrite (Hget d "strokeStyle" (VStr "") (VStr s) H (Hne s Hs)). reflexivity. }
  split.
  { intros d H1 H2. unfold stroke_of. rewrite H1, H2. split; reflexivity. }
  split.
  { intros d Ht Hn. unfold stroke_of. rewrite Ht.
    rewrite (Hget d "stroke" (VStr "") _ eq_refl Ht).
    destruct (Py.get d "stroke" VNone) as [| | | |s| |]; try reflexivity.
    now destruct (Hn s). }
  intros d d' i i' n e H1 H2 Hn He.
  apply parse_object_node in Hn. destruct Hn as [d0 [s [E [Hs Hc]]]].
  injection E as <-.
  apply parse_object_edge in He. destruct He as [d1 [s' [E [Hs' Hl]]]].
  injection E as <-.
  apply parse_circle_ok in Hc. destruct Hc as [_ [_ [-> _]]].
  apply parse_line_ok in Hl. destruct Hl as [_ ->].
  assert (Heq : stroke_of d = stroke_of d').
  { unfold stroke_of. rewrite <- H1, <- H2.
    assert (Hd : forall a b key,
               Py.get a key VNone = Py.get b key VNone ->
               Py.truthy (Py.get a key VNone) = true ->
               Py.get a key (VStr "") = Py.get b key (VStr "")).
    { intros a b key Hab Ht.
      rewrite (Hget a key (VStr "") _ eq_refl Ht).
      rewrite Hab in Ht. rewrite (Hget b key (VStr "") _ eq_refl Ht).
      exact Hab. }
    destruct (Py.truthy (Py.get d "stroke" VNone)) eqn:T1.
    - now rewrite (Hd d d' "stroke" H1 T1).
    - destruct (Py.truthy (Py.get d "strokeStyle" VNone)) eqn:T2; [| reflexivity].
      now rewrite (Hd d d' "strokeStyle" H2 T2). }
  congruence.
Qed.

Lemma type_is_read_from_stroke_fields_witness :
  stroke_of [("strokeStyle", VInt 7); ("stroke", VStr "#FF7F0E")]
  = Ok "#ff7f0e"
  /\ stroke_of [("stroke", VStr ""); ("strokeStyle", VStr "#2CA02C")]
     = Ok "#2ca02c"
  /\ stroke_of gradient_rect = Raise AttributeError.
Proof.
  destruct type_is_read_from_stroke_fields as [H1 [H2 [_ [H4 _]]]].
  split; [| split].
  - apply (H1 [("strokeStyle", VInt 7); ("stroke", VStr "#FF7F0E")] "#FF7F0E");
      [reflexivity | discriminate].
  - apply (H2 [("stroke", VStr ""); ("strokeStyle", VStr "#2CA02C")] "#2CA02C");
      [reflexivity | reflexivity | discriminate].
  - apply (H4 gradient_rect); [reflexivity | discriminate].
Defined.

(** ** The endpoints of a line or path *)

(** X4. A line that gives [x1] is copied as it is: the edge holds the four
    endpoint fields exactly as read ([None] for a missing one), and nothing
    else of the shape is looked at, so no arithmetic can raise, whatever
    [left], [top], [points], [width] and [height] hold. *)
Theorem line_endpoints_are_copied (d : dict) (node_id : Z) :
  stroke_ok d = true ->
  is_edge_shape (VDict d) = true ->
  Py.get d "x1" VNone <> VNone ->
  exists stroke,
    stroke_of d = Ok stroke
    /\ parse_object node_id (VDict d)
       = Ok (PEdge (Edge.mk (Py.get d "x1" VNone) (Py.get d "y1" VNone)
                            (Py.get d "x2" VNone) (Py.get d "y2" VNone)
                            (color_to_type (Some stroke)) (VDict d))).
Proof.
  intros Hs Hk Hx.
  destruct (stroke_of_total d Hs) as [s Hstroke]. exists s. split; [assumption |].
  pose proof (node_shape_not_edge (VDict d)) as Hnot.
  destruct (is_node_shape (VDict d)) eqn:Hn; [rewrite Hnot in Hk; [discriminate | reflexivity] |].
  unfold parse_object. rewrite Hstroke. cbn [bind].
  simpl in Hn, Hk. rewrite Hn, Hk. unfold parse_line.
  destruct (Py.get d "x1" VNone); [now destruct Hx | reflexivity ..].
Qed.

Lemma line_endpoints_are_copied_witness :
  exists stroke,
    stroke_of fermion_line = Ok stroke
    /\ parse_object 0 (VDict fermion_line)
       = Ok (PEdge (Edge.mk (VInt 3) (VInt 4) (VInt 103) (VInt 54)
                            (color_to_type (Some stroke)) (VDict fermion_line))).
Proof.
  apply (line_endpoints_are_copied fermion_line 0);
    [reflexivity | reflexivity | discriminate].
Defined.



(** ** The first malformed shape *)

(** Whether an iteration raises does not depend on the id it would assign. *)
Lemma parse_object_raise_any_id (node_id node_id' : Z) (obj : value) (e : exn) :
  parse_object node_id obj = Raise e -> parse_object node_id' obj = Raise e.
Proof.
  destruct obj as [| | | | |l|d]; try (intros H; exact H).
  unfold parse_object. destruct (stroke_of d) as [s|x]; [| intros H; exact H].
  cbn [bind].
  destruct (eq_str _ "circle" || eq_str _ "ellipse"); [| intros H; exact H].
  unfold parse_circle.
  destruct (Py.add (Py.get d "left" (VInt 0)) _) as [cx|x];
    [| intros H; exact H].
  cbn [bind].
  destruct (Py.add (Py.get d "top" (VInt 0)) _) as [cy|x];
    [discriminate | intros H; exact H].
Qed.

Lemma parse_loop_first_raise (pre : list value) (obj : value)
      (post : list value) (e : exn) :
  forallb shape_ok pre = true ->
  parse_object 0 obj = Raise e ->
  forall node_id nodes edges,
    parse_loop (pre ++ obj :: post) node_id nodes edges = Raise e.
Proof.
  intros Hpre Hobj. induction pre as [|o pre IH]; intros node_id nodes edges.
  - cbn [app parse_loop].
    now rewrite (parse_object_raise_any_id 0 node_id obj e Hobj).
  - simpl in Hpre. apply andb_true_iff in Hpre. destruct Hpre as [Ho Hpre].
    cbn [app parse_loop].
    destruct (parse_object_total node_id o Ho) as [p ->]. cbn [bind].
    destruct p; now apply IH.
Qed.

(** X6. The parser stops at the first shape it cannot handle: when the
    shapes before it are well typed, the whole call raises that shape's
    exception and returns nothing of what it had collected; the shapes after
    it are not looked at.  A stroke that is true but not a string (a gradient
    object, a number) is such a case for every shape, also for the kinds the
    parser would ignore: it raises [AttributeError]. *)
Theorem parse_stops_at_first_bad_shape :
  (forall d pre obj post e,
      Py.lookup d "objects" = Some (VList (pre ++ obj :: post)) ->
      forallb shape_ok pre = true ->
      parse_object 0 obj = Raise e ->
      parse_canvas_objects (VDict d) = Raise e)
  /\ (forall d node_id,
         Py.truthy (Py.get d "stroke" VNone) = true ->
         (forall s, Py.get d "stroke" VNone <> VStr s) ->
         parse_object node_id (VDict d) = Raise AttributeError)
  /\ (forall obj node_id,
         (forall d, obj <> VDict d) ->
         parse_object node_id obj = Raise AttributeError).
Proof.
  split.
  { intros d pre obj post e Hd Hpre Hobj.
    rewrite (parse_canvas_objects_loop d _ Hd).
    now apply parse_loop_first_raise. }
  split.
  { intros d node_id Ht Hn. unfold parse_object, stroke_of. rewrite Ht.
    assert (Hg : Py.get d "stroke" (VStr "") = Py.get d "stroke" VNone).
    { unfold Py.get in *. destruct (Py.lookup d "stroke"); [reflexivity | discriminate]. }
    rewrite Hg.
    destruct (Py.get d "stroke" VNone) as [| | | |s| |]; try reflexivity.
    now destruct (Hn s). }
  intros obj node_id Hn.
  destruct obj as [| | | | |l|d]; try reflexivity. now destruct (Hn d).
Qed.

Lemma parse_stops_at_first_bad_shape_witness :
  parse_canvas_objects (canvas [fermion_circle; photon_line; gradient_rect;
                                bare_ellipse])
  = Raise AttributeError.
Proof.
  apply (proj1 parse_stops_at_first_bad_shape
               [("version", VStr "4.4.0");
                ("objects", VList (map VDict [fermion_circle; photon_line;
                                              gradient_rect; bare_ellipse]))]
               (map VDict [fermion_circle; photon_line])
               (VDict gradient_rect) [VDict bare_ellipse] AttributeError);
    reflexivity.
Defined.

(** ** From the particle selector to the parsed type *)

(** A stroke that is a non-empty string is what the loop classifies. *)
Lemma stroke_of_text (d : dict) (s : string) :
  Py.get d "stroke" VNone = VStr s -> s <> "" ->
  stroke_of d = Ok (Str.lower s).
Proof.
  intros H Hs. unfold stroke_of. rewrite H.
  assert (Ht : Py.truthy (VStr s) = true)
    by (simpl; destruct (String.eqb_spec s ""); [contradiction | reflexivity]).
  rewrite Ht.
  assert (Hg : Py.get d "stroke" (VStr "") = VStr s).
  { unfold Py.get in *. destruct (Py.lookup d "stroke"); [assumption | discriminate]. }
  now rewrite Hg.
Qed.

(** The type of whatever one iteration keeps is the class of the stroke. *)
Lemma parse_object_type (node_id : Z) (d : dict) (p : parsed) (typ : string) :
  parse_object node_id (VDict d) = Ok p -> parsed_type p = Some typ ->
  exists stroke, stroke_of d = Ok stroke /\ typ = color_to_type (Some stroke).
Proof.
  intros Hp Ht. destruct p as [n | e |]; [| | discriminate];
    injection Ht as <-.
  - apply parse_object_node in Hp. destruct Hp as [d0 [s [E [Hs Hc]]]].
    injection E as <-. exists s. split; [assumption |].
    now apply parse_circle_ok in Hc.
  - apply parse_object_edge in Hp. destruct Hp as [d0 [s [E [Hs Hl]]]].
    injection E as <-. exists s. split; [assumption |].
    now apply parse_line_ok in Hl.
Qed.

(** X7. The particle selector and the colour table go together: the options
    of the selector are exactly the keys of the table, in the same order, so
    [color_map[particle]] never fails for a selected particle (and has no
    value for any other key).  And the round trip closes: a shape drawn in
    the stroke colour of the selected particle, in any letter case, is parsed
    as a node or edge of exactly that particle type. *)
Theorem selected_particle_is_parsed_back :
  map fst color_map = particle_options
  /\ (forall key, ~ In key particle_options -> color_map_item key = None)
  /\ (forall particle,
         In particle particle_options ->
         exists c,
           stroke_color particle = Some c
           /\ forall d s node_id p typ,
               Py.get d "stroke" VNone = VStr s ->
               Str.lower s = Str.lower c ->
               parse_object node_id (VDict d) = Ok p ->
               parsed_type p = Some typ ->
               typ = particle).
Proof.
  split; [reflexivity |].
  split.
  { intros key Hn. unfold color_map_item.
    destruct (find _ color_map) as [[k v]|] eqn:Hf; [| reflexivity].
    apply find_some in Hf. destruct Hf as [Hin Hk]. simpl in Hk.
    apply String.eqb_eq in Hk. subst k. exfalso. apply Hn.
    change particle_options with (map fst color_map).
    apply in_map_iff. now exists (key, v). }
  intros particle Hin.
  assert (Hc : exists c,
             stroke_color particle = Some c /\ c <> ""
             /\ Str.lower c <> ""
             /\ forall s, Str.lower s = Str.lower c ->
                          color_to_type (Some s) = particle).
  { simpl in Hin.
    repeat (destruct Hin as [<- | Hin];
            [eexists; split; [reflexivity |];
             split; [discriminate |]; split; [discriminate |];
             intros s Hs; unfold color_to_type; rewrite Hs; reflexivity |]).
    contradiction. }
  destruct Hc as [c [Hsc [Hne [Hlne Hcl]]]]. exists c. split; [assumption |].
  intros d s node_id p typ Hs Hl Hp Ht.
  destruct (parse_object_type node_id d p typ Hp Ht) as [stroke [Hst ->]].
  assert (Hs0 : s <> "") by (intros ->; simpl in Hl; congruence).
  rewrite (stroke_of_text d s Hs Hs0) in Hst. injection Hst as <-.
  apply Hcl. now rewrite lower_idem.
Qed.

Lemma selected_particle_is_parsed_back_witness :
  stroke_color "fermion (→/←)" = Some "#1f77b4"
  /\ exists typ,
      parse_object 0 (VDict fermion_circle)
      = Ok (PNode (Node.mk 0 (VInt 15) (VInt 25) typ (VDict fermion_circle)))
      /\ typ = "fermion (→/←)".
Proof.
  split; [reflexivity |].
  destruct (proj2 (proj2 selected_particle_is_parsed_back) "fermion (→/←)")
    as [c [Hc H]]; [simpl; tauto |].
  vm_compute in Hc. injection Hc as <-.
  eexists. split; [vm_compute; reflexivity |].
  symmetry.
  apply (H fermion_circle "#1F77B4" 0
           (PNode (Node.mk 0 (VInt 15) (VInt 25) "fermion (→/←)"
                           (VDict fermion_circle))));
    vm_compute; reflexivity.
Defined.

(** ** Shapes as the canvas draws them *)

Lemma safe_num_mono (b b' : Z) (v : value) :
  b <= b' -> safe_num b v = true -> safe_num b' v = true.
Proof.
  unfold safe_num. intros Hb. destruct (Py.as_num v) as [[z|f]|]; auto.
  rewrite !Z.ltb_lt. lia.
Qed.

(** Arithmetic on numbers in range goes through, and says how far the
    result reaches. *)
Lemma arith_safe (iop : Z -> Z -> Z)
      (fop : spec_float -> spec_float -> spec_float)
      (b1 b2 b : Z) (a c : value) (x y : Py.num) :
  Py.as_num a = Some x -> Py.as_num c = Some y ->
  safe_num b1 a = true -> safe_num b2 c = true ->
  b1 <= 2 ^ 53 -> b2 <= 2 ^ 53 ->
  (forall p q, Z.abs p < b1 -> Z.abs q < b2 -> Z.abs (iop p q) < b) ->
  exists v, Py.arith iop fop x y = Ok v /\ safe_num b v = true.
Proof.
  unfold safe_num. intros -> -> Ha Hc H1 H2 Hop.
  destruct x as [p|f], y as [q|g]; cbn [Py.arith Py.to_float].
  - apply Z.ltb_lt in Ha. apply Z.ltb_lt in Hc.
    eexists. split; [reflexivity |]. cbn [Py.as_num].
    apply Z.ltb_lt. auto.
  - apply Z.ltb_lt in Ha. rewrite of_int_nearest by lia.
    cbn [bind]. eexists. split; reflexivity.
  - apply Z.ltb_lt in Hc. rewrite of_int_nearest by lia.
    cbn [bind]. eexists. split; reflexivity.
  - cbn [bind]. eexists. split; reflexivity.
Qed.

Lemma safe_num_some (b : Z) (v : value) :
  safe_num b v = true -> exists n, Py.as_num v = Some n.
Proof.
  unfold safe_num. destruct (Py.as_num v) as [n|]; [eauto | discriminate].
Qed.


Lemma sub_safe (b1 b2 : Z) (a c : value) :
  safe_num b1 a = true -> safe_num b2 c = true ->
  b1 <= 2 ^ 53 -> b2 <= 2 ^ 53 ->
  exists v, Py.sub a c = Ok v /\ safe_num (b1 + b2) v = true.
Proof.
  intros Ha Hc H1 H2.
  destruct (safe_num_some _ _ Ha) as [x Hx].
  destruct (safe_num_some _ _ Hc) as [y Hy].
  unfold Py.sub. rewrite Hx, Hy.
  apply (arith_safe Z.sub Float.sub b1 b2 (b1 + b2) a c); auto.
  intros p q Hp Hq. lia.
Qed.


Lemma format_safe (v : value) :
  safe_num (2 ^ 53) v = true -> exists s, Py.format_1f v = Ok s.
Proof.
  unfold safe_num, Py.format_1f.
  destruct (Py.as_num v) as [[z|f]|]; [| | discriminate]; intros H.
  - apply Z.ltb_lt in H. cbn [Py.to_float].
    rewrite of_int_nearest by exact H. cbn [bind]. eauto.
  - cbn [Py.to_float bind]. eauto.
Qed.












(** ** The generator and the renderer on coordinates in range *)

Lemma mapM_total {A B : Type} (f : A -> result B) (l : list A) :
  (forall a, In a l -> exists b, f a = Ok b) -> exists bs, mapM f l = Ok bs.
Proof.
  induction l as [|a l IH]; intros H; simpl; [eauto |].
  destruct (H a (or_introl eq_refl)) as [b ->]. cbn [bind].
  destruct IH as [bs ->]; [intros x Hx; apply H; now right |].
  cbn [bind]. eauto.
Qed.

Lemma node_line_total (height : Z) (n : Node.t) :
  Z.abs height < 2 ^ 52 -> node_in_range n = true ->
  exists s, node_line height n = Ok s.
Proof.
  intros Hh Hn. unfold node_in_range in Hn.
  apply andb_true_iff in Hn. destruct Hn as [Sx Sy].
  assert (Sh : safe_num (2 ^ 52) (VInt height) = true)
    by (apply Z.ltb_lt; exact Hh).
  destruct (sub_safe _ _ _ _ Sh Sy) as [ty [Hty Sty]]; [lia | lia |].
  destruct (format_safe (Node.x n)) as [fx Hfx];
    [apply (safe_num_mono (2 ^ 51)); [lia | exact Sx] |].
  destruct (format_safe ty) as [fty Hfty];
    [apply (safe_num_mono (2 ^ 52 + 2 ^ 51)); [lia | exact Sty] |].
  rewrite (node_line_eq height n ty fx fty Hty Hfx Hfty). eauto.
Qed.

Lemma edge_line_total (height : Z) (e : Edge.t) :
  Z.abs height < 2 ^ 52 -> edge_in_range e = true ->
  exists s, edge_line height e = Ok s.
Proof.
  intros Hh He. unfold edge_in_range in He.
  rewrite !andb_true_iff in He. destruct He as [[[S1 S2] S3] S4].
  assert (Sh : safe_num (2 ^ 52) (VInt height) = true)
    by (apply Z.ltb_lt; exact Hh).
  destruct (sub_safe _ _ _ _ Sh S2) as [ty1 [Hty1 Sty1]]; [lia | lia |].
  destruct (sub_safe _ _ _ _ Sh S4) as [ty2 [Hty2 Sty2]]; [lia | lia |].
  destruct (format_safe (Edge.x1 e)) as [fx1 Hfx1];
    [apply (safe_num_mono (2 ^ 51)); [lia | exact S1] |].
  destruct (format_safe ty1) as [fty1 Hfty1];
    [apply (safe_num_mono (2 ^ 52 + 2 ^ 51)); [lia | exact Sty1] |].
  destruct (format_safe (Edge.x2 e)) as [fx2 Hfx2];
    [apply (safe_num_mono (2 ^ 51)); [lia | exact S3] |].
  destruct (format_safe ty2) as [fty2 Hfty2];
    [apply (safe_num_mono (2 ^ 52 + 2 ^ 51)); [lia | exact Sty2] |].
  rewrite (edge_line_eq height e ty1 ty2 fx1 fty1 fx2 fty2
             Hty1 Hty2 Hfx1 Hfty1 Hfx2 Hfty2). eauto.
Qed.

Lemma generate_tikz_in_range (nodes : list Node.t) (edges : list Edge.t)
      (width height : Z) :
  forallb node_in_range nodes = true -> forallb edge_in_range edges = true ->
  Z.abs height < 2 ^ 52 ->
  exists tikz, generate_tikz nodes edges width height = Ok tikz.
Proof.
  intros Hn He Hh. rewrite forallb_forall in Hn, He.
  unfold generate_tikz.
  destruct (mapM_total (node_line height) nodes) as [ns ->];
    [intros n Hin; apply node_line_total; auto |].
  destruct (mapM_total (edge_line height) edges) as [es ->];
    [intros e Hin; apply edge_line_total; auto |].
  cbn [bind]. eauto.
Qed.

(** The renderer draws an arrow head exactly on the names that mention
    "fermion". *)
Lemma edge_style_arrow (typ : string) :
  snd (edge_style typ) = ("fermion" in? typ).
Proof.
  unfold edge_style.
  destruct ("fermion" in? typ) eqn:Hf; [reflexivity |].
  destruct ("antifermion" in? typ) eqn:Ha.
  - apply antifermion_is_fermion in Ha. congruence.
  - destruct (("fotón" in? typ) || ("photon" in? typ)); [reflexivity |].
    destruct ("gluón" in? typ); [reflexivity |].
    destruct ("línea neutra" in? typ); reflexivity.
Qed.














(** X9. The generator returns on every diagram whose coordinates are floats
    or integers below 2^51, for every canvas height below 2^52; it does not
    look at [width].  A coordinate that is not a number makes it raise: a
    [y] that is [None] or text raises [TypeError] at [height - y], an [x]
    that is text raises [ValueError] and an [x] that is [None] raises
    [TypeError] at the formatting. *)
Theorem generate_tikz_returns_on_numbers :
  (forall nodes edges width height,
      forallb node_in_range nodes = true ->
      forallb edge_in_range edges = true ->
      Z.abs height < 2 ^ 52 ->
      exists tikz,
        generate_tikz nodes edges width height = Ok tikz
        /\ forall width', generate_tikz nodes edges width' height = Ok tikz)
  /\ (forall n nodes edges width height,
         Py.as_num (Node.y n) = None ->
         generate_tikz (n :: nodes) edges width height = Raise TypeError)
  /\ (forall n nodes edges width height s,
         safe_num (2 ^ 51) (Node.y n) = true -> Z.abs height < 2 ^ 52 ->
         Node.x n = VStr s ->
         generate_tikz (n :: nodes) edges width height = Raise ValueError)
  /\ (forall n nodes edges width height,
         safe_num (2 ^ 51) (Node.y n) = true -> Z.abs height < 2 ^ 52 ->
         Node.x n = VNone ->
         generate_tikz (n :: nodes) edges width height = Raise TypeError).
Proof.
  split; [| split; [| split]].
  - intros nodes edges width height Hn He Hh.
    destruct (generate_tikz_in_range nodes edges width height Hn He Hh)
      as [tikz H].
    exists tikz. split; [exact H |]. intros width'. exact H.
  - intros n nodes edges width height Hy.
    unfold generate_tikz. cbn [mapM]. unfold node_line, Py.sub.
    cbn [Py.as_num]. rewrite Hy. reflexivity.
  - intros n nodes edges width height s Sy Hh Hx.
    assert (Sh : safe_num (2 ^ 52) (VInt height) = true)
      by (apply Z.ltb_lt; exact Hh).
    destruct (sub_safe _ _ _ _ Sh Sy) as [ty [Hty _]]; [lia | lia |].
    unfold generate_tikz. cbn [mapM]. unfold node_line.
    rewrite Hty, Hx. reflexivity.
  - intros n nodes edges width height Sy Hh Hx.
    assert (Sh : safe_num (2 ^ 52) (VInt height) = true)
      by (apply Z.ltb_lt; exact Hh).
    destruct (sub_safe _ _ _ _ Sh Sy) as [ty [Hty _]]; [lia | lia |].
    unfold generate_tikz. cbn [mapM]. unfold node_line.
    rewrite Hty, Hx. reflexivity.
Qed.

Lemma generate_tikz_returns_on_numbers_witness :
  (exists tikz,
      generate_tikz [sample_node] [sample_edge "fotón (photon)"] 800 400 = Ok tikz
      /\ forall width',
          generate_tikz [sample_node] [sample_edge "fotón (photon)"] width' 400
          = Ok tikz)
  /\ generate_tikz [Node.mk 0 (VInt 1) VNone "desconocido" VNone] [] 800 400
     = Raise TypeError.
Proof.
  split.
  - apply (proj1 generate_tikz_returns_on_numbers
             [sample_node] [sample_edge "fotón (photon)"] 800 400);
      vm_compute; reflexivity.
  - apply (proj1 (proj2 generate_tikz_returns_on_numbers)
             (Node.mk 0 (VInt 1) VNone "desconocido" VNone) [] [] 800 400).
    reflexivity.
Defined.



(** ** The TikZ document *)

(** [str] of an integer can be read back. *)
Lemma of_int_inj (a b : Z) : Str.of_int a = Str.of_int b -> a = b.
Proof.
  assert (Hnil : forall z, Z.to_int z <> Decimal.Pos Decimal.Nil
                          /\ Z.to_int z <> Decimal.Neg Decimal.Nil).
  { intros [|p|p]; split; try discriminate; cbn [Z.to_int]; intros E;
      injection E as E; now apply DecimalPos.Unsigned.to_uint_nonnil in E. }
  unfold Str.of_int. intros H.
  apply (f_equal NilZero.int_of_string) in H.
  rewrite !NilZero.isi in H by apply Hnil.
  injection H as H. apply (f_equal Z.of_int) in H.
  now rewrite !DecimalZ.of_to in H.
Qed.

Lemma ids_from_NoDup (start : Z) (n : nat) : NoDup (ids_from start n).
Proof.
  unfold ids_from. apply Injective_map_NoDup; [| apply seq_NoDup].
  intros a b H. lia.
Qed.

(** The loop started on empty lists numbers its nodes without repetition. *)
Lemma parse_loop_ids (objs : list value) (node_id : Z)
      (nodes : list Node.t) (edges : list Edge.t) :
  parse_loop objs node_id [] [] = Ok (nodes, edges) ->
  NoDup (map Node.id nodes).
Proof.
  intros H. apply parse_loop_inv in H.
  destruct H as [ns [es [-> [_ [_ [Hi _]]]]]]. cbn [app].
  rewrite Hi. apply ids_from_NoDup.
Qed.

(** X11. The generator declares the nodes of a parsed document under
    pairwise different names: a node is declared as [(n<id>)], the parser
    numbers its nodes without repetition, and different ids print
    differently. *)
Theorem tikz_node_names_are_distinct :
  (forall height n s,
      node_line height n = Ok s ->
      exists rest,
        s = "\node[draw, circle, inner sep=1pt] (" ++ tikz_name n ++ ")" ++ rest)
  /\ (forall n m, tikz_name n = tikz_name m -> Node.id n = Node.id m)
  /\ (forall json_data nodes edges,
         parse_canvas_objects json_data = Ok (nodes, edges) ->
         NoDup (map tikz_name nodes)).
Proof.
  split; [| split].
  - intros height n s H. unfold node_line in H.
    bind_inv H. bind_inv H. bind_inv H. injection H as <-.
    eexists. unfold tikz_name. cbn [append]. reflexivity.
  - intros n m H. unfold tikz_name in H. injection H as H.
    now apply of_int_inj.
  - intros json_data nodes edges H. apply parse_canvas_objects_ok in H.
    destruct H as [H | [objs H]]; [injection H as -> _; constructor |].
    apply parse_loop_ids in H.
    change (map tikz_name nodes)
      with (map (fun n => "n" ++ Str.of_int (Node.id n)) nodes).
    rewrite <- (map_map Node.id (fun z => "n" ++ Str.of_int z)).
    apply Injective_map_NoDup; [| exact H].
    intros a b E. injection E as E. now apply of_int_inj.
Qed.

Lemma tikz_node_names_are_distinct_witness :
  exists nodes edges,
    parse_canvas_objects (canvas [fermion_circle; bare_ellipse; fermion_circle])
    = Ok (nodes, edges)
    /\ map tikz_name nodes = ["n0"; "n1"; "n2"]
    /\ NoDup (map tikz_name nodes).
Proof.
  eexists. eexists. split; [vm_compute; reflexivity |].
  split; [vm_compute; reflexivity |].
  apply (proj2 (proj2 tikz_node_names_are_distinct)
           (canvas [fermion_circle; bare_ellipse; fermion_circle]) _ []).
  vm_compute. reflexivity.
Defined.

Lemma count_nl_app (a b : string) :
  count_nl (a ++ b) = (count_nl a + count_nl b)%nat.
Proof.
  induction a as [|c a IH]; [reflexivity |].
  cbn [append count_nl]. rewrite IH. lia.
Qed.

Lemma count_nl_String (c : ascii) (s : string) :
  count_nl (String c s)
  = ((if Ascii.eqb c (ascii_of_nat 10) then 1 else 0) + count_nl s)%nat.
Proof. reflexivity. Qed.

Ltac count_nl_split :=
  repeat first [rewrite count_nl_app | rewrite count_nl_String].

Lemma digits_no_nl (s : string) : all_digits s = true -> count_nl s = 0%nat.
Proof.
  induction s as [|c s IH]; [reflexivity |].
  cbn [all_digits count_nl]. rewrite andb_true_iff. intros [Hc Hs].
  rewrite (IH Hs).
  destruct (Ascii.eqb_spec c (ascii_of_nat 10)) as [-> | _];
    [discriminate | reflexivity].
Qed.

Lemma of_int_no_nl (z : Z) : count_nl (Str.of_int z) = 0%nat.
Proof.
  destruct z as [|p|p].
  - reflexivity.
  - apply digits_no_nl. apply of_int_digits. lia.
  - unfold Str.of_int. cbn [Z.to_int NilZero.string_of_int].
    change (count_nl (NilZero.string_of_uint (Pos.to_uint p)) = 0%nat).
    destruct (Pos.to_uint p) as [|u|u|u|u|u|u|u|u|u|u] eqn:E; [reflexivity | ..];
      apply digits_no_nl;
      match goal with
      | |- all_digits (NilZero.string_of_uint ?d) = true => exact (uint_digits d)
      end.
Qed.

Lemma float_format_no_nl (f : spec_float) : count_nl (Float.format_1f f) = 0%nat.
Proof.
  destruct f as [s | s | | s m e]; cbn [Float.format_1f];
    try (destruct s; reflexivity); [reflexivity |].
  rewrite !count_nl_app, !of_int_no_nl. destruct s; reflexivity.
Qed.

Lemma format_no_nl (v : value) (s : string) :
  Py.format_1f v = Ok s -> count_nl s = 0%nat.
Proof.
  unfold Py.format_1f.
  destruct (Py.as_num v) as [n|]; [| destruct v; discriminate].
  intros H. bind_inv H. injection H as <-. apply float_format_no_nl.
Qed.

Lemma node_line_shape (height : Z) (n : Node.t) (s : string) :
  node_line height n = Ok s ->
  count_nl s = 0%nat /\ Str.startswith "\node" s = true.
Proof.
  unfold node_line. intros H. bind_inv H. bind_inv H. bind_inv H.
  injection H as <-. split; [| reflexivity].
  count_nl_split.
  rewrite !of_int_no_nl, (format_no_nl _ _ Ha0), (format_no_nl _ _ Ha1).
  reflexivity.
Qed.

Lemma edge_line_shape (height : Z) (e : Edge.t) (s : string) :
  edge_line height e = Ok s ->
  count_nl s = 0%nat /\ Str.startswith "\draw" s = true.
Proof.
  unfold edge_line. intros H. bind_inv H. bind_inv H.
  destruct (tikz_style_cases (Edge.type e)) as [E | [E | [E | E]]];
    rewrite E in H;
    bind_inv H; bind_inv H; bind_inv H; bind_inv H; injection H as <-;
    (split; [| reflexivity]);
    count_nl_split;
    rewrite (format_no_nl _ _ Ha1), (format_no_nl _ _ Ha2),
      (format_no_nl _ _ Ha3), (format_no_nl _ _ Ha4);
    reflexivity.
Qed.

Lemma join_no_nl (lines : list string) :
  Forall (fun l => count_nl l = 0%nat) lines ->
  count_nl (Str.join Str.nl lines) = Nat.pred (List.length lines).
Proof.
  induction 1 as [|l [|l' ls] Hl Hls IH]; [reflexivity | exact Hl |].
  change (Str.join Str.nl (l :: l' :: ls))
    with (l ++ Str.nl ++ Str.join Str.nl (l' :: ls)).
  rewrite !count_nl_app, Hl, IH. reflexivity.
Qed.

Lemma mapM_length {A B : Type} (f : A -> result B) (l : list A) (bs : list B) :
  mapM f l = Ok bs -> List.length bs = List.length l.
Proof.
  intros H. apply mapM_Forall2 in H. symmetry. now apply Forall2_length in H.
Qed.

Lemma mapM_Forall {A B : Type} (f : A -> result B) (P : B -> Prop)
      (l : list A) (bs : list B) :
  (forall a b, f a = Ok b -> P b) -> mapM f l = Ok bs -> Forall P bs.
Proof.
  intros HP H. apply mapM_Forall2 in H.
  induction H; constructor; eauto.
Qed.

(** X12. The document the generator returns is the four header lines, one
    [\node] line per node, one [\draw] line per edge and the closing line,
    the node lines before the edge lines and no line broken in two.  The
    block of node lines and the block of edge lines are each followed by a
    line break, so a diagram without nodes, or without edges, has an empty
    line in their place: the document has 7 line breaks, plus one for every
    node but the first and one for every edge but the first. *)
Theorem tikz_one_declaration_per_line (nodes : list Node.t) (edges : list Edge.t)
        (width height : Z) (tikz : string) :
  generate_tikz nodes edges width height = Ok tikz ->
  exists node_lines edge_lines,
    tikz = tikz_header ++ Str.join Str.nl node_lines ++ Str.nl
           ++ Str.join Str.nl edge_lines ++ Str.nl ++ tikz_footer
    /\ List.length node_lines = List.length nodes
    /\ List.length edge_lines = List.length edges
    /\ Forall (fun l => count_nl l = 0%nat /\ Str.startswith "\node" l = true)
              node_lines
    /\ Forall (fun l => count_nl l = 0%nat /\ Str.startswith "\draw" l = true)
              edge_lines
    /\ count_nl tikz
       = (7 + Nat.pred (List.length nodes) + Nat.pred (List.length edges))%nat.
Proof.
  unfold generate_tikz. intros H. bind_inv H. bind_inv H.
  assert (E : tikz = tikz_header ++ Str.join Str.nl a ++ Str.nl
                     ++ Str.join Str.nl a0 ++ Str.nl ++ tikz_footer)
    by congruence.
  clear H. subst tikz.
  pose proof (mapM_Forall _ _ _ _ (node_line_shape height) Ha) as Hn.
  pose proof (mapM_Forall _ _ _ _ (edge_line_shape height) Ha0) as He.
  exists a, a0. split; [reflexivity |].
  split; [now apply mapM_length in Ha |].
  split; [now apply mapM_length in Ha0 |].
  split; [exact Hn |]. split; [exact He |].
  rewrite !count_nl_app, !join_no_nl.
  - rewrite (mapM_length _ _ _ Ha), (mapM_length _ _ _ Ha0).
    change (count_nl tikz_header) with 4%nat.
    change (count_nl Str.nl) with 1%nat.
    change (count_nl tikz_footer) with 1%nat. lia.
  - revert He. apply Forall_impl. now intros l [H _].
  - revert Hn. apply Forall_impl. now intros l [H _].
Qed.

Lemma tikz_one_declaration_per_line_witness :
  exists tikz,
    generate_tikz [] [sample_edge "gluón (gluon)"] 800 400 = Ok tikz
    /\ count_nl tikz = 7%nat
    /\ tikz = tikz_header ++ Str.nl
              ++ "\draw[gluon] (0.0,400.0)  -- (100.0,400.0);" ++ Str.nl
              ++ tikz_footer.
Proof.
  eexists. split; [vm_compute; reflexivity |].
  split; [| vm_compute; reflexivity].
  destruct (tikz_one_declaration_per_line [] [sample_edge "gluón (gluon)"]
              800 400 _ eq_refl) as [ns [es [_ [_ [_ [_ [_ H]]]]]]].
  exact H.
Defined.

(** ** The two exports side by side *)

(** X13. The PNG and the TikZ export do not dispatch alike.  The renderer
    asks for "fermion" first and draws an arrow head exactly on the names
    that mention it; the generator asks for the photon and gluon names first
    and has the arrow as its default.  On every name without photon or gluon
    an arrow head in the PNG is an arrow in TikZ; over the seven type names
    the line styles agree (photon: dash-dot and [photon], gluon: dashed and
    [gluon]), and TikZ draws an arrow exactly where the PNG has an arrow
    head and, besides, on the vertex-coloured and on the unknown edges. *)
Theorem exports_disagree_on_two_names :
  (forall typ, snd (edge_style typ) = ("fermion" in? typ))
  /\ (forall typ,
         snd (edge_style typ) = true -> photon_or_gluon typ = false ->
         tikz_style typ = ("->", ""))
  /\ (forall typ,
         In typ type_names ->
         (snd (tikz_style typ) = "[photon]"
          <-> snd (fst (edge_style typ)) = "dashdot")
         /\ (snd (tikz_style typ) = "[gluon]"
             <-> snd (fst (edge_style typ)) = "dashed")
         /\ (fst (tikz_style typ) = "->"
             <-> snd (edge_style typ) = true
                 \/ typ = "vértice (vertex)" \/ typ = "desconocido")).
Proof.
  split; [exact edge_style_arrow |]. split.
  - intros typ Ha Hp. rewrite edge_style_arrow in Ha.
    unfold photon_or_gluon in Hp. rewrite !orb_false_iff in Hp.
    destruct Hp as [[Hp1 Hp2] Hg].
    unfold tikz_style. rewrite Hp1, Hp2, Hg, Ha. reflexivity.
  - intros typ H. simpl in H.
    repeat (destruct H as [<- | H];
            [vm_compute;
             repeat split; intros; try discriminate; try reflexivity;
             try tauto;
             repeat match goal with
                    | H : _ \/ _ |- _ => destruct H
                    end; discriminate |]).
    contradiction.
Qed.

Lemma exports_disagree_on_two_names_witness :
  tikz_style "fermion (→/←)" = ("->", "")
  /\ snd (edge_style "desconocido") = false
  /\ fst (tikz_style "desconocido") = "->".
Proof.
  destruct exports_disagree_on_two_names as [Ha [Hb Hc]].
  split; [apply Hb; reflexivity |].
  split; [rewrite Ha; reflexivity |].
  apply (proj2 (proj2 (Hc "desconocido" ltac:(simpl; tauto)))).
  right. right. reflexivity.
Defined.

(** ** The labels of the nodes *)

Lemma node_label_of_type_name (typ short : string) :
  In typ type_names ->
  (if negb (String.eqb typ "desconocido") then first_word typ else Ok "N")
  = Ok short ->
  In short node_labels
  /\ (short = "N" <-> typ = "desconocido")
  /\ (typ <> "desconocido" -> Str.startswith short typ = true).
Proof.
  intros H. simpl in H.
  repeat (destruct H as [<- | H];
          [vm_compute; intros E; injection E as <-;
           split; [tauto |];
           split; [split; intros; try discriminate; reflexivity |];
           intros; try reflexivity; congruence |]).
  contradiction.
Qed.

(** X14. Every node the parser returns is drawn, when the renderer gets
    through its arithmetic, as a black dot of radius 8 at the node, above the
    edges (zorder 5), with a label of size 8 at (x + 10, y - 10).  The label
    is the first word of the type name (one of vértice, fermion,
    antifermion, fotón, gluón, línea) and "N" exactly for an unknown
    type. *)
Theorem parsed_nodes_are_labelled (json_data : value)
        (nodes : list Node.t) (edges : list Edge.t) (n : Node.t)
        (arts : list artist) :
  parse_canvas_objects json_data = Ok (nodes, edges) ->
  In n nodes ->
  draw_node n = Ok arts ->
  exists tx ty short,
    arts = [Circle (Node.x n, Node.y n) 8 "k" 5; Text tx ty short 8]
    /\ Py.add (Node.x n) (VInt 10) = Ok tx
    /\ Py.sub (Node.y n) (VInt 10) = Ok ty
    /\ In short node_labels
    /\ (short = "N" <-> Node.type n = "desconocido")
    /\ (Node.type n <> "desconocido" ->
        Str.startswith short (Node.type n) = true).
Proof.
  intros Hp Hin Hd.
  assert (Ht : In (Node.type n) type_names).
  { apply parse_canvas_objects_ok in Hp.
    destruct Hp as [Hp | [objs Hp]]; [injection Hp as -> _; contradiction |].
    apply parse_loop_types in Hp. destruct Hp as [Hn _].
    rewrite Forall_forall in Hn. now apply Hn. }
  unfold draw_node in Hd. bind_inv Hd. bind_inv Hd. bind_inv Hd.
  assert (E : arts = [Circle (Node.x n, Node.y n) 8 "k" 5; Text a0 a1 a 8])
    by congruence.
  exists a0, a1, a. split; [exact E |]. split; [exact Ha0 |].
  split; [exact Ha1 |]. apply (node_label_of_type_name _ _ Ht Ha).
Qed.

Lemma parsed_nodes_are_labelled_witness :
  exists tx ty short,
    [Circle (VInt 15, VInt 25) 8 "k" 5; Text (VInt 25) (VInt 15) "fermion" 8]
    = [Circle (VInt 15, VInt 25) 8 "k" 5; Text tx ty short 8]
    /\ Py.add (VInt 15) (VInt 10) = Ok tx
    /\ Py.sub (VInt 25) (VInt 10) = Ok ty
    /\ In short node_labels
    /\ (short = "N" <-> "fermion (→/←)" = "desconocido")
    /\ ("fermion (→/←)" <> "desconocido" ->
        Str.startswith short "fermion (→/←)" = true).
Proof.
  apply (parsed_nodes_are_labelled (canvas [fermion_circle])
           [Node.mk 0 (VInt 15) (VInt 25) "fermion (→/←)" (VDict fermion_circle)]
           []
           (Node.mk 0 (VInt 15) (VInt 25) "fermion (→/←)" (VDict fermion_circle))).
  - vm_compute. reflexivity.
  - left. reflexivity.
  - vm_compute. reflexivity.
Defined.

(** ** The quick view *)

Lemma and_then_ok (first second : run) :
  snd first = None ->
  and_then first second = ((fst first ++ fst second)%list, snd second).
Proof. unfold and_then. now intros ->. Qed.

Lemma and_then_raise (first second : run) :
  snd first <> None -> and_then first second = first.
Proof. unfold and_then. destruct (snd first); [reflexivity | congruence]. Qed.

Lemma and_then_in (first second : run) (x : shown) :
  In x (fst (and_then first second)) -> In x (fst first) \/ In x (fst second).
Proof.
  unfold and_then. destruct (snd first); [now left |].
  cbn [fst]. apply in_app_or.
Qed.

(** [int] on a finite number returns its integer part, whatever [int] does
    on text. *)
Lemma py_int_finite (int_of_str : string -> result Z) (v : value) :
  finite_number v = true -> py_int int_of_str v = Ok (int_part v).
Proof.
  unfold finite_number, int_part.
  destruct v as [|b|z|f|s|l|d]; try discriminate; try reflexivity.
  cbn [Py.as_num py_int]. destruct f; try discriminate; reflexivity.
Qed.

Lemma node_text_finite (int_of_str : string -> result Z) (i : nat) (n : Node.t) :
  node_finite n = true -> node_text int_of_str i n = Ok (node_row n).
Proof.
  unfold node_finite. rewrite andb_true_iff. intros [Hx Hy].
  unfold node_text. rewrite (py_int_finite _ _ Hx), (py_int_finite _ _ Hy).
  reflexivity.
Qed.

Lemma edge_text_finite (int_of_str : string -> result Z) (i : nat) (e : Edge.t) :
  edge_finite e = true -> edge_text int_of_str i e = Ok (edge_row i e).
Proof.
  unfold edge_finite. rewrite !andb_true_iff. intros [[[H1 H2] H3] H4].
  unfold edge_text.
  rewrite (py_int_finite _ _ H1), (py_int_finite _ _ H2),
    (py_int_finite _ _ H3), (py_int_finite _ _ H4).
  reflexivity.
Qed.

(** The loop over rows that all have a text. *)
Lemma write_rows_total {A : Type} (row : nat -> A -> result string)
      (text : nat -> A -> string) (ncols : nat) (l : list A) :
  (forall i a, In a l -> row i a = Ok (text i a)) ->
  forall i,
    write_rows row ncols i l
    = (map (fun ia => ColumnWrite (fst ia mod ncols) (text (fst ia) (snd ia)))
           (combine (seq i (List.length l)) l), None).
Proof.
  induction l as [|a l IH]; intros H i; [reflexivity |].
  cbn [write_rows]. rewrite (H i a (or_introl eq_refl)).
  rewrite IH by (intros k b Hb; apply H; now right).
  reflexivity.
Qed.

Lemma write_columns_total {A : Type} (row : nat -> A -> result string)
      (text : nat -> A -> string) (l : list A) :
  (forall i a, In a l -> row i a = Ok (text i a)) ->
  write_columns row l = (dealt text l, None).
Proof.
  intros H. destruct l as [|a l]; [reflexivity |].
  unfold write_columns, dealt.
  rewrite (write_rows_total row text _ (a :: l) H). reflexivity.
Qed.

(** Every row the loop writes goes to one of the [ncols] columns. *)
Lemma write_rows_in {A : Type} (row : nat -> A -> result string)
      (ncols : nat) (l : list A) (x : shown) :
  (0 < ncols)%nat ->
  forall i,
    In x (fst (write_rows row ncols i l)) ->
    exists col text, x = ColumnWrite col text /\ (col < ncols)%nat.
Proof.
  intros Hn. induction l as [|a l IH]; intros i H; [contradiction |].
  cbn [write_rows] in H. destruct (row i a) as [text|e]; [| contradiction].
  apply and_then_in in H. destruct H as [[<- | []] | H].
  - exists (i mod ncols)%nat, text. split; [reflexivity |].
    apply Nat.mod_upper_bound. lia.
  - now apply IH in H.
Qed.

Lemma write_columns_in {A : Type} (row : nat -> A -> result string)
      (l : list A) (x : shown) :
  In x (fst (write_columns row l)) ->
  (exists n, x = StColumns n /\ (1 <= n <= 4)%nat)
  \/ (exists col text, x = ColumnWrite col text /\ (col < 4)%nat).
Proof.
  destruct l as [|a l]; [contradiction |].
  unfold write_columns. intros H.
  apply and_then_in in H. destruct H as [[<- | []] | H].
  - left. eexists. split; [reflexivity |]. cbn [List.length]. lia.
  - right. apply write_rows_in in H; [| cbn [List.length]; lia].
    destruct H as [col [text [-> Hc]]]. exists col, text.
    split; [reflexivity | lia].
Qed.

Lemma quick_view_in (int_of_str : string -> result Z)
      (nodes : list Node.t) (edges : list Edge.t) (x : shown) :
  In x (fst (quick_view int_of_str nodes edges)) ->
  In x (quick_view_head nodes edges)
  \/ (exists n, x = StColumns n /\ (1 <= n <= 4)%nat)
  \/ (exists col text, x = ColumnWrite col text /\ (col < 4)%nat).
Proof.
  unfold quick_view. intros H.
  apply and_then_in in H. destruct H as [H | H]; [now left |].
  right. apply and_then_in in H.
  destruct H as [H | H]; now apply write_columns_in in H.
Qed.

Lemma quick_view_finite (int_of_str : string -> result Z)
      (nodes : list Node.t) (edges : list Edge.t) :
  forallb node_finite nodes = true ->
  forallb edge_finite edges = true ->
  quick_view int_of_str nodes edges
  = ((quick_view_head nodes edges
      ++ dealt (fun _ => node_row) nodes ++ dealt edge_row edges)%list,
     None).
Proof.
  intros Hn He. rewrite forallb_forall in Hn, He.
  unfold quick_view.
  rewrite (write_columns_total (node_text int_of_str) (fun _ => node_row) nodes)
    by (intros i n Hin; apply node_text_finite; auto).
  rewrite (write_columns_total (edge_text int_of_str) edge_row edges)
    by (intros i e Hin; apply edge_text_finite; auto).
  reflexivity.
Qed.

(** X15. The quick view deals its rows in turn to at most four columns: it
    asks for [min(4, len)] columns, never for none, and every row goes to a
    column that exists, whether or not a later row fails.  On coordinates
    that are finite numbers it raises nothing and shows the two head lines,
    then the node rows and the edge rows, row [i] in column
    [i mod min(4, len)], each coordinate cut to its integer part. *)
Theorem quick_view_deals_rows_in_turn (int_of_str : string -> result Z)
        (nodes : list Node.t) (edges : list Edge.t) :
  (forall x,
      In x (fst (quick_view int_of_str nodes edges)) ->
      (forall n, x = StColumns n -> (1 <= n <= 4)%nat)
      /\ (forall col text, x = ColumnWrite col text -> (col < 4)%nat))
  /\ (forallb node_finite nodes = true ->
      forallb edge_finite edges = true ->
      quick_view int_of_str nodes edges
      = ((quick_view_head nodes edges
          ++ dealt (fun _ => node_row) nodes ++ dealt edge_row edges)%list,
         None)).
Proof.
  split.
  - intros x H. apply quick_view_in in H.
    destruct H as [H | [[n [-> Hn]] | [col [text [-> Hc]]]]].
    + simpl in H. destruct H as [<- | [<- | []]]; split; discriminate.
    + split; [intros m E; injection E as <-; exact Hn | discriminate].
    + split; [discriminate | intros c t E; injection E as <- _; exact Hc].
  - apply quick_view_finite.
Qed.

Lemma quick_view_deals_rows_in_turn_witness :
  quick_view no_text
    [Node.mk 0 (VFloat (Float.of_ratio (-27) 10)) (VInt 25) "desconocido" VNone]
    (map sample_edge ["a"; "b"; "c"; "d"; "e"])
  = ([StMarkdown "### Vista rápida del diagrama detectado";
      StWrite "Vértices detectados: 1 — propagadores detectados: 5";
      StColumns 1;
      ColumnWrite 0 "Node 0: (-2, 25) — desconocido";
      StColumns 4;
      ColumnWrite 0 "Edge 0: (0,0) → (100,0) — a";
      ColumnWrite 1 "Edge 1: (0,0) → (100,0) — b";
      ColumnWrite 2 "Edge 2: (0,0) → (100,0) — c";
      ColumnWrite 3 "Edge 3: (0,0) → (100,0) — d";
      ColumnWrite 0 "Edge 4: (0,0) → (100,0) — e"], None).
Proof.
  rewrite (proj2 (quick_view_deals_rows_in_turn no_text
             [Node.mk 0 (VFloat (Float.of_ratio (-27) 10)) (VInt 25)
                      "desconocido" VNone]
             (map sample_edge ["a"; "b"; "c"; "d"; "e"])));
    vm_compute; reflexivity.
Defined.

(** ** The page *)


Lemma buttons_shown_nil (l : list shown) (e : option exn) :
  (forall x label, In x l -> x <> StButton label) ->
  buttons_shown (l, e) = [].
Proof.
  unfold buttons_shown. cbn [fst].
  induction l as [|x l IH]; intros H; [reflexivity |].
  cbn [map List.concat]. rewrite IH by (intros y lb Hy; apply H; now right).
  destruct x; try reflexivity.
  exfalso. apply (H (StButton label) label); [now left | reflexivity].
Qed.

(** The quick view shows no button. *)
Lemma quick_view_no_button (int_of_str : string -> result Z)
      (nodes : list Node.t) (edges : list Edge.t) (x : shown) :
  In x (fst (quick_view int_of_str nodes edges)) ->
  (forall label, x <> StButton label) /\ (forall w, x <> Shown w).
Proof.
  intros H. apply quick_view_in in H.
  destruct H as [H | [[n [-> _]] | [col [text [-> _]]]]];
    [| split; discriminate | split; discriminate].
  simpl in H. destruct H as [<- | [<- | []]]; split; discriminate.
Qed.

(** A row that cannot be written stops the loop it is in. *)
Lemma write_rows_raises {A : Type} (row : nat -> A -> result string)
      (ncols : nat) (l : list A) (a : A) :
  In a l -> (forall i, exists e, row i a = Raise e) ->
  forall i, snd (write_rows row ncols i l) <> None.
Proof.
  intros Hin Hr. induction l as [|b l IH]; [contradiction |]. intros i.
  cbn [write_rows]. destruct (row i b) as [text|e] eqn:Eb; [| discriminate].
  destruct Hin as [-> | Hin].
  - destruct (Hr i) as [e He]. congruence.
  - unfold and_then. cbn [snd fst]. now apply IH.
Qed.

Lemma write_columns_raises {A : Type} (row : nat -> A -> result string)
      (l : list A) (a : A) :
  In a l -> (forall i, exists e, row i a = Raise e) ->
  snd (write_columns row l) <> None.
Proof.
  intros Hin Hr. destruct l as [|b l]; [contradiction |].
  unfold write_columns, and_then. cbn [snd fst].
  now apply (write_rows_raises row _ (b :: l) a).
Qed.

Lemma py_int_no_int (int_of_str : string -> result Z) (v : value) :
  no_int v = true -> py_int int_of_str v = Raise TypeError.
Proof. destruct v; try discriminate; reflexivity. Qed.

Lemma edge_text_raises (int_of_str : string -> result Z) (i : nat) (e : Edge.t) :
  no_int (Edge.x1 e) || no_int (Edge.y1 e)
  || no_int (Edge.x2 e) || no_int (Edge.y2 e) = true ->
  exists err, edge_text int_of_str i e = Raise err.
Proof.
  intros H. unfold edge_text.
  destruct (py_int int_of_str (Edge.x1 e)) as [x1|err] eqn:E1;
    [| cbn [bind]; eauto].
  destruct (py_int int_of_str (Edge.y1 e)) as [y1|err] eqn:E2;
    [| cbn [bind]; eauto].
  destruct (py_int int_of_str (Edge.x2 e)) as [x2|err] eqn:E3;
    [| cbn [bind]; eauto].
  destruct (py_int int_of_str (Edge.y2 e)) as [y2|err] eqn:E4;
    [| cbn [bind]; eauto].
  rewrite !orb_true_iff in H.
  destruct H as [[[H | H] | H] | H];
    apply (py_int_no_int int_of_str) in H; congruence.
Qed.

Lemma quick_view_raises (int_of_str : string -> result Z)
      (nodes : list Node.t) (edges : list Edge.t) (e : Edge.t) :
  In e edges ->
  no_int (Edge.x1 e) || no_int (Edge.y1 e)
  || no_int (Edge.x2 e) || no_int (Edge.y2 e) = true ->
  snd (quick_view int_of_str nodes edges) <> None.
Proof.
  intros Hin He. unfold quick_view.
  rewrite and_then_ok by reflexivity. cbn [snd].
  unfold and_then at 1.
  destruct (snd (write_columns (node_text int_of_str) nodes)) eqn:En;
    [rewrite En; discriminate |].
  cbn [snd]. apply (write_columns_raises _ edges e Hin).
  intros i. now apply edge_text_raises.
Qed.

(** Every line or path of the input has its edge in the output, and the
    edge is what [parse_line] makes of it. *)
Lemma parse_loop_edge_of_shape (objs : list value) (node_id : Z)
      (nodes : list Node.t) (edges : list Edge.t) (d : dict) :
  parse_loop objs node_id [] [] = Ok (nodes, edges) ->
  In (VDict d) objs -> is_edge_shape (VDict d) = true ->
  exists e stroke, In e edges /\ parse_line d stroke = Ok e.
Proof.
  intros H Hin Hk.
  assert (Hall : Forall (fun e => forall d', Edge.raw e = VDict d' ->
                            exists s, parse_line d' s = Ok e) edges).
  { apply (parse_loop_forall (fun _ => True)
             (fun e => forall d', Edge.raw e = VDict d' ->
                                  exists s, parse_line d' s = Ok e) objs)
      with (5 := H); auto.
    intros i obj e _ Hp. apply parse_object_edge in Hp.
    destruct Hp as [d0 [s [_ [_ Hl]]]]. intros d' Hraw.
    pose proof (parse_line_ok _ _ _ Hl) as [Hr _].
    assert (d' = d0) as -> by congruence. now exists s. }
  apply parse_loop_inv in H.
  destruct H as [ns [es [_ [-> [_ [_ He]]]]]]. cbn [app] in Hall |- *.
  assert (Hf : In (VDict d) (filter is_edge_shape objs))
    by (apply filter_In; auto).
  rewrite <- He in Hf. apply in_map_iff in Hf. destruct Hf as [e [Hraw Hine]].
  rewrite Forall_forall in Hall.
  destruct (Hall e Hine d Hraw) as [s Hs]. now exists e, s.
Qed.

(** X16. A line that gives [x1] but has [None] (or a list, or a mapping) for
    one of its endpoint fields takes the whole page down: if the parser gets
    through the document, the edge it makes of that line keeps the [None],
    the quick view raises at [int(...)] there at the latest, and the script
    stops before any button and any export is shown, whichever button was
    pressed. *)
Theorem incomplete_line_stops_the_page (int_of_str : string -> result Z)
        (d : dict) (objs : list value) (shape : dict) (button : click) :
  Py.lookup d "objects" = Some (VList objs) ->
  In (VDict shape) objs ->
  is_edge_shape (VDict shape) = true ->
  Py.get shape "x1" VNone <> VNone ->
  no_int (Py.get shape "x1" VNone) || no_int (Py.get shape "y1" VNone)
  || no_int (Py.get shape "x2" VNone) || no_int (Py.get shape "y2" VNone)
  = true ->
  snd (page int_of_str (VDict d) button) <> None
  /\ buttons_shown (page int_of_str (VDict d) button) = []
  /\ (forall w, ~ In (Shown w) (fst (page int_of_str (VDict d) button))).
Proof.
  intros Hd Hin Hk Hx Hno. unfold page.
  rewrite (parse_canvas_objects_loop d objs Hd).
  destruct (parse_loop objs 0 [] []) as [[nodes edges]|err] eqn:Hp;
    [| split; [discriminate | split; [reflexivity | intros w []]]].
  destruct (parse_loop_edge_of_shape objs 0 nodes edges shape Hp Hin Hk)
    as [e [s [He Hl]]].
  assert (Ee : e = Edge.mk (Py.get shape "x1" VNone) (Py.get shape "y1" VNone)
                           (Py.get shape "x2" VNone) (Py.get shape "y2" VNone)
                           (color_to_type (Some s)) (VDict shape)).
  { unfold parse_line in Hl.
    destruct (Py.get shape "x1" VNone); [now destruct Hx | congruence ..]. }
  assert (Hq : snd (quick_view int_of_str nodes edges) <> None).
  { apply (quick_view_raises int_of_str nodes edges e He).
    rewrite Ee. exact Hno. }
  rewrite and_then_raise by exact Hq.
  split; [exact Hq |]. split.
  - destruct (quick_view int_of_str nodes edges) as [l err] eqn:Eq.
    apply buttons_shown_nil. intros x label Hx'.
    apply (quick_view_no_button int_of_str nodes edges).
    rewrite Eq. exact Hx'.
  - intros w Hw.
    now apply (quick_view_no_button int_of_str nodes edges (Shown w)) with w.
Qed.

Lemma incomplete_line_stops_the_page_witness :
  page no_text (canvas [fermion_circle; half_line]) ClickGenerarTikZ
  = ([StMarkdown "### Vista rápida del diagrama detectado";
      StWrite "Vértices detectados: 1 — propagadores detectados: 1";
      StColumns 1;
      ColumnWrite 0 "Node 0: (15, 25) — fermion (→/←)";
      StColumns 1], Some TypeError)
  /\ snd (page no_text (canvas [fermion_circle; half_line]) ClickGenerarTikZ)
     <> None
  /\ buttons_shown
       (page no_text (canvas [fermion_circle; half_line]) ClickGenerarTikZ) = []
  /\ (forall w,
         ~ In (Shown w)
              (fst (page no_text (canvas [fermion_circle; half_line])
                         ClickGenerarTikZ))).
Proof.
  split; [vm_compute; reflexivity |].
  apply (incomplete_line_stops_the_page no_text
           [("version", VStr "4.4.0");
            ("objects", VList (map VDict [fermion_circle; half_line]))]
           (map VDict [fermion_circle; half_line]) half_line ClickGenerarTikZ).
  - reflexivity.
  - right. left. reflexivity.
  - reflexivity.
  - discriminate.
  - reflexivity.
Defined.






(** ** Documents that are not what the canvas sends *)

(** X18. What the parser does with a document that is not a mapping with a
    list of shapes.  Every false value (None, an empty mapping, list or text,
    zero) gives the empty result.  A true number raises [TypeError] at the
    membership test; so does a text that contains "objects" and a list that
    holds it, at the subscript.  Under the key [objects], [None] or a number
    raises [TypeError] at the loop, while a non-empty text or mapping is
    iterated, character by character or key by key, and raises
    [AttributeError] at the first [obj.get]. *)
Theorem parser_on_foreign_documents :
  (forall json_data,
      Py.truthy json_data = false -> parse_canvas_objects json_data = Ok ([], []))
  /\ (forall json_data,
         Py.truthy json_data = true -> not_iterable json_data = true ->
         parse_canvas_objects json_data = Raise TypeError)
  /\ (forall s,
         ("objects" in? s) = true ->
         parse_canvas_objects (VStr s) = Raise TypeError)
  /\ (forall l,
         In (VStr "objects") l ->
         parse_canvas_objects (VList l) = Raise TypeError)
  /\ (forall d objects,
         Py.lookup d "objects" = Some objects ->
         (not_iterable objects = true ->
          parse_canvas_objects (VDict d) = Raise TypeError)
         /\ (forall s, objects = VStr s -> s <> "" ->
                       parse_canvas_objects (VDict d) = Raise AttributeError)
         /\ (forall d', objects = VDict d' -> d' <> [] ->
                        parse_canvas_objects (VDict d) = Raise AttributeError)).
Proof.
  split; [| split; [| split; [| split]]].
  - intros json_data H. unfold parse_canvas_objects. now rewrite H.
  - intros json_data H Hn. unfold parse_canvas_objects. rewrite H.
    destruct json_data; try discriminate; reflexivity.
  - intros s H. unfold parse_canvas_objects.
    destruct s as [|c s]; [discriminate |].
    cbn [Py.truthy String.eqb negb]. now rewrite H.
  - intros l H. unfold parse_canvas_objects.
    destruct l as [|v l]; [contradiction |]. cbn [Py.truthy negb].
    assert (E : existsb (fun v => eq_str v "objects") (v :: l) = true).
    { apply existsb_exists. exists (VStr "objects"). split; [exact H | reflexivity]. }
    now rewrite E.
  - intros d objects Hd.
    assert (Hp : parse_canvas_objects (VDict d)
                 = (l <- iterate objects ;; parse_loop l 0 [] [])).
    { unfold parse_canvas_objects. destruct d as [|kv d]; [discriminate |].
      cbn [Py.truthy negb]. now rewrite Hd. }
    rewrite Hp. split; [| split].
    + intros Hn. destruct objects; try discriminate; reflexivity.
    + intros s -> Hs. destruct s as [|c s]; [contradiction | reflexivity].
    + intros d' -> Hd'. destruct d' as [|[k v] d']; [contradiction | reflexivity].
Qed.

Lemma parser_on_foreign_documents_witness :
  parse_canvas_objects (VInt 0) = Ok ([], [])
  /\ parse_canvas_objects (VInt 5) = Raise TypeError
  /\ parse_canvas_objects (VDict [("objects", VStr "[]")]) = Raise AttributeError.
Proof.
  destruct parser_on_foreign_documents as [H1 [H2 [_ [_ H5]]]].
  split; [apply H1; reflexivity |].
  split; [apply H2; reflexivity |].
  apply (proj1 (proj2 (H5 [("objects", VStr "[]")] (VStr "[]") eq_refl)) "[]");
    [reflexivity | discriminate].
Defined.
